(** * luademel-memos: itinerary tab controller and memories backend

    A shallow embedding of the parts of [script.js] (itinerary extractor,
    per-item store, tab/panel controller) and [server.js] (login, memory
    listing, owner-only update and delete) that the specification's
    testable properties talk about, with the properties proved or refuted
    on the embedding. *)

From Stdlib Require Import ZArith List String Ascii Bool Lia.
From stdpp Require Import base option strings gmap pretty.
Import ListNotations.

Local Open Scope string_scope.
Local Open Scope Z_scope.
Local Set Warnings "-register-all".

(** ** JavaScript values and string built-ins used by the sources *)

Module JS.

(** The numbers the sources compute with are day numbers produced by
    [parseInt] and small indices: an integer or [NaN]. They are the
    code's numbers within the range in which JavaScript integers are
    exact, from [-(2^53 - 1)] to [2^53 - 1]. *)
Inductive number := Int (z : Z) | NaN.

Definition number_eqb (a b : number) : bool :=
  match a, b with
  | Int x, Int y => x =? y
  | _, _ => false                     (* NaN === NaN is false *)
  end.

(** [x > y] and [x < y]; every comparison with [NaN] is false. *)
Definition gt (a b : number) : bool :=
  match a, b with Int x, Int y => x >? y | _, _ => false end.
Definition lt (a b : number) : bool :=
  match a, b with Int x, Int y => x <? y | _, _ => false end.

Definition add (a b : number) : number :=
  match a, b with Int x, Int y => Int (x + y) | _, _ => NaN end.
Definition sub (a b : number) : number :=
  match a, b with Int x, Int y => Int (x - y) | _, _ => NaN end.

(** [Number.prototype.toString] / [String(n)] / template interpolation. *)
Definition toString (n : number) : string :=
  match n with Int z => pretty z | NaN => "NaN" end.

(** Truthiness of a string: only the empty string is falsy. *)
Definition truthy (s : string) : bool :=
  match s with EmptyString => false | _ => true end.

(** Truthiness of a possibly [undefined]/[null] string. *)
Definition truthy_opt (o : option string) : bool :=
  match o with Some s => truthy s | None => false end.

(** White space as [String.prototype.trim], [Number] and [parseInt] see
    it: the WhiteSpace and LineTerminator characters of ECMAScript. A
    model string holds the UTF-8 bytes of the JavaScript string, so a
    white-space character takes one, two or three bytes.

    One byte: space, tab, line feed, vertical tab, form feed, carriage
    return. *)
Definition is_ws (c : ascii) : bool :=
  let n := nat_of_ascii c in
  (n =? 32)%nat || (n =? 9)%nat || (n =? 10)%nat ||
  (n =? 11)%nat || (n =? 12)%nat || (n =? 13)%nat.

(** Two bytes: the no-break space U+00A0 ([C2 A0]). *)
Definition is_ws2 (a b : ascii) : bool :=
  (nat_of_ascii a =? 194)%nat && (nat_of_ascii b =? 160)%nat.

(** Three bytes: U+1680 ([E1 9A 80]); U+2000 to U+200A, the line and
    paragraph separators U+2028 and U+2029, and U+202F ([E2 80 80] to
    [E2 80 8A], [E2 80 A8], [E2 80 A9], [E2 80 AF]); U+205F
    ([E2 81 9F]); U+3000 ([E3 80 80]); the byte order mark U+FEFF
    ([EF BB BF]). *)
Definition is_ws3 (a b c : ascii) : bool :=
  let x := nat_of_ascii a in
  let y := nat_of_ascii b in
  let z := nat_of_ascii c in
  ((x =? 225) && (y =? 154) && (z =? 128))%nat ||
  ((x =? 226)%nat && (y =? 128)%nat &&
   (((128 <=? z) && (z <=? 138))%nat || (z =? 168)%nat || (z =? 169)%nat || (z =? 175)%nat)) ||
  ((x =? 226) && (y =? 129) && (z =? 159))%nat ||
  ((x =? 227) && (y =? 128) && (z =? 128))%nat ||
  ((x =? 239) && (y =? 187) && (z =? 191))%nat.

(** The string after its first character, when that character is white
    space. *)
Definition afterWs (s : string) : option string :=
  match s with
  | String a r =>
      if is_ws a then Some r else
      match r with
      | String b r2 =>
          if is_ws2 a b then Some r2 else
          match r2 with
          | String c r3 => if is_ws3 a b c then Some r3 else None
          | EmptyString => None
          end
      | EmptyString => None
      end
  | EmptyString => None
  end.

(** [trimStart]: leading white-space characters are dropped one by
    one. *)
Fixpoint trimStart (s : string) : string :=
  match s with
  | String a r =>
      if is_ws a then trimStart r else
      match r with
      | String b r2 =>
          if is_ws2 a b then trimStart r2 else
          match r2 with
          | String c r3 => if is_ws3 a b c then trimStart r3 else s
          | EmptyString => s
          end
      | EmptyString => s
      end
  | EmptyString => EmptyString
  end.

(** [trimEnd]: a byte is kept as long as what starts at it is not white
    space only. *)
Fixpoint trimEnd (s : string) : string :=
  match s with
  | EmptyString => EmptyString
  | String c r => if truthy (trimStart s) then String c (trimEnd r) else EmptyString
  end.

Definition trim (s : string) : string := trimEnd (trimStart s).

(** [s.startsWith(p)] *)
Fixpoint startsWith (s p : string) : bool :=
  match p, s with
  | EmptyString, _ => true
  | String a p', String b s' => Ascii.eqb a b && startsWith s' p'
  | String _ _, EmptyString => false
  end.

(** [s.includes(needle)] *)
Fixpoint includes (s needle : string) : bool :=
  startsWith s needle ||
  match s with
  | EmptyString => false
  | String _ r => includes r needle
  end.

(** [s.split(sep)] for a one-character separator. *)
Fixpoint split (sep : ascii) (s : string) : list string :=
  match s with
  | EmptyString => [EmptyString]
  | String c r =>
      if Ascii.eqb c sep then EmptyString :: split sep r
      else match split sep r with
           | h :: t => String c h :: t
           | [] => [String c EmptyString]
           end
  end.

Definition is_digit (c : ascii) : bool :=
  let n := nat_of_ascii c in (48 <=? n)%nat && (n <=? 57)%nat.

Definition digit_val (c : ascii) : Z := Z.of_nat (nat_of_ascii c) - 48.

(** The longest prefix of decimal digits, accumulated left to right, and
    whether at least one digit was read. *)
Fixpoint digits (s : string) (acc : Z) (seen : bool) : Z * bool :=
  match s with
  | String c r => if is_digit c then digits r (10 * acc + digit_val c) true
                  else (acc, seen)
  | EmptyString => (acc, seen)
  end.

(** Every character is a decimal digit, and there is at least one. *)
Fixpoint all_digits (s : string) : bool :=
  match s with
  | EmptyString => false
  | String c EmptyString => is_digit c
  | String c r => is_digit c && all_digits r
  end.

(** [parseInt(s, 10)]: leading white space is skipped, one sign is
    accepted, then the longest run of digits is read; no digit gives
    [NaN]. [parseInt(undefined, 10)] is [NaN] as well. *)
Definition parseInt10 (o : option string) : number :=
  match o with
  | None => NaN
  | Some s =>
      match trimStart s with
      | String "-" r => let '(v, ok) := digits r 0 false in
                        if ok then Int (- v) else NaN
      | String "+" r => let '(v, ok) := digits r 0 false in
                        if ok then Int v else NaN
      | t => let '(v, ok) := digits t 0 false in
             if ok then Int v else NaN
      end
  end.

(** [Number(s)] within the number model: after trimming, an optional
    sign followed by decimal digits only gives that integer and the blank
    string gives 0; anything else counts as not a number (fractions,
    exponents, hexadecimal literals and [Infinity] are outside the
    model). *)
Definition Number_ (s : string) : number :=
  match trim s with
  | EmptyString => Int 0
  | String "-" r => if all_digits r then Int (- fst (digits r 0 false)) else NaN
  | String "+" r => if all_digits r then Int (fst (digits r 0 false)) else NaN
  | t => if all_digits t then Int (fst (digits t 0 false)) else NaN
  end.

Definition isNaN (n : number) : bool :=
  match n with NaN => true | Int _ => false end.

(** Lower-casing on the ASCII range, an instance of
    [String.prototype.toLowerCase] for texts without other cased
    letters. *)
Definition asciiLowerChar (c : ascii) : ascii :=
  let n := nat_of_ascii c in
  if (65 <=? n)%nat && (n <=? 90)%nat then ascii_of_nat (n + 32) else c.

Fixpoint asciiLower (s : string) : string :=
  match s with
  | EmptyString => EmptyString
  | String c r => String (asciiLowerChar c) (asciiLower r)
  end.

(** [l.findIndex(p)], with [None] for the source's [-1]. *)
Fixpoint findIndex {A} (p : A -> bool) (l : list A) : option nat :=
  match l with
  | [] => None
  | x :: r => if p x then Some O else option_map S (findIndex p r)
  end.

End JS.

(** ** The memories backend ([server.js]) *)

Module Server.

(** The [day] field of a stored memory: [Number(day)] when the submitted
    value is numeric, [String(day)] otherwise. *)
Inductive dayRef := DayNumber (n : Z) | DayString (s : string).

(** [String(m.day)] *)
Definition dayRef_String (d : dayRef) : string :=
  match d with DayNumber n => pretty n | DayString s => s end.

(** [isNaN(Number(day)) ? String(day) : Number(day)] *)
Definition normaliseDay (s : string) : dayRef :=
  match JS.Number_ s with
  | JS.Int n => DayNumber n
  | JS.NaN => DayString s
  end.

Record memory := mkMemory {
  id : string;
  user : string;
  title : string;
  text : string;
  date : string;
  tags : list string;
  location : string;
  status : string;
  media : list string;
  day : option dayRef;
  createdAt : string;
  updatedAt : string;
  reactions : list (string * nat);
}.

Record comment := mkComment {
  comment_id : string;
  memoryId : string;
  comment_user : string;
  comment_text : string;
  comment_createdAt : string;
  comment_reactions : list (string * nat);
}.

(** The JSON document behind [loadDB]/[saveDB]. *)
Record database := mkDB { memories : list memory; comments : list comment }.

(** What the handlers can change: the database file and the files of the
    server directory that media paths name. *)
Record state := mkState { db : database; files : list string }.

(** Response bodies the modelled handlers send with [res.json]. *)
Inductive body :=
  | ErrorBody (error : string)
  | MessageBody (message : string)
  | MemoriesBody (result : list memory)
  | MemoryBody (result : memory).

Record response := mkResponse { code : nat; payload : body }.

(** [req.session.user.username], when a session exists. *)
Definition session := option string.

(** [requireAuth] sends this when there is no session. *)
Definition unauthorized : response := mkResponse 401%nat (ErrorBody "Não autorizado").

(** The default [USERS] object of the source. *)
Definition defaultUSERS : gmap string string :=
  <["carina" := "amore"]> (<["gui" := "amoreGui"]> (<["admin" := "password"]> ∅)).

Record loginBody := { username : option string; password : option string }.

(** [app.post('/auth/login', ...)]: the response and the session
    afterwards. *)
Definition login (USERS : gmap string string) (sess : session) (b : loginBody)
  : response * session :=
  if negb (JS.truthy_opt (username b)) || negb (JS.truthy_opt (password b)) then
    (mkResponse 400%nat (ErrorBody "Usuário e senha são obrigatórios"), sess)
  else
    match username b, password b with
    | Some u, Some p =>
        match USERS !! u with
        | Some stored =>
            if JS.truthy stored && String.eqb stored p then
              (mkResponse 200%nat (MessageBody "Login realizado com sucesso"), Some u)
            else (mkResponse 401%nat (ErrorBody "Credenciais inválidas"), sess)
        | None => (mkResponse 401%nat (ErrorBody "Credenciais inválidas"), sess)
        end
    | _, _ => (mkResponse 401%nat (ErrorBody "Credenciais inválidas"), sess)
    end.

(** The query string of [GET /memories]. *)
Record query := mkQuery {
  q_tag : option string;
  q_status : option string;
  q_q : option string;
  q_from : option string;
  q_to : option string;
  q_day : option string;
}.

(** [day !== undefined && day !== null && String(day).trim() !== ''] *)
Definition dayGiven (d : option string) : bool :=
  match d with
  | Some s => JS.truthy (JS.trim s)
  | None => false
  end.

Section Handlers.

(** Built-ins of the runtime the handlers call: [new Date(s)] as the time
    value of the date ([NaN] for an invalid date) and
    [String.prototype.toLowerCase]. *)
Variable Date_ : string -> JS.number.
Variable toLowerCase : string -> string.

(** [a >= b] on two [Date] objects: both are converted to their time
    values, and an invalid date compares false. *)
Definition date_ge (a b : JS.number) : bool :=
  match a, b with
  | JS.Int x, JS.Int y => y <=? x
  | _, _ => false
  end.
Definition date_le (a b : JS.number) : bool := date_ge b a.

(** The predicates handed to [memories.filter] in the listing handler. *)
Definition tagMatches (tagLower : string) (m : memory) : bool :=
  existsb (fun t => String.eqb (toLowerCase t) tagLower) (tags m).

Definition statusMatches (st : string) (m : memory) : bool := String.eqb (status m) st.

Definition dayMatches (dayStr : string) (m : memory) : bool :=
  match day m with
  | Some d => String.eqb (dayRef_String d) dayStr
  | None => false
  end.

Definition fromMatches (fromDate : JS.number) (m : memory) : bool :=
  date_ge (Date_ (date m)) fromDate.

Definition toMatches (toDate : JS.number) (m : memory) : bool :=
  date_le (Date_ (date m)) toDate.

Definition qMatches (search : string) (m : memory) : bool :=
  (JS.truthy (title m) && JS.includes (toLowerCase (title m)) search) ||
  (JS.truthy (text m) && JS.includes (toLowerCase (text m)) search).

(** [if (param) memories = memories.filter(p)] for a parameter tested by
    truthiness. *)
Definition filterIf (param : option string) (p : string -> memory -> bool)
    (ms : list memory) : list memory :=
  match param with
  | Some s => if JS.truthy s then List.filter (p s) ms else ms
  | None => ms
  end.

(** [app.get('/memories', requireAuth, ...)] *)
Definition listMemories (sess : session) (d : database) (qr : query) : response :=
  match sess with
  | None => unauthorized
  | Some _ =>
      let ms := memories d in
      let ms := filterIf (q_tag qr) (fun tag => tagMatches (toLowerCase tag)) ms in
      let ms := filterIf (q_status qr) statusMatches ms in
      let ms := if dayGiven (q_day qr)
                then List.filter (dayMatches (default "" (q_day qr))) ms
                else ms in
      let ms := filterIf (q_from qr) (fun from => fromMatches (Date_ from)) ms in
      let ms := filterIf (q_to qr) (fun to => toMatches (Date_ to)) ms in
      let ms := filterIf (q_q qr) (fun q => qMatches (toLowerCase q)) ms in
      mkResponse 200%nat (MemoriesBody ms)
  end.

(** *** The listing as the interface words it *)

(** A parameter tested by truthiness is supplied when it is present and
    not empty. *)
Definition whenSupplied (param : option string) (p : string -> bool) : bool :=
  match param with
  | Some s => if JS.truthy s then p s else true
  | None => true
  end.

(** The listing as the interface words it: a memory is listed when it
    meets every supplied filter. [q]: the lower-cased title or text
    contains the lower-cased query; [status]: equality; [from]/[to]:
    inclusive bounds on the date; [day]: the memory has a day whose string
    form is the parameter, a blank parameter filtering nothing. *)
Definition listed (qr : query) (m : memory) : bool :=
  whenSupplied (q_q qr)
    (fun q => JS.includes (toLowerCase (title m)) (toLowerCase q)
              || JS.includes (toLowerCase (text m)) (toLowerCase q))
  && whenSupplied (q_status qr) (fun st => String.eqb (status m) st)
  && whenSupplied (q_from qr) (fun from => date_ge (Date_ (date m)) (Date_ from))
  && whenSupplied (q_to qr) (fun to => date_le (Date_ (date m)) (Date_ to))
  && match q_day qr with
     | Some d =>
         if JS.truthy (JS.trim d)
         then match day m with
              | Some dm => String.eqb (dayRef_String dm) d
              | None => false
              end
         else true
     | None => true
     end.

End Handlers.

(** The [tags] field of a request body: one string or an array. *)
Inductive tagsField := TagsString (s : string) | TagsArray (l : list string).

(** [Array.isArray(tags) ? tags
     : String(tags).split(',').map(s => s.trim()).filter(s => s)] *)
Definition parseTags (t : tagsField) : list string :=
  match t with
  | TagsArray l => l
  | TagsString s => List.filter JS.truthy (List.map JS.trim (JS.split "," s))
  end.

(** The [day] field of a request body: missing, [null] or a string. *)
Inductive dayField := DayUndefined | DayNull | DayValue (s : string).

(** The body of [PUT /memories/:id]; [None] is [undefined]. [uploaded]
    lists the base names under which the upload middleware stored the
    request's media files, and [now] is [new Date().toISOString()]. *)
Record updateRequest := mkUpdate {
  u_title : option string;
  u_text : option string;
  u_date : option string;
  u_tags : option tagsField;
  u_location : option string;
  u_status : option string;
  u_day : dayField;
  uploaded : list string;
  now : string;
}.

Definition uploadPath (base : string) : string := "/uploads/" +:+ base.

(** The assignments the update handler makes to [mem] when the caller
    owns it. *)
Definition applyUpdate (r : updateRequest) (mem : memory) : memory :=
  {| id := id mem;
     user := user mem;
     title := default (title mem) (u_title r);
     text := default (text mem) (u_text r);
     date := default (date mem) (u_date r);
     tags := match u_tags r with Some t => parseTags t | None => tags mem end;
     location := default (location mem) (u_location r);
     status := default (status mem) (u_status r);
     media := match uploaded r with
              | [] => media mem
              | fs => media mem ++ List.map uploadPath fs
              end;
     day := match u_day r with
            | DayUndefined => day mem
            | DayNull => None
            | DayValue s => if JS.truthy (JS.trim s) then Some (normaliseDay s) else None
            end;
     createdAt := createdAt mem;
     updatedAt := now r;
     reactions := reactions mem |}.

(** [db.memories[idx] = mem] *)
Fixpoint setAt {A} (l : list A) (idx : nat) (x : A) : list A :=
  match l, idx with
  | [], _ => []
  | _ :: r, O => x :: r
  | y :: r, S i => y :: setAt r i x
  end.

(** [db.memories.splice(idx, 1)] *)
Fixpoint removeAt {A} (l : list A) (idx : nat) : list A :=
  match l, idx with
  | [], _ => []
  | _ :: r, O => r
  | y :: r, S i => y :: removeAt r i
  end.

(** [upload.array('media')]: the accepted files are on disk before the
    handler runs. *)
Definition storeUploads (r : updateRequest) (s : state) : state :=
  mkState (db s) (files s ++ List.map uploadPath (uploaded r)).

(** [app.put('/memories/:id', requireAuth, upload.array('media'), ...)] *)
Definition updateMemory (sess : session) (rid : string) (r : updateRequest) (s : state)
  : response * state :=
  match sess with
  | None => (unauthorized, s)
  | Some caller =>
      let s := storeUploads r s in
      match JS.findIndex (fun m => String.eqb (id m) rid) (memories (db s)) with
      | None => (mkResponse 404%nat (ErrorBody "Memória não encontrada"), s)
      | Some idx =>
          match nth_error (memories (db s)) idx with
          | None => (mkResponse 404%nat (ErrorBody "Memória não encontrada"), s)
          | Some mem =>
              if negb (String.eqb (user mem) caller) then
                (mkResponse 403%nat (ErrorBody "Acesso negado"), s)
              else
                let mem' := applyUpdate r mem in
                (mkResponse 200%nat (MemoryBody mem'),
                 mkState (mkDB (setAt (memories (db s)) idx mem') (comments (db s)))
                         (files s))
          end
      end
  end.

(** [fs.unlinkSync] of every media path; a missing file is ignored. *)
Definition unlinkAll (paths fs : list string) : list string :=
  List.filter (fun f => negb (existsb (String.eqb f) paths)) fs.

(** [app.delete('/memories/:id', requireAuth, ...)] *)
Definition deleteMemory (sess : session) (rid : string) (s : state) : response * state :=
  match sess with
  | None => (unauthorized, s)
  | Some caller =>
      match JS.findIndex (fun m => String.eqb (id m) rid) (memories (db s)) with
      | None => (mkResponse 404%nat (ErrorBody "Memória não encontrada"), s)
      | Some idx =>
          match nth_error (memories (db s)) idx with
          | None => (mkResponse 404%nat (ErrorBody "Memória não encontrada"), s)
          | Some mem =>
              if negb (String.eqb (user mem) caller) then
                (mkResponse 403%nat (ErrorBody "Acesso negado"), s)
              else
                (mkResponse 200%nat (MessageBody "Memória excluída"),
                 mkState
                   (mkDB (removeAt (memories (db s)) idx)
                         (List.filter (fun c => negb (String.eqb (memoryId c) (id mem)))
                                      (comments (db s))))
                   (unlinkAll (media mem) (files s)))
          end
      end
  end.

(** *** Vocabulary of the properties, and sample data *)

(** A field of the login body that is missing or empty. *)
Definition blankField (o : option string) : Prop := o = None \/ o = Some "".

(** A credential pair that is present and is not the stored one. *)
Definition wrongPair (USERS : gmap string string) (b : loginBody) : Prop :=
  exists u p, username b = Some u /\ password b = Some p /\
              u <> "" /\ p <> "" /\ USERS !! u <> Some p.

(** A small database for the examples: two memories of different owners,
    one comment, one uploaded file. *)
Definition praia : memory :=
  {| id := "m1"; user := "carina"; title := "Dia de PRAIA"; text := "sol e mar";
     date := "2024-01-05T10:00:00.000Z"; tags := ["verao"]; location := "Rio";
     status := "public"; media := ["/uploads/a.png"]; day := Some (DayNumber 2);
     createdAt := "2024-01-05T10:00:00.000Z"; updatedAt := "2024-01-05T10:00:00.000Z";
     reactions := [] |}.

Definition museu : memory :=
  {| id := "m2"; user := "gui"; title := "Museu"; text := "longe da praia";
     date := "2024-02-01T00:00:00.000Z"; tags := []; location := "";
     status := "draft"; media := []; day := None;
     createdAt := "2024-02-01T00:00:00.000Z"; updatedAt := "2024-02-01T00:00:00.000Z";
     reactions := [] |}.

Definition sampleDB : database :=
  mkDB [praia; museu]
       [mkComment "c1" "m1" "gui" "lindo" "2024-01-06T00:00:00.000Z" []].

Definition sampleState : state := mkState sampleDB ["/uploads/a.png"].

(** The time values of the dates the examples use. *)
Definition sampleDate (s : string) : JS.number :=
  if String.eqb s "2024-01-05T10:00:00.000Z" then JS.Int 1704448800000
  else if String.eqb s "2024-02-01T00:00:00.000Z" then JS.Int 1706745600000
  else if String.eqb s "2024-01-05" then JS.Int 1704412800000
  else if String.eqb s "2024-01-31" then JS.Int 1706659200000
  else JS.NaN.

End Server.

(** ** The page markup the extractor reads ([script.js], [parseItinerary]) *)

Module Dom.

(** A document tree: text nodes and elements with their tag name (lower
    case, as the HTML parser leaves it), class list, remaining attributes
    and children. *)
Inductive node :=
  | Text (data : string)
  | Element (tag : string) (classes : list string)
            (attrs : list (string * string)) (children : list node).

Definition childNodes (n : node) : list node :=
  match n with Element _ _ _ ch => ch | Text _ => [] end.

Definition hasClass (c : string) (n : node) : bool :=
  match n with
  | Element _ cls _ _ => existsb (String.eqb c) cls
  | Text _ => false
  end.

Definition hasTag (t : string) (n : node) : bool :=
  match n with
  | Element tg _ _ _ => String.eqb tg t
  | Text _ => false
  end.

(** [el.getAttribute(name)] *)
Definition getAttribute (name : string) (n : node) : option string :=
  match n with
  | Element _ _ attrs _ =>
      option_map snd (List.find (fun kv => String.eqb (fst kv) name) attrs)
  | Text _ => None
  end.

(** [card.dataset.day] *)
Definition dataset_day (n : node) : option string := getAttribute "data-day" n.

(** The elements of the subtree of [n] that satisfy [p], [n] included, in
    document order. *)
Fixpoint select (p : node -> bool) (n : node) : list node :=
  match n with
  | Text _ => []
  | Element _ _ _ ch => ((if p n then [n] else []) ++ flat_map (select p) ch)%list
  end.

(** [document.querySelectorAll('.c')] over the top-level nodes [forest],
    and [el.querySelectorAll('.c')], which leaves [el] itself out. *)
Definition selectAll (p : node -> bool) (forest : list node) : list node :=
  flat_map (select p) forest.

Definition querySelectorAll (c : string) (n : node) : list node :=
  selectAll (hasClass c) (childNodes n).

(** [el.querySelector('.c')]: the first match in document order. *)
Definition querySelector (c : string) (n : node) : option node :=
  hd_error (querySelectorAll c n).

(** [el.querySelectorAll('.parent > tag')]: the elements below [n] with
    tag [t] whose parent element, possibly [n] itself, has class [c]. *)
Fixpoint selectChildOf (c t : string) (n : node) : list node :=
  match n with
  | Text _ => []
  | Element _ _ _ ch =>
      flat_map (fun k => ((if hasClass c n && hasTag t k then [k] else [])
                          ++ selectChildOf c t k)%list) ch
  end.

(** [el.textContent]: the text of the subtree, in document order. *)
Fixpoint textContent (n : node) : string :=
  match n with
  | Text s => s
  | Element _ _ _ ch => fold_right (fun k acc => textContent k +:+ acc) "" ch
  end.

(** [const x = clone.querySelector('.c'); if (x) x.remove()]: the subtree
    with its first strict descendant of class [c] taken out, or [None]
    when there is none. *)
Fixpoint removeFirstIn (c : string) (n : node) : option node :=
  match n with
  | Text _ => None
  | Element t cls at_ ch =>
      option_map (Element t cls at_)
        ((fix go (l : list node) : option (list node) :=
            match l with
            | [] => None
            | k :: r =>
                if hasClass c k then Some r
                else match removeFirstIn c k with
                     | Some k' => Some (k' :: r)
                     | None => option_map (cons k) (go r)
                     end
            end) ch)
  end.

Definition removeFirst (c : string) (n : node) : node :=
  default n (removeFirstIn c n).

(** The forest once every element of class [c] has been detached from
    its parent. *)
Fixpoint detach (c : string) (n : node) : list node :=
  match n with
  | Text _ => [n]
  | Element t cls at_ ch =>
      if hasClass c n then []
      else [Element t cls at_ (flat_map (detach c) ch)]
  end.

Definition detachAll (c : string) (forest : list node) : list node :=
  flat_map (detach c) forest.

End Dom.

Module Itinerary.

Import Dom.

(** One row of a day's agenda, as the extractor builds it. *)
Record scheduleItem := mkItem {
  time : string;
  html : string;
  transport : option string;
}.

(** One itinerary day. [highlight] and [transport] are [None] for the
    source's [null]. *)
Record dayRecord := mkDay {
  id : JS.number;
  title : string;
  subtitle : string;
  highlight : option string;
  schedule : list scheduleItem;
}.

Section Extractor.

(** [el.innerHTML]: the browser's serialisation of the children of an
    element. *)
Variable serialize : list node -> string.

Definition innerHTML (n : node) : string := serialize (childNodes n).

(** The callback mapped over [card.querySelectorAll('.schedule > li')]. *)
Definition parseRow (li : node) : scheduleItem :=
  let timeEl := querySelector "time" li in
  let time := match timeEl with
              | Some t => JS.trim (textContent t)
              | None => ""
              end in
  let transportEl := querySelector "transport" li in
  let transport := match transportEl with
                   | Some t => Some (JS.trim (innerHTML t))
                   | None => None
                   end in
  let clone := li in
  let clone := removeFirst "time" clone in
  let clone := removeFirst "transport" clone in
  let descriptionHtml := JS.trim (innerHTML clone) in
  {| time := time; html := descriptionHtml; transport := transport |}.

(** The record pushed for one [.day-card]. *)
Definition parseCard (card : node) : dayRecord :=
  let dayId := JS.parseInt10 (dataset_day card) in
  let titleEl := querySelector "day-title" card in
  let subEl := querySelector "day-sub" card in
  let highlightEl := querySelector "highlight" card in
  let scheduleItems := selectChildOf "schedule" "li" card in
  let schedule := List.map parseRow scheduleItems in
  {| id := dayId;
     title := match titleEl with Some e => JS.trim (innerHTML e) | None => "" end;
     subtitle := match subEl with Some e => JS.trim (innerHTML e) | None => "" end;
     highlight := match highlightEl with
                  | Some e => Some (JS.trim (innerHTML e))
                  | None => None
                  end;
     schedule := schedule |}.

(** [parseItinerary]: the extracted records and the document afterwards.
    The cards are visited in document order, on the list taken before
    the loop starts; each is read and then detached. A card is always read
    before any card nested in it is detached, and detaching a card
    changes nothing inside the cards still to be read, so every card is
    read as it stands in the initial document. *)
Definition parseItinerary (document : list node) : list dayRecord * list node :=
  let cards := selectAll (hasClass "day-card") document in
  (List.map parseCard cards, detachAll "day-card" document).

End Extractor.

(** *** Vocabulary of the properties, and sample data *)

(** What a row and a card without the optional parts give. *)
Definition rowDefaults (li : node) (row : scheduleItem) : Prop :=
  (querySelector "time" li = None -> time row = "") /\
  (querySelector "transport" li = None -> transport row = None).

Definition cardDefaults (card : node) (rec : dayRecord) : Prop :=
  id rec = JS.parseInt10 (dataset_day card) /\
  (querySelector "day-title" card = None -> title rec = "") /\
  (querySelector "day-sub" card = None -> subtitle rec = "") /\
  (querySelector "highlight" card = None -> highlight rec = None) /\
  Forall2 rowDefaults (selectChildOf "schedule" "li" card) (schedule rec).

(** A page with two day cards around a heading; day 2 has neither
    subtitle nor highlight, and its row has neither time nor transport
    note. The serialisation used for the examples keeps the text only. *)
Definition textOnly (l : list node) : string :=
  fold_right (fun k acc => textContent k +:+ acc) "" l.

Definition samplePage : list node :=
  [ Element "section" ["day-card"] [("data-day", "1")]
      [ Element "div" ["day-title"] [] [Text " Chegada "];
        Element "div" ["day-sub"] [] [Text "Lisboa"];
        Element "div" ["highlight"] [] [Text "Pasteis"];
        Element "ul" ["schedule"] []
          [ Element "li" [] []
              [ Element "span" ["time"] [] [Text " 09:00 "];
                Text "Aeroporto";
                Element "div" ["transport"] [] [Text "Metro"] ] ] ];
    Element "h2" [] [] [Text "Roteiro"];
    Element "section" ["day-card"] [("data-day", "2")]
      [ Element "div" ["day-title"] [] [Text "Sintra"];
        Element "ul" ["schedule"] [] [ Element "li" [] [] [Text "Palacio"] ] ] ].

End Itinerary.

(** ** The per-item store ([localStorage]) *)

Module Storage.

(** JSON values, as [JSON.parse] returns them. *)
Inductive json :=
  | JNull
  | JBool (b : bool)
  | JNumber (z : Z)
  | JString (s : string)
  | JArray (items : list json)
  | JObject (fields : list (string * json)).

(** Truthiness of a JSON value; arrays and objects are always truthy. *)
Definition truthy (j : json) : bool :=
  match j with
  | JNull => false
  | JBool b => b
  | JNumber z => negb (z =? 0)
  | JString s => JS.truthy s
  | JArray _ | JObject _ => true
  end.

(** Truthiness of a property read, [None] being [undefined]. *)
Definition truthy_opt (o : option json) : bool :=
  match o with Some j => truthy j | None => false end.

(** [data.name] for the two property names the sources read, [completed]
    and [note]: only an object can have them. *)
Definition prop (name : string) (j : json) : option json :=
  match j with
  | JObject fields =>
      option_map snd (List.find (fun kv => String.eqb (fst kv) name) fields)
  | _ => None
  end.

Fixpoint setField (name : string) (v : json) (fields : list (string * json))
  : list (string * json) :=
  match fields with
  | [] => [(name, v)]
  | (k, w) :: r => if String.eqb k name then (k, v) :: r
                   else (k, w) :: setField name v r
  end.

(** [saved.name = v], as far as [JSON.stringify(saved)] shows it: an
    object gets or updates the field; on a primitive the assignment is
    dropped and on an array the property is not serialised. *)
Definition setProp (name : string) (v : json) (j : json) : json :=
  match j with
  | JObject fields => JObject (setField name v fields)
  | _ => j
  end.

(** [delete saved.name] *)
Definition deleteProp (name : string) (j : json) : json :=
  match j with
  | JObject fields =>
      JObject (List.filter (fun kv => negb (String.eqb (fst kv) name)) fields)
  | _ => j
  end.

(** A stored string is represented by what [JSON.parse] makes of it: a
    value, or a syntax error. [localStorage.setItem(k, JSON.stringify(v))]
    stores [Parsed v]. *)
Inductive stored := Malformed | Parsed (j : json).

(** The item keys of [localStorage] with their values, in the order
    [localStorage.key(i)] enumerates them. The keys [lastDay] and [theme]
    hold plain strings and are kept apart (they do not start with
    [day-], so the diary scan skips them). *)
Definition storage := list (string * stored).

Fixpoint getItem (ls : storage) (k : string) : option stored :=
  match ls with
  | [] => None
  | (k', v) :: r => if String.eqb k' k then Some v else getItem r k
  end.

(** [setItem] overwrites an existing key in place and adds a new key at
    the end of the enumeration. *)
Fixpoint setItem (ls : storage) (k : string) (v : stored) : storage :=
  match ls with
  | [] => [(k, v)]
  | (k', w) :: r => if String.eqb k' k then (k', v) :: r
                    else (k', w) :: setItem r k v
  end.

Fixpoint removeItem (ls : storage) (k : string) : storage :=
  match ls with
  | [] => []
  | (k', w) :: r => if String.eqb k' k then r else (k', w) :: removeItem r k
  end.

(** [JSON.parse(localStorage.getItem(k))]: [None] when it throws. A
    missing key reads as [null], which parses to [null]. *)
Definition parse (o : option stored) : option json :=
  match o with
  | None => Some JNull
  | Some Malformed => None
  | Some (Parsed j) => Some j
  end.

(** [`day-${dayId}-item-${index}`] *)
Definition itemKey (dayId : JS.number) (index : nat) : string :=
  "day-" +:+ JS.toString dayId +:+ "-item-" +:+ pretty index.

(** [s] without the prefix [p], when it has it. *)
Fixpoint stripPrefix (p s : string) : option string :=
  match p, s with
  | EmptyString, _ => Some s
  | String a p', String b s' => if Ascii.eqb a b then stripPrefix p' s' else None
  | String _ _, EmptyString => None
  end.

(** The longest run of leading digits, and the rest. *)
Fixpoint takeDigits (s : string) : string * string :=
  match s with
  | String c r => if JS.is_digit c
                  then let '(d, rest) := takeDigits r in (String c d, rest)
                  else (EmptyString, s)
  | EmptyString => (EmptyString, EmptyString)
  end.

(** [key.match(/^day-(\d+)-item-(\d+)$/)]: the two captured groups. *)
Definition matchItemKey (key : string) : option (string * string) :=
  match stripPrefix "day-" key with
  | None => None
  | Some r =>
      let '(d, r) := takeDigits r in
      if negb (JS.truthy d) then None else
      match stripPrefix "-item-" r with
      | None => None
      | Some r =>
          let '(i, r) := takeDigits r in
          if JS.truthy i && negb (JS.truthy r) then Some (d, i) else None
      end
  end.

(** A diary entry [{ day, note }]. *)
Record diaryEntry := mkEntry { entry_day : Z; entry_note : json }.

(** The body of the scan loop of [updateDiary] for one key: the entry it
    pushes, if any. *)
Definition entryOf (kv : string * stored) : option diaryEntry :=
  let '(key, v) := kv in
  if negb (JS.truthy key) || negb (JS.startsWith key "day-") then None else
  match parse (Some v) with
  | None => None
  | Some data =>
      if truthy data && truthy_opt (prop "note" data) then
        match matchItemKey key, prop "note" data with
        | Some (d, _), Some note => Some (mkEntry (fst (JS.digits d 0 false)) note)
        | _, _ => None
        end
      else None
  end.

Fixpoint scan (ls : storage) : list diaryEntry :=
  match ls with
  | [] => []
  | kv :: r => match entryOf kv with
               | Some e => e :: scan r
               | None => scan r
               end
  end.

(** [entries.sort((a, b) => a.day - b.day)]: a stable sort by day. The
    entries are put in place from the last to the first, each before the
    first entry whose day is not smaller, so entries of one day keep
    their order. *)
Fixpoint insertByDay (e : diaryEntry) (l : list diaryEntry) : list diaryEntry :=
  match l with
  | [] => [e]
  | x :: r => if entry_day e <=? entry_day x then e :: l else x :: insertByDay e r
  end.

Definition sortByDay (l : list diaryEntry) : list diaryEntry :=
  fold_right insertByDay [] l.

(** The [entries] array [updateDiary] renders. *)
Definition diaryEntries (ls : storage) : list diaryEntry := sortByDay (scan ls).

(** One step of the counting loop of [updateDayProgress]. *)
Definition isCompleted (ls : storage) (dayId : JS.number) (i : nat) : bool :=
  match parse (getItem ls (itemKey dayId i)) with
  | Some data => truthy data && truthy_opt (prop "completed" data)
  | None => false
  end.

(** [for (let i = 0; i < total; i++) ... completed += 1] *)
Definition countCompleted (ls : storage) (dayId : JS.number) (total : nat) : nat :=
  length (List.filter (isCompleted ls dayId) (seq 0 total)).

(** What [initScheduleItemsForDay] holds for one row: the [completed]
    class of the [li], the note display ([None] when hidden, otherwise
    the value of [saved.note] it interpolates) and the [saved] object its
    two handlers close over. *)
Record rowView := mkRow {
  completed : bool;
  noteDisplay : option (option json);
  saved : json;
}.

(** [saved = JSON.parse(localStorage.getItem(itemKey)) || {}], [{}] when
    parsing throws, then the initial rendering of the row. *)
Definition initRow (ls : storage) (dayId : JS.number) (index : nat) : rowView :=
  let saved := match parse (getItem ls (itemKey dayId index)) with
               | Some j => if truthy j then j else JObject []
               | None => JObject []
               end in
  {| completed := truthy_opt (prop "completed" saved);
     noteDisplay := if truthy_opt (prop "note" saved)
                    then Some (prop "note" saved) else None;
     saved := saved |}.

(** The click handler of the done button. *)
Definition doneClick (dayId : JS.number) (index : nat) (rv : rowView) (ls : storage)
  : rowView * storage :=
  let c := negb (completed rv) in
  let saved := setProp "completed" (JBool c) (saved rv) in
  ({| completed := c; noteDisplay := noteDisplay rv; saved := saved |},
   setItem ls (itemKey dayId index) (Parsed saved)).

(** The click handler of the note button; [answer] is what [prompt]
    returns, [None] when the dialog is cancelled. *)
Definition noteClick (dayId : JS.number) (index : nat) (answer : option string)
    (rv : rowView) (ls : storage) : rowView * storage :=
  match answer with
  | None => (rv, ls)
  | Some note =>
      let trimmed := JS.trim note in
      let saved := if JS.truthy trimmed
                   then setProp "note" (JString trimmed) (saved rv)
                   else deleteProp "note" (saved rv) in
      ({| completed := completed rv;
          noteDisplay := if JS.truthy trimmed then Some (prop "note" saved) else None;
          saved := saved |},
       setItem ls (itemKey dayId index) (Parsed saved))
  end.

(** *** Vocabulary of the properties, and sample data *)

(** What the done button writes when it unticks a row without a note:
    [{"completed":false}]. *)
Definition unticked : json := JObject [("completed", JBool false)].

(** A store with a ticked item of day 2, a note on day 1 and a malformed
    value. *)
Definition sampleStore : storage :=
  [ ("day-2-item-0", Parsed (JObject [("completed", JBool true)]));
    ("day-1-item-3", Parsed (JObject [("note", JString "cafe")]));
    ("day-2-item-1", Malformed) ].

End Storage.

(** ** The tab/panel controller ([script.js]) *)

Module Controller.

Import Itinerary Storage.

(** [URLSearchParams]: the name/value pairs of the query, in order. *)
Module SearchParams.

Definition t := list (string * string).

Definition has (ps : t) (name : string) : bool :=
  existsb (fun kv => String.eqb (fst kv) name) ps.

(** [get]: the first value under the name, [None] for [null]. *)
Definition get (ps : t) (name : string) : option string :=
  option_map snd (List.find (fun kv => String.eqb (fst kv) name) ps).

(** [delete]: every pair under the name goes. *)
Definition delete (ps : t) (name : string) : t :=
  List.filter (fun kv => negb (String.eqb (fst kv) name)) ps.

(** [set]: the first pair under the name takes the value and the other
    pairs under it go; without such a pair one is appended. *)
Fixpoint set (ps : t) (name value : string) : t :=
  match ps with
  | [] => [(name, value)]
  | (k, v) :: r => if String.eqb k name then (k, value) :: delete r name
                   else (k, v) :: set r name value
  end.

End SearchParams.

(** A button of the tab strip: its element id, its label
    ([textContent]) and the three things [openTab] keeps in step. *)
Record tab := mkTab {
  tab_id : string;
  label : string;
  aria_selected : bool;
  tabindex : Z;
  tab_active : bool;
}.

(** What a panel shows. A day panel holds its day, the row controls and
    the targets of its previous/next buttons ([None]: no button). *)
Inductive panelContent :=
  | DiaryPanel (withSection : bool) (noNotesMsg : bool)
  | MemoriesPanel
  | DayPanel (day : dayRecord) (rows : list rowView) (prevBtn nextBtn : option string).

Record panel := mkPanel {
  content : panelContent;
  panel_active : bool;
  panel_hidden : bool;
}.

(** The diary section taken from the page: whether it carries the class
    [hidden], the entries in its list and whether it is attached to the
    document (it is detached at start-up and attached again when the
    diary panel is built). *)
Record diary := mkDiary {
  diary_hidden : bool;
  diary_list : list diaryEntry;
  diary_attached : bool;
}.

(** The state the controller reads and writes: the globals on [window],
    the tab strip, the focused tab, [localStorage] and the query of the
    page address. *)
Record page := mkPage {
  itineraryData : list dayRecord;
  diarySection : option diary;
  tabs : list tab;
  focused : option nat;
  tabPanels : gmap string panel;
  items : storage;
  lastDay : option string;
  search : SearchParams.t;
}.

Definition with_tabs (ts : list tab) (pg : page) : page :=
  mkPage (itineraryData pg) (diarySection pg) ts (focused pg) (tabPanels pg)
         (items pg) (lastDay pg) (search pg).

Definition with_panels (ps : gmap string panel) (pg : page) : page :=
  mkPage (itineraryData pg) (diarySection pg) (tabs pg) (focused pg) ps
         (items pg) (lastDay pg) (search pg).

Definition with_focus (i : nat) (pg : page) : page :=
  mkPage (itineraryData pg) (diarySection pg) (tabs pg) (Some i) (tabPanels pg)
         (items pg) (lastDay pg) (search pg).

(** [window.itineraryData.find((d) => d.id.toString() === id.toString())] *)
Definition findDay (data : list dayRecord) (idStr : string) : option dayRecord :=
  List.find (fun d => String.eqb (JS.toString (id d)) idStr) data.

(** [tab.textContent = text] on the element [document.getElementById]
    finds: the first one with the id. *)
Fixpoint setLabel (tabId text : string) (ts : list tab) : list tab :=
  match ts with
  | [] => []
  | t :: r =>
      if String.eqb (tab_id t) tabId
      then mkTab (tab_id t) text (aria_selected t) (tabindex t) (tab_active t) :: r
      else t :: setLabel tabId text r
  end.

(** [updateDayProgress] *)
Definition updateDayProgress (dayId : JS.number) (pg : page) : page :=
  match findDay (itineraryData pg) (JS.toString dayId) with
  | None => pg
  | Some day =>
      let total := length (schedule day) in
      let completed := countCompleted (items pg) dayId total in
      let baseLabel := "Dia " +:+ JS.toString dayId in
      let text :=
        if (0 <? total)%nat then
          if (completed =? total)%nat then baseLabel +:+ " ✓"
          else baseLabel +:+ " (" +:+ pretty completed +:+ "/" +:+ pretty total +:+ ")"
        else baseLabel in
      with_tabs (setLabel ("tab-" +:+ JS.toString dayId) text (tabs pg)) pg
  end.

Definition newTab (elementId text : string) : tab :=
  mkTab elementId text false (-1) false.

(** [buildTabs]: one tab per day, labelled and then given its progress,
    the diary tab when the page has a diary section, and the memories
    tab. *)
Definition buildTabs (data : list dayRecord) (section : option diary) (pg : page)
  : page :=
  let pg := mkPage data section [] (focused pg) ∅ (items pg) (lastDay pg) (search pg) in
  let pg := fold_left
              (fun pg day =>
                 let btn := newTab ("tab-" +:+ JS.toString (id day))
                                   ("Dia " +:+ JS.toString (id day)) in
                 updateDayProgress (id day) (with_tabs (tabs pg ++ [btn]) pg))
              data pg in
  let pg := match section with
            | Some _ => with_tabs (tabs pg ++ [newTab "tab-diary" "Diário"]) pg
            | None => pg
            end in
  with_tabs (tabs pg ++ [newTab "tab-memories" "Memórias"]) pg.

(** [getIdFromTab]: the element id without a leading [tab-]. *)
Definition getIdFromTab (t : tab) : string :=
  if negb (JS.truthy (tab_id t)) then ""
  else default (tab_id t) (stripPrefix "tab-" (tab_id t)).

(** [initScheduleItemsForDay], the controls of each row. The rows are the
    elements [.schedule li] finds in the panel; they are the items of
    the day's schedule when none of the markup put in the panel makes a
    list item of its own, and this is the case modelled. *)
Definition initRows (ls : storage) (dayId : JS.number) (sched : list scheduleItem)
  : list rowView :=
  List.map (initRow ls dayId) (seq 0 (length sched)).

(** [createPanel]. The memories panel is filled in by the memories
    module, outside this model. *)
Definition createPanel (idStr : string) (pg : page) : page :=
  if String.eqb idStr "diary" then
    let '(withSection, msg, section) :=
      match diarySection pg with
      | Some d => (true, diary_hidden d,
                   Some (mkDiary (diary_hidden d) (diary_list d) true))
      | None => (false, true, None)
      end in
    mkPage (itineraryData pg) section (tabs pg) (focused pg)
           (<[idStr := mkPanel (DiaryPanel withSection msg) false false]> (tabPanels pg))
           (items pg) (lastDay pg) (search pg)
  else if String.eqb idStr "memories" then
    with_panels (<[idStr := mkPanel MemoriesPanel false false]> (tabPanels pg)) pg
  else
    match findDay (itineraryData pg) idStr with
    | None => pg
    | Some day =>
        let prevBtn :=
          if JS.gt (id day) (JS.Int 1)
          then Some (JS.toString (JS.sub (id day) (JS.Int 1))) else None in
        let nextBtn :=
          if JS.lt (id day) (JS.Int (Z.of_nat (length (itineraryData pg))))
          then Some (JS.toString (JS.add (id day) (JS.Int 1))) else None in
        let rows := initRows (items pg) (id day) (schedule day) in
        let pg := updateDayProgress (id day) pg in
        with_panels
          (<[idStr := mkPanel (DayPanel day rows prevBtn nextBtn) false false]>
             (tabPanels pg)) pg
    end.

(** [openTab] *)
Definition openTab (idStr : string) (pg : page) : page :=
  let ts := List.map
              (fun t =>
                 let selected := String.eqb (getIdFromTab t) idStr in
                 mkTab (tab_id t) (label t) selected (if selected then 0 else -1) selected)
              (tabs pg) in
  let pg := with_tabs ts pg in
  let pg := match tabPanels pg !! idStr with
            | Some _ => pg
            | None => createPanel idStr pg
            end in
  let ps := map_imap
              (fun key p =>
                 if String.eqb key idStr
                 then Some (mkPanel (content p) true false)
                 else Some (mkPanel (content p) false true))
              (tabPanels pg) in
  let last := if negb (String.eqb idStr "diary") && negb (String.eqb idStr "memories")
              then Some idStr else lastDay pg in
  let url := if String.eqb idStr "diary"
             then SearchParams.delete (search pg) "dia"
             else SearchParams.set (search pg) "dia" idStr in
  mkPage (itineraryData pg) (diarySection pg) (tabs pg) (focused pg) ps
         (items pg) last url.

(** The view [restoreLastDay] decides to open. *)
Definition startupView (pg : page) : string :=
  let idv := if SearchParams.has (search pg) "dia"
             then SearchParams.get (search pg) "dia"
             else lastDay pg in
  if JS.truthy_opt idv then default "" idv
  else match itineraryData pg with
       | d :: _ => JS.toString (id d)
       | [] => "diary"
       end.

(** [restoreLastDay] *)
Definition restoreLastDay (pg : page) : page := openTab (startupView pg) pg.

(** A key press in the tab strip: the key and, when the event target is
    a tab, its position in the strip. *)
Record keyEvent := mkKey { key : string; target : option nat }.

Definition currentIndex (ts : list tab) : Z :=
  match JS.findIndex aria_selected ts with
  | Some i => Z.of_nat i
  | None => -1
  end.

(** The tail of [handleTabKeyNav] after the [switch]: clamp, focus the
    target tab and open it. *)
Definition moveTo (newIndex : Z) (pg : page) : page :=
  let n := Z.of_nat (length (tabs pg)) in
  let newIndex := if newIndex <? 0 then 0 else newIndex in
  let newIndex := if newIndex >=? n then n - 1 else newIndex in
  match nth_error (tabs pg) (Z.to_nat newIndex) with
  | Some targetTab => openTab (getIdFromTab targetTab) (with_focus (Z.to_nat newIndex) pg)
  | None => pg
  end.

Definition keyIs (e : keyEvent) (names : list string) : bool :=
  existsb (String.eqb (key e)) names.

(** [handleTabKeyNav]; [%] is the remainder of truncated division. *)
Definition handleTabKeyNav (e : keyEvent) (pg : page) : page :=
  let n := Z.of_nat (length (tabs pg)) in
  if n =? 0 then pg else
  let cur := currentIndex (tabs pg) in
  if keyIs e ["ArrowRight"; "Right"] then moveTo (Z.rem (cur + 1) n) pg
  else if keyIs e ["ArrowLeft"; "Left"] then moveTo (Z.rem (cur - 1 + n) n) pg
  else if keyIs e ["Home"] then moveTo 0 pg
  else if keyIs e ["End"] then moveTo (n - 1) pg
  else if keyIs e ["Enter"; " "; "Spacebar"] then
    match target e with
    | Some i => match nth_error (tabs pg) i with
                | Some t => openTab (getIdFromTab t) pg
                | None => pg
                end
    | None => pg
    end
  else pg.

(** [updateDiary]: nothing happens while the diary section is out of the
    document; otherwise the list is rebuilt, the section shown or hidden
    and the message of the diary panel refreshed. *)
Definition updateDiary (pg : page) : page :=
  match diarySection pg with
  | Some d =>
      if diary_attached d then
        let entries := diaryEntries (items pg) in
        let empty := match entries with [] => true | _ => false end in
        let ps := match tabPanels pg !! "diary" with
                  | Some p =>
                      match content p with
                      | DiaryPanel w _ =>
                          <["diary" := mkPanel (DiaryPanel w empty)
                                               (panel_active p) (panel_hidden p)]>
                            (tabPanels pg)
                      | _ => tabPanels pg
                      end
                  | None => tabPanels pg
                  end in
        mkPage (itineraryData pg) (Some (mkDiary empty entries true)) (tabs pg)
               (focused pg) ps (items pg) (lastDay pg) (search pg)
      else pg
  | None => pg
  end.

(** *** Vocabulary of the properties, and sample data *)

(** A page for the examples: four days, the second with two rows of which
    the first is ticked, a diary section, and the tab strip as
    [buildTabs] leaves it. *)
Definition row (t h : string) : scheduleItem := mkItem t h None.

Definition fourDays : list dayRecord :=
  [ mkDay (JS.Int 1) "Chegada" "" None [row "09:00" "Aeroporto"];
    mkDay (JS.Int 2) "Sintra" "" None [row "10:00" "Palacio"; row "" "Almoco"];
    mkDay (JS.Int 3) "Porto" "" None [];
    mkDay (JS.Int 4) "Volta" "" None [row "" "Mala"] ].

Definition blankPage (data : list dayRecord) (ls : storage) (last : option string)
    (url : SearchParams.t) : page :=
  buildTabs data (Some (mkDiary true [] false))
            (mkPage [] None [] None ∅ ls last url).

Definition startPage (last : option string) (url : SearchParams.t) : page :=
  blankPage fourDays [("day-2-item-0", Parsed (JObject [("completed", JBool true)]))]
            last url.

(** No usable id at start-up: a [dia] parameter that is present but
    empty, or no [dia] parameter and no (or an empty) stored last day. *)
Definition noStartupId (pg : page) : Prop :=
  SearchParams.get (search pg) "dia" = Some "" \/
  (SearchParams.has (search pg) "dia" = false /\
   (lastDay pg = None \/ lastDay pg = Some "")).

(** Relabelling a tab changes labels only. *)
Definition sameButLabel (a b : tab) : Prop :=
  tab_id a = tab_id b /\ aria_selected a = aria_selected b /\
  tabindex a = tabindex b /\ tab_active a = tab_active b.

(** The selection [openTab] writes on a tab. *)
Definition selectTab (idStr : string) (t : tab) : tab :=
  let selected := String.eqb (getIdFromTab t) idStr in
  mkTab (tab_id t) (label t) selected (if selected then 0 else -1) selected.

(** Tab [i] of the strip is selected, with [tabindex] 0, once the view of
    its id is opened. *)
Definition selectedAt (i : nat) (pg' : page) : Prop :=
  exists t', nth_error (tabs pg') i = Some t' /\
             aria_selected t' = true /\ tabindex t' = 0 /\ tab_active t' = true.

(** The key press moved the focus to tab [i] and opened its view. *)
Definition movedTo (i : nat) (pg pg' : page) : Prop :=
  exists t, nth_error (tabs pg) i = Some t /\
            pg' = openTab (getIdFromTab t) (with_focus i pg) /\
            focused pg' = Some i /\ selectedAt i pg'.

(** The key press opened the view of tab [i] and left the focus alone. *)
Definition openedInPlace (i : nat) (pg pg' : page) : Prop :=
  exists t, nth_error (tabs pg) i = Some t /\
            pg' = openTab (getIdFromTab t) pg /\
            focused pg' = focused pg /\ selectedAt i pg'.

(** The three shapes of the label on a day of five items. *)
Definition fiveItems : list dayRecord :=
  [ mkDay (JS.Int 1) "" "" None
          [row "" "a"; row "" "b"; row "" "c"; row "" "d"; row "" "e"] ].

Definition ticked (indices : list nat) : storage :=
  List.map (fun i => (itemKey (JS.Int 1) i, Parsed (JObject [("completed", JBool true)])))
           indices.

(** A day with number [n] is in the itinerary ([===] on numbers: [NaN]
    equals nothing). *)
Definition hasDay (data : list dayRecord) (n : JS.number) : Prop :=
  exists d, In d data /\ JS.number_eqb (id d) n = true.

(** The day numbers are exactly 1 to the number of days. *)
Definition contiguous (data : list dayRecord) : Prop :=
  forall k, hasDay data (JS.Int k) <-> 1 <= k <= Z.of_nat (length data).

Definition gapDays : list dayRecord :=
  [ mkDay (JS.Int 1) "Chegada" "" None []; mkDay (JS.Int 3) "Porto" "" None [] ].

End Controller.

(** ** The rest of the backend ([server.js]): session, publishing, reading,
    comments, reactions, export, accepted uploads *)

Module Backend.

Import Server.

(** One entry of the export: the memory, its media as absolute links and
    its comments. *)
Record exportEntry := mkExport {
  entry : memory;
  mediaLinks : list string;
  entry_comments : list comment;
}.

(** What these handlers answer: an error with its status code, or one of
    the bodies sent with status 200. *)
Inductive reply :=
  | Refused (status : nat) (error : string)
  | Said (message : string)
  | CurrentUser (name : option string)
  | OneMemory (m : memory)
  | MemoryAndComments (m : memory) (cs : list comment)
  | OneComment (c : comment)
  | CommentList (cs : list comment)
  | ReactionCounts (counts : list (string * nat))
  | Exported (entries : list exportEntry).

Definition replyCode (r : reply) : nat :=
  match r with Refused status _ => status | _ => 200%nat end.

(** [requireAuth] without a session. *)
Definition notAuthorized : reply := Refused 401%nat "Não autorizado".

Definition notFound : reply := Refused 404%nat "Memória não encontrada".

(** [app.post('/auth/logout', ...)]: the session is destroyed. *)
Definition logout (sess : session) : reply * session :=
  (Said "Logout efetuado", None).

(** [app.get('/auth/me', ...)] *)
Definition me (sess : session) : reply := CurrentUser sess.

(** The body of [POST /memories]; [None] is [undefined]. [stored] lists
    the base names under which the upload middleware stored the media
    files, [uuid] is the value of [uuidv4()], and the three clock readings
    are the values of [new Date().toISOString()] for the default date,
    [createdAt] and [updatedAt]. *)
Record createRequest := mkCreate {
  c_title : option string;
  c_text : option string;
  c_date : option string;
  c_tags : option tagsField;
  c_location : option string;
  c_status : option string;
  c_day : dayField;
  c_stored : list string;
  c_uuid : string;
  c_clock_date : string;
  c_clock_created : string;
  c_clock_updated : string;
}.

(** [field ? String(field) : fallback] *)
Definition orElse (field : option string) (fallback : string) : string :=
  match field with
  | Some s => if JS.truthy s then s else fallback
  | None => fallback
  end.

(** The object literal [POST /memories] builds. *)
Definition newMemory (caller : string) (r : createRequest) : memory :=
  {| id := c_uuid r;
     user := caller;
     title := default "" (c_title r);
     text := orElse (c_text r) "";
     date := orElse (c_date r) (c_clock_date r);
     tags := match c_tags r with
             | Some (TagsArray l) => l
             | Some (TagsString s) => if JS.truthy s then parseTags (TagsString s) else []
             | None => []
             end;
     location := orElse (c_location r) "";
     status := orElse (c_status r) "draft";
     media := List.map uploadPath (c_stored r);
     day := match c_day r with
            | DayValue s => if JS.truthy (JS.trim s) then Some (normaliseDay s) else None
            | _ => None
            end;
     createdAt := c_clock_created r;
     updatedAt := c_clock_updated r;
     reactions := [] |}.

(** [app.post('/memories', requireAuth, upload.array('media'), ...)] *)
Definition createMemory (sess : session) (r : createRequest) (s : state) : reply * state :=
  match sess with
  | None => (notAuthorized, s)
  | Some caller =>
      let s := mkState (db s) (files s ++ List.map uploadPath (c_stored r)) in
      if negb (JS.truthy_opt (c_title r)) then
        (Refused 400%nat "Título é obrigatório", s)
      else
        let memory := newMemory caller r in
        (OneMemory memory,
         mkState (mkDB (memories (db s) ++ [memory]) (comments (db s))) (files s))
  end.

(** [db.comments.filter((c) => c.memoryId === id)] *)
Definition commentsOf (rid : string) (d : database) : list comment :=
  List.filter (fun c => String.eqb (memoryId c) rid) (comments d).

(** [db.memories.find((m) => m.id === req.params.id)] *)
Definition findMemory (rid : string) (d : database) : option memory :=
  List.find (fun m => String.eqb (id m) rid) (memories d).

(** [app.get('/memories/:id', requireAuth, ...)] *)
Definition getMemory (sess : session) (rid : string) (d : database) : reply :=
  match sess with
  | None => notAuthorized
  | Some _ =>
      match findMemory rid d with
      | None => notFound
      | Some memory => MemoryAndComments memory (commentsOf (id memory) d)
      end
  end.

(** [app.post('/memories/:id/comments', requireAuth, ...)]; [uuid] and
    [now] are the values of [uuidv4()] and [new Date().toISOString()]. *)
Definition addComment (sess : session) (rid : string) (text : option string)
    (uuid now : string) (s : state) : reply * state :=
  match sess with
  | None => (notAuthorized, s)
  | Some caller =>
      if negb (JS.truthy_opt text) || negb (JS.truthy (JS.trim (default "" text))) then
        (Refused 400%nat "Comentário vazio", s)
      else
        match findMemory rid (db s) with
        | None => (notFound, s)
        | Some memory =>
            let comment := mkComment uuid (id memory) caller (default "" text) now [] in
            (OneComment comment,
             mkState (mkDB (memories (db s)) (comments (db s) ++ [comment])) (files s))
        end
  end.

(** [app.get('/memories/:id/comments', requireAuth, ...)] *)
Definition listComments (sess : session) (rid : string) (d : database) : reply :=
  match sess with
  | None => notAuthorized
  | Some _ => CommentList (commentsOf rid d)
  end.

(** [reactions[emoji]], [None] for [undefined]. Reaction counts are kept
    as the pairs of the JSON object, in the order of its keys. This is
    what the object holds for the emoji that are [countable] (below);
    names that [Object.prototype] also has ([constructor], [toString],
    ...) and integer-like keys are outside the model. *)
Definition countOf (emoji : string) (counts : list (string * nat)) : option nat :=
  option_map snd (List.find (fun kv => String.eqb (fst kv) emoji) counts).

(** [reactions[emoji] = (reactions[emoji] || 0) + 1] *)
Fixpoint bump (emoji : string) (counts : list (string * nat)) : list (string * nat) :=
  match counts with
  | [] => [(emoji, 1%nat)]
  | (k, n) :: r => if String.eqb k emoji then (k, (n + 1)%nat) :: r
                   else (k, n) :: bump emoji r
  end.

(** The object [find] returns is changed in place: the first element
    that passes the test is replaced by its image. *)
Fixpoint changeFirst {A} (p : A -> bool) (f : A -> A) (l : list A) : list A :=
  match l with
  | [] => []
  | x :: r => if p x then f x :: r else x :: changeFirst p f r
  end.

Definition withReactions (counts : list (string * nat)) (m : memory) : memory :=
  {| id := id m; user := user m; title := title m; text := text m; date := date m;
     tags := tags m; location := location m; status := status m; media := media m;
     day := day m; createdAt := createdAt m; updatedAt := updatedAt m;
     reactions := counts |}.


(** [app.post('/memories/:id/reactions', requireAuth, ...)] *)
Definition reactMemory (sess : session) (rid : string) (emoji : option string) (s : state)
  : reply * state :=
  match sess with
  | None => (notAuthorized, s)
  | Some _ =>
      match emoji with
      | Some e =>
          if negb (JS.truthy e) then (Refused 400%nat "Emoji é obrigatório", s) else
          match findMemory rid (db s) with
          | None => (notFound, s)
          | Some memory =>
              let counts := bump e (reactions memory) in
              (ReactionCounts counts,
               mkState
                 (mkDB (changeFirst (fun m => String.eqb (id m) rid)
                                    (withReactions counts) (memories (db s)))
                       (comments (db s)))
                 (files s))
          end
      | None => (Refused 400%nat "Emoji é obrigatório", s)
      end
  end.


(** [app.get('/export', requireAuth, ...)]; [origin] is
    [req.protocol + '://' + req.get('host')]. *)
Definition exportAll (sess : session) (origin : string) (d : database) : reply :=
  match sess with
  | None => notAuthorized
  | Some _ =>
      Exported (List.map (fun m => mkExport m (List.map (fun p => origin +:+ p) (media m))
                                            (commentsOf (id m) d))
                         (memories d))
  end.

(** The state of the scan in [path.extname] (POSIX flavour). *)
Record extScan := mkScan {
  startDot : Z;
  startPart : Z;
  scanEnd : Z;
  matchedSlash : bool;
  preDotState : Z;
}.

(** The loop of [path.extname], from the last character to the first;
    [chars] holds [path[i]], [path[i-1]], ... *)
Fixpoint extLoop (chars : list ascii) (i : Z) (st : extScan) : extScan :=
  match chars with
  | [] => st
  | code :: rest =>
      if Ascii.eqb code "/" then
        if negb (matchedSlash st)
        then mkScan (startDot st) (i + 1) (scanEnd st) (matchedSlash st) (preDotState st)
        else extLoop rest (i - 1) st
      else
        let st := if scanEnd st =? -1
                  then mkScan (startDot st) (startPart st) (i + 1) false (preDotState st)
                  else st in
        let st := if Ascii.eqb code "."
                  then if startDot st =? -1
                       then mkScan i (startPart st) (scanEnd st) (matchedSlash st)
                                   (preDotState st)
                       else if negb (preDotState st =? 1)
                            then mkScan (startDot st) (startPart st) (scanEnd st)
                                        (matchedSlash st) 1
                            else st
                  else if negb (startDot st =? -1)
                       then mkScan (startDot st) (startPart st) (scanEnd st)
                                   (matchedSlash st) (-1)
                       else st in
        extLoop rest (i - 1) st
  end.

(** [path.extname(p)] *)
Definition extname (p : string) : string :=
  let st := extLoop (rev (list_ascii_of_string p)) (Z.of_nat (String.length p) - 1)
                    (mkScan (-1) 0 (-1) true 0) in
  if (startDot st =? -1) || (scanEnd st =? -1) || (preDotState st =? 0)
     || ((preDotState st =? 1) && (startDot st =? scanEnd st - 1)
         && (startDot st =? startPart st + 1))
  then ""
  else String.substring (Z.to_nat (startDot st))
                        (Z.to_nat (scanEnd st - startDot st)) p.

(** The extensions [fileFilter] lets through. *)
Definition allowed : list string :=
  [".png"; ".jpg"; ".jpeg"; ".webp"; ".gif"; ".mp4"; ".mov"; ".mkv"; ".avi"].

Section Uploads.

Variable toLowerCase : string -> string.

(** [fileFilter]: [true] accepts the file, [false] is the error
    [Tipo de arquivo inválido]. *)
Definition fileFilter (originalname : string) : bool :=
  let ext := toLowerCase (extname originalname) in
  existsb (String.eqb ext) allowed.

(** The [filename] callback of the disk storage: [uuidv4() + ext]. *)
Definition filename (uuid originalname : string) : string :=
  uuid +:+ toLowerCase (extname originalname).

End Uploads.

(** *** Vocabulary of the properties *)

(** A request that changes nothing but the time stamp. *)
Definition emptyUpdate (r : updateRequest) : Prop :=
  u_title r = None /\ u_text r = None /\ u_date r = None /\ u_tags r = None /\
  u_location r = None /\ u_status r = None /\ u_day r = DayUndefined /\ uploaded r = [].

(** The names every object inherits from [Object.prototype]. Under such
    a name [reactions[emoji]] reads the inherited value, not a count. *)
Definition inherited : list string :=
  ["constructor"; "__defineGetter__"; "__defineSetter__"; "hasOwnProperty";
   "__lookupGetter__"; "__lookupSetter__"; "isPrototypeOf"; "propertyIsEnumerable";
   "toString"; "valueOf"; "__proto__"; "toLocaleString"].

(** An emoji whose count is an own property of the reactions object, kept
    where it was first written: it is not empty, is not an inherited
    name and does not start with a digit (an integer-like key is moved
    before the other keys of a JavaScript object). *)
Definition countable (emoji : string) : bool :=
  negb (existsb (String.eqb emoji) inherited) &&
  match emoji with
  | String c _ => negb (JS.is_digit c)
  | EmptyString => false
  end.

(** [c] occurs in [s]. *)
Fixpoint hasChar (c : ascii) (s : string) : bool :=
  match s with
  | EmptyString => false
  | String a r => Ascii.eqb a c || hasChar c r
  end.

End Backend.

(** ** Memories on the itinerary side ([script.js]): cards, day blocks,
    cover *)

Module MemoriesView.

Import Server Controller.

Inductive mediaKind := Image | Video.

(** What a memory card shows. [card_text] is absent for an empty text,
    [card_tags] is empty when no tag row is made, [card_media] is absent
    when the memory has no media and otherwise lists the elements made,
    in order. *)
Record card := mkCard {
  card_title : string;
  card_meta : string;
  card_text : option string;
  card_tags : list string;
  card_location : option string;
  card_media : option (list (mediaKind * string));
}.

(** The memories block at the end of a day panel: the empty-state
    message or the grid of cards. *)
Inductive block := NoMemoriesYet | Cards (cs : list card).

(** The cover container: hidden and empty, or shown with the message or
    the grid. *)
Inductive cover := CoverHidden | CoverEmpty | CoverCards (cs : list card).

(** [String(url).split('.').pop()] *)
Definition lastSegment (url : string) : string := List.last (JS.split "." url) "".

(** [mem.day === undefined || mem.day === null ||
     String(mem.day).trim() === ''] *)
Definition noDay (m : memory) : bool :=
  match day m with
  | None => true
  | Some d => negb (JS.truthy (JS.trim (dayRef_String d)))
  end.

Section View.

(** Built-ins: [new Date(s)], [toLowerCase] and the [pt-BR] rendering of
    a date ([toLocaleDateString]). *)
Variable Date_ : string -> JS.number.
Variable toLowerCase : string -> string.
Variable formatDate : string -> string.

(** The element made for one media URL: an image, a video, or nothing
    for an extension that is not recognised. *)
Definition mediaKindOf (url : string) : option mediaKind :=
  let ext := toLowerCase (lastSegment url) in
  if existsb (String.eqb ext) ["jpg"; "jpeg"; "png"; "webp"; "gif"] then Some Image
  else if existsb (String.eqb ext) ["mp4"; "mov"; "mkv"; "avi"] then Some Video
  else None.

Definition mediaElements (urls : list string) : list (mediaKind * string) :=
  flat_map (fun url => match mediaKindOf url with
                       | Some k => [(k, url)]
                       | None => []
                       end) urls.

(** The card built for one memory; [now] stands for [Date.now()], used
    when the memory has neither date nor creation time. The length of
    the text is counted in bytes of the model string, which is the
    code's count of UTF-16 units for a text in ASCII. *)
Definition renderCard (now : string) (m : memory) : card :=
  let maxLen := 160%nat in
  {| card_title := if JS.truthy (title m) then title m else "(Sem título)";
     card_meta :=
       formatDate (if JS.truthy (date m) then date m
                   else if JS.truthy (createdAt m) then createdAt m else now)
       +:+ " • " +:+ (if JS.truthy (status m) then status m else "rascunho");
     card_text :=
       if JS.truthy (text m)
       then Some (if (maxLen <? String.length (text m))%nat
                  then String.substring 0 maxLen (text m) +:+ "…"
                  else text m)
       else None;
     card_tags := tags m;
     card_location := if JS.truthy (location m)
                      then Some ("Local: " +:+ location m) else None;
     card_media := match media m with
                   | [] => None
                   | urls => Some (mediaElements urls)
                   end |}.

(** What a loader hands to its renderer: [None] is [null] (not logged
    in), otherwise the array of the answer, or the empty array when the
    answer is not an array. *)
Definition arrayOf (r : response) : option (list memory) :=
  if (code r =? 401)%nat then None
  else match payload r with
       | MemoriesBody data => Some data
       | _ => Some []
       end.

(** [loadMemoriesForDay]: the request [/memories?day=<dayId>]. *)
Definition loadMemoriesForDay (sess : session) (d : database) (dayId : JS.number)
  : option (list memory) :=
  arrayOf (listMemories Date_ toLowerCase sess d
             (mkQuery None None None None None (Some (JS.toString dayId)))).

(** [loadCoverMemories]: the unfiltered request, narrowed to the
    memories without a day. *)
Definition loadCoverMemories (sess : session) (d : database) : option (list memory) :=
  option_map (List.filter noDay)
    (arrayOf (listMemories Date_ toLowerCase sess d
                (mkQuery None None None None None None))).

(** [renderDayMemories]: the blocks of the day panels, by panel key.
    Nothing happens without a panel for the day. *)
Definition renderDayMemories (now : string) (panels : gmap string panel)
    (dayId : JS.number) (ms : option (list memory)) (blocks : gmap string block)
  : gmap string block :=
  match panels !! JS.toString dayId with
  | None => blocks
  | Some _ =>
      match ms with
      | None => delete (JS.toString dayId) blocks
      | Some [] => <[JS.toString dayId := NoMemoriesYet]> blocks
      | Some l => <[JS.toString dayId := Cards (List.map (renderCard now) l)]> blocks
      end
  end.

(** The block [renderDayMemories] leaves for a list, [None] when it
    removes the block. *)
Definition blockFor (now : string) (ms : option (list memory)) : option block :=
  match ms with
  | None => None
  | Some [] => Some NoMemoriesYet
  | Some l => Some (Cards (List.map (renderCard now) l))
  end.

(** [renderCoverMemories] *)
Definition renderCoverMemories (now : string) (ms : option (list memory)) : cover :=
  match ms with
  | None => CoverHidden
  | Some [] => CoverEmpty
  | Some l => CoverCards (List.map (renderCard now) l)
  end.

(** [refreshAllDayMemories]: one load per day of the itinerary, each
    rendered into its panel. *)
Definition refreshAllDayMemories (now : string) (sess : session) (d : database)
    (pg : page) (blocks : gmap string block) : gmap string block :=
  fold_left
    (fun bs dayRec =>
       renderDayMemories now (tabPanels pg) (Itinerary.id dayRec)
         (loadMemoriesForDay sess d (Itinerary.id dayRec)) bs)
    (itineraryData pg) blocks.

(** What [showLogin] does on the itinerary side: every day block and the
    cover are cleared. *)
Definition clearItineraryMemories (now : string) (pg : page) (blocks : gmap string block)
  : gmap string block * cover :=
  (fold_left
     (fun bs dayRec => renderDayMemories now (tabPanels pg) (Itinerary.id dayRec) None bs)
     (itineraryData pg) blocks,
   renderCoverMemories now None).

End View.

End MemoriesView.

(** ** Countdown and theme ([script.js]) *)

Module Countdown.

(** [new Date('2026-01-16T00:00:00-03:00').getTime()] *)
Definition target : Z := 1768532400000.

(** The three numbers [update] computes from the remaining
    milliseconds. *)
Definition parts (diff : Z) : Z * Z * Z :=
  let days := diff / (1000 * 60 * 60 * 24) in
  let hours := Z.rem diff (1000 * 60 * 60 * 24) / (1000 * 60 * 60) in
  let minutes := Z.rem diff (1000 * 60 * 60) / (1000 * 60) in
  (days, hours, minutes).

(** [parts.join(' ')] *)
Fixpoint join (sep : string) (l : list string) : string :=
  match l with
  | [] => ""
  | [x] => x
  | x :: r => x +:+ sep +:+ join sep r
  end.

(** The text [update] writes at time [now] (milliseconds). *)
Definition update (now : Z) : string :=
  let diff := target - now in
  if diff <=? 0 then "A viagem já começou!"
  else
    let '(days, hours, minutes) := parts diff in
    join " "
      ((if days >? 0
        then [pretty days +:+ " " +:+ (if days =? 1 then "dia" else "dias")] else [])
       ++ (if hours >? 0 then [pretty hours +:+ "h"] else [])
       ++ [pretty minutes +:+ "min"])%list.

End Countdown.

Module Theme.

(** The class [theme-dark] of the root element, the icon of the toggle
    button and the [theme] key of [localStorage]. *)
Record state := mkTheme {
  dark : bool;
  icon : string;
  stored : option string;
}.

(** [applyTheme] *)
Definition applyTheme (theme : string) (st : state) : state :=
  if String.eqb theme "dark"
  then mkTheme true "☀️" (stored st)
  else mkTheme false "🌙" (stored st).

(** [initTheme], with the page's toggle button present. *)
Definition initTheme (prefersDark : bool) (st : state) : state :=
  let theme := match stored st with
               | Some s => if JS.truthy s then s
                           else if prefersDark then "dark" else "light"
               | None => if prefersDark then "dark" else "light"
               end in
  applyTheme theme st.

(** The click handler of the toggle button. *)
Definition toggle (st : state) : state :=
  let theme := if dark st then "light" else "dark" in
  let st := applyTheme theme st in
  mkTheme (dark st) (icon st) (Some theme).

End Theme.

(** ** Vocabulary for the controller's further properties *)

Module Activation.

Import Itinerary Storage Controller.

(** The page a reload starts from: the same itinerary (extracted again
    from the same markup), the same [localStorage] and address, the
    focus lost, the tab strip rebuilt and no panel built. [section] is the
    diary section of the markup. *)
Definition reload (section : option diary) (pg : page) : page :=
  buildTabs (itineraryData pg) section
            (mkPage [] None [] None ∅ (items pg) (lastDay pg) (search pg)).

(** A stored item that is missing, unreadable, falsy or an object: what
    the item handlers themselves write, as opposed to a stray number,
    string, array or [true]. *)
Definition plainItem (o : option stored) : Prop :=
  match parse o with
  | None => True
  | Some j => truthy j = false \/ exists fields, j = JObject fields
  end.

(** Markup that makes no list item: it has no [<li] in it, in either
    case of the letters. *)
Definition noListItem (markup : string) : bool :=
  negb (JS.includes (JS.asciiLower markup) "<li").

(** A day whose panel has exactly one [li] per schedule item, so that
    the rows [initScheduleItemsForDay] finds with [.schedule li] are the
    items of the schedule: none of the markup [createPanel] puts in the
    panel makes a list item of its own. *)
Definition flatDay (day : dayRecord) : bool :=
  noListItem (title day) && noListItem (subtitle day) &&
  noListItem (default "" (highlight day)) &&
  forallb (fun it => noListItem (html it) && noListItem (default "" (transport it)))
          (schedule day).

(** The two buttons [initScheduleItemsForDay] puts on row [index] of the
    day panel stored under [panelKey] are bound to that row and to the
    [saved] object it holds: [boundRow] is the day of the panel and the
    row, when there is such a row. *)
Definition boundRow (panelKey : string) (index : nat) (pg : page)
  : option (dayRecord * rowView) :=
  match tabPanels pg !! panelKey with
  | Some p =>
      match content p with
      | DayPanel day rows _ _ => option_map (pair day) (nth_error rows index)
      | _ => None
      end
  | None => None
  end.

(** The row as a handler leaves it, and the store it wrote. *)
Definition putRow (panelKey : string) (index : nat) (rv : rowView) (ls : storage)
    (pg : page) : page :=
  match tabPanels pg !! panelKey with
  | Some p =>
      match content p with
      | DayPanel day rows prevBtn nextBtn =>
          mkPage (itineraryData pg) (diarySection pg) (tabs pg) (focused pg)
                 (<[panelKey := mkPanel (DayPanel day (<[index := rv]> rows) prevBtn nextBtn)
                                        (panel_active p) (panel_hidden p)]> (tabPanels pg))
                 ls (lastDay pg) (search pg)
      | _ => pg
      end
  | None => pg
  end.

(** A click on the done button of a row: its handler, then
    [updateDayProgress(dayId)]. *)
Definition clickDone (panelKey : string) (index : nat) (pg : page) : page :=
  match boundRow panelKey index pg with
  | Some (day, rv) =>
      let '(rv', ls') := doneClick (id day) index rv (items pg) in
      updateDayProgress (id day) (putRow panelKey index rv' ls' pg)
  | None => pg
  end.

(** A click on the note button of a row, answered by [answer] ([None]
    when the prompt is cancelled): its handler, then [updateDiary()]
    unless the prompt was cancelled. *)
Definition clickNote (answer : option string) (panelKey : string) (index : nat)
    (pg : page) : page :=
  match boundRow panelKey index pg, answer with
  | Some (day, rv), Some _ =>
      let '(rv', ls') := noteClick (id day) index answer rv (items pg) in
      updateDiary (putRow panelKey index rv' ls' pg)
  | _, _ => pg
  end.

End Activation.

(** * Properties *)

(** ** Backend: login, listing, ownership *)

Module ServerFacts.

Import Server.

Lemma truthy_false_iff s : JS.truthy s = false <-> s = "".
Proof. destruct s; simpl; split; congruence. Qed.

Lemma truthy_true_iff s : JS.truthy s = true <-> s <> "".
Proof. destruct s; simpl; split; congruence. Qed.

Lemma truthy_opt_false_iff o : JS.truthy_opt o = false <-> blankField o.
Proof.
  unfold blankField. destruct o as [s|]; simpl.
  - rewrite truthy_false_iff. split.
    + intros ->. now right.
    + intros [H|H]; congruence.
  - split; auto.
Qed.

(** C10. [POST /auth/login] with a missing or empty username or password
    answers 400 with an error body and leaves the session as it was; the
    401 answer is given exactly to a pair that is present, non-empty and
    not the stored one. *)
Theorem login_blank_is_400 (USERS : gmap string string) (sess : session) (b : loginBody) :
  (blankField (username b) \/ blankField (password b) ->
     code (fst (login USERS sess b)) = 400%nat /\
     (exists e, payload (fst (login USERS sess b)) = ErrorBody e) /\
     snd (login USERS sess b) = sess) /\
  (code (fst (login USERS sess b)) = 401%nat <-> wrongPair USERS b).
Proof.
  unfold login. split.
  - intros Hb.
    assert (E : negb (JS.truthy_opt (username b)) || negb (JS.truthy_opt (password b)) = true).
    { apply orb_true_iff. destruct Hb as [H|H]; apply truthy_opt_false_iff in H;
        rewrite H; auto. }
    rewrite E. simpl. eauto.
  - destruct (username b) as [u|] eqn:Eu, (password b) as [p|] eqn:Ep; simpl;
      unfold wrongPair; rewrite ?Eu, ?Ep.
    2: rewrite orb_true_r.
    2-4: simpl; split; [discriminate | intros (u' & p' & H1 & H2 & _); congruence].
    destruct (JS.truthy u) eqn:Tu; simpl.
    2:{ split; [discriminate|]. intros (u' & p' & [= <-] & _ & Hu & _).
        apply truthy_false_iff in Tu. contradiction. }
    destruct (JS.truthy p) eqn:Tp; simpl.
    2:{ split; [discriminate|]. intros (u' & p' & _ & [= <-] & _ & Hp & _).
        apply truthy_false_iff in Tp. contradiction. }
    apply truthy_true_iff in Tu, Tp.
    destruct (USERS !! u) as [stored|] eqn:Es.
    + destruct (String.eqb stored p) eqn:Eq.
      * apply String.eqb_eq in Eq. subst stored.
        assert (JS.truthy p = true) as -> by now apply truthy_true_iff.
        simpl. split; [discriminate|].
        intros (u' & p' & [= <-] & [= <-] & _ & _ & Hne). congruence.
      * rewrite andb_false_r. simpl. split; [|reflexivity].
        intros _. exists u, p. repeat split; auto.
        apply String.eqb_neq in Eq. congruence.
    + simpl. split; [|reflexivity]. intros _. exists u, p. repeat split; auto.
      congruence.
Qed.

(** An empty password with a known user: 400, and no session appears. *)
Lemma login_blank_is_400_witness :
  let b := {| username := Some "gui"; password := Some "" |} in
  code (fst (login defaultUSERS None b)) = 400%nat /\
  (exists e, payload (fst (login defaultUSERS None b)) = ErrorBody e) /\
  snd (login defaultUSERS None b) = None.
Proof.
  intros b. apply (proj1 (login_blank_is_400 defaultUSERS None b)).
  right. right. reflexivity.
Defined.

Section Listing.

Variable Date_ : string -> JS.number.
Variable toLowerCase : string -> string.

(** Lower-casing maps the empty string, and nothing else, to the empty
    string. *)
Hypothesis toLowerCase_truthy : forall s, JS.truthy (toLowerCase s) = JS.truthy s.

Lemma filter_filter {A} (p r : A -> bool) (l : list A) :
  List.filter p (List.filter r l) = List.filter (fun x => r x && p x) l.
Proof.
  induction l as [|x l IH]; simpl; [reflexivity|].
  destruct (r x); simpl; [destruct (p x)|]; now rewrite IH.
Qed.

Lemma filter_true {A} (l : list A) : List.filter (fun _ => true) l = l.
Proof. induction l; simpl; congruence. Qed.

(** Each conditional filtering step is one filter by a predicate that is
    true when the parameter is not supplied. *)
Lemma filterIf_filter (param : option string) (p : string -> memory -> bool) ms :
  filterIf param p ms = List.filter (fun m => whenSupplied param (fun s => p s m)) ms.
Proof.
  unfold filterIf, whenSupplied. destruct param as [s|].
  - destruct (JS.truthy s); [reflexivity | now rewrite filter_true].
  - now rewrite filter_true.
Qed.

Lemma includes_nonempty s needle :
  JS.truthy needle = true -> JS.truthy s = false -> JS.includes s needle = false.
Proof.
  intros Hn Hs. destruct s; [|discriminate]. destruct needle; [discriminate|].
  reflexivity.
Qed.

(** The truthiness guard in front of each [includes] changes nothing for
    a supplied query. *)
Lemma qMatches_listed q m :
  JS.truthy q = true ->
  qMatches toLowerCase (toLowerCase q) m =
  JS.includes (toLowerCase (title m)) (toLowerCase q)
  || JS.includes (toLowerCase (text m)) (toLowerCase q).
Proof.
  intros Hq. unfold qMatches.
  assert (Hs : JS.truthy (toLowerCase q) = true) by now rewrite toLowerCase_truthy.
  assert (G : forall s, JS.truthy s && JS.includes (toLowerCase s) (toLowerCase q)
                        = JS.includes (toLowerCase s) (toLowerCase q)).
  { intros s. destruct (JS.truthy s) eqn:E; [reflexivity|]. simpl. symmetry.
    apply includes_nonempty; [assumption|]. now rewrite toLowerCase_truthy. }
  now rewrite !G.
Qed.

(** C6. For an authenticated session, [GET /memories] answers 200 with
    exactly the memories that meet every supplied filter ([q], [status],
    [from], [to], [day]), in stored order. They are taken from the stored
    memories, all of them unless the handler's further [tag] parameter is
    supplied, which first narrows them to the memories with that tag. *)
Theorem listMemories_exact (u : string) (d : database) (qr : query) :
  let candidates :=
    filterIf (q_tag qr) (fun tag => tagMatches toLowerCase (toLowerCase tag))
             (memories d) in
  listMemories Date_ toLowerCase (Some u) d qr
  = mkResponse 200%nat
      (MemoriesBody (List.filter (listed Date_ toLowerCase qr) candidates)) /\
  (JS.truthy_opt (q_tag qr) = false -> candidates = memories d).
Proof.
  intros candidates. split.
  2:{ intros Htag. unfold candidates, filterIf.
      destruct (q_tag qr) as [t|]; [|reflexivity].
      simpl in Htag. now rewrite Htag. }
  unfold listMemories. do 2 f_equal. fold candidates.
  generalize candidates. clear candidates. intros ms0.
  rewrite !filterIf_filter.
  assert (D : forall ms,
             (if dayGiven (q_day qr)
              then List.filter (dayMatches (default "" (q_day qr))) ms else ms)
             = List.filter (fun m => match q_day qr with
                                     | Some dstr =>
                                         if JS.truthy (JS.trim dstr)
                                         then dayMatches dstr m else true
                                     | None => true
                                     end) ms).
  { intros ms. unfold dayGiven. destruct (q_day qr) as [dstr|]; simpl.
    - destruct (JS.truthy (JS.trim dstr)); [reflexivity | now rewrite filter_true].
    - now rewrite filter_true. }
  rewrite D, !filter_filter. apply filter_ext. intros m. unfold listed.
  assert (Q : whenSupplied (q_q qr) (fun s => qMatches toLowerCase (toLowerCase s) m)
              = whenSupplied (q_q qr)
                  (fun q => JS.includes (toLowerCase (title m)) (toLowerCase q)
                            || JS.includes (toLowerCase (text m)) (toLowerCase q))).
  { unfold whenSupplied. destruct (q_q qr) as [q|]; [|reflexivity].
    destruct (JS.truthy q) eqn:E; [|reflexivity]. now apply qMatches_listed. }
  rewrite Q. unfold statusMatches, fromMatches, toMatches, dayMatches.
  set (a := whenSupplied (q_q qr) _). set (b := whenSupplied (q_status qr) _).
  set (c := whenSupplied (q_from qr) _). set (e := whenSupplied (q_to qr) _).
  set (f := match q_day qr with Some _ => _ | None => _ end).
  destruct a, b, c, e, f; reflexivity.
Qed.

(** Without a session the listing is refused. *)
Lemma listMemories_unauthorized (d : database) (qr : query) :
  listMemories Date_ toLowerCase None d qr = unauthorized.
Proof. reflexivity. Qed.

End Listing.

Lemma asciiLower_truthy s : JS.truthy (JS.asciiLower s) = JS.truthy s.
Proof. destruct s; reflexivity. Qed.

(** [GET /memories?status=public&q=praia] on the sample database lists
    the public memory whose title contains the word, whatever its case,
    and not the draft whose text contains it. *)
Lemma listMemories_exact_witness :
  listMemories sampleDate JS.asciiLower (Some "gui") sampleDB
    (mkQuery None (Some "public") (Some "praia") None None None)
  = mkResponse 200%nat (MemoriesBody [praia]).
Proof.
  rewrite (proj1 (listMemories_exact sampleDate JS.asciiLower asciiLower_truthy
                    "gui" sampleDB
                    (mkQuery None (Some "public") (Some "praia") None None None))).
  reflexivity.
Defined.

(** Date bounds are inclusive time-value comparisons, and a day filter
    keeps the memories of that day only. *)
Example listMemories_range_and_day :
  listMemories sampleDate JS.asciiLower (Some "gui") sampleDB
    (mkQuery None None None (Some "2024-01-05") (Some "2024-01-31") (Some "2"))
  = mkResponse 200%nat (MemoriesBody [praia]).
Proof. reflexivity. Qed.

Example listMemories_tag :
  listMemories sampleDate JS.asciiLower (Some "gui") sampleDB
    (mkQuery (Some "VERAO") None None None None None)
  = mkResponse 200%nat (MemoriesBody [praia]).
Proof. reflexivity. Qed.

Example listMemories_blank_day :
  listMemories sampleDate JS.asciiLower (Some "gui") sampleDB
    (mkQuery None None None None None (Some "  "))
  = mkResponse 200%nat (MemoriesBody [praia; museu]).
Proof. reflexivity. Qed.

(** A [day] of white space only filters nothing, whatever the white
    space is: here a no-break space and an ideographic space. *)
Example listMemories_no_break_space_day :
  listMemories sampleDate JS.asciiLower (Some "gui") sampleDB
    (mkQuery None None None None None (Some " 　"))
  = mkResponse 200%nat (MemoriesBody [praia; museu]).
Proof. reflexivity. Qed.

(** [findIndex] followed by indexing reaches the first element that
    satisfies the test. *)
Lemma findIndex_find {A} (p : A -> bool) (l : list A) (x : A) :
  List.find p l = Some x ->
  exists idx, JS.findIndex p l = Some idx /\ nth_error l idx = Some x.
Proof.
  induction l as [|y l IH]; simpl; [discriminate|].
  destruct (p y).
  - intros [= ->]. exists O. auto.
  - intros H. destruct (IH H) as (idx & -> & Hn). exists (S idx). auto.
Qed.

(** With unique ids, every stored memory is the one its id resolves to. *)
Lemma find_by_unique_id (ms : list memory) (m : memory) :
  List.NoDup (List.map id ms) -> In m ms ->
  List.find (fun x => String.eqb (id x) (id m)) ms = Some m.
Proof.
  induction ms as [|y ms IH]; simpl; [contradiction|].
  intros Hnd Hin. apply NoDup_cons_iff in Hnd as [Hy Hnd].
  destruct Hin as [->|Hin].
  - now rewrite String.eqb_refl.
  - destruct (String.eqb (id y) (id m)) eqn:E.
    + apply String.eqb_eq in E. exfalso. apply Hy. rewrite E.
      now apply in_map.
    + auto.
Qed.

(** C7. When the memory a [PUT] or [DELETE] request resolves to belongs to
    someone other than the caller, the answer is 403 and the database is
    what it was: memories, comments and, for [DELETE], the stored files
    too. *)
Theorem foreign_write_refused (s : state) (caller rid : string) (m : memory)
    (r : updateRequest) :
  List.find (fun x => String.eqb (id x) rid) (memories (db s)) = Some m ->
  user m <> caller ->
  (code (fst (updateMemory (Some caller) rid r s)) = 403%nat /\
   db (snd (updateMemory (Some caller) rid r s)) = db s) /\
  (code (fst (deleteMemory (Some caller) rid s)) = 403%nat /\
   snd (deleteMemory (Some caller) rid s) = s).
Proof.
  intros Hfind Howner.
  destruct (findIndex_find _ _ _ Hfind) as (idx & Hidx & Hnth).
  assert (Hne : negb (String.eqb (user m) caller) = true).
  { apply negb_true_iff. now apply String.eqb_neq. }
  split.
  - unfold updateMemory, storeUploads. cbn [db memories].
    rewrite Hidx, Hnth, Hne. cbn. auto.
  - unfold deleteMemory. rewrite Hidx, Hnth, Hne. cbn. auto.
Qed.

(** [gui] may neither change nor delete the memory [carina] owns. *)
Lemma foreign_write_refused_witness :
  let r := mkUpdate (Some "novo") None None None None (Some "private") DayNull
                    ["b.png"] "2024-03-01T00:00:00.000Z" in
  (code (fst (updateMemory (Some "gui") "m1" r sampleState)) = 403%nat /\
   db (snd (updateMemory (Some "gui") "m1" r sampleState)) = sampleDB) /\
  (code (fst (deleteMemory (Some "gui") "m1" sampleState)) = 403%nat /\
   snd (deleteMemory (Some "gui") "m1" sampleState) = sampleState).
Proof.
  intros r. apply (foreign_write_refused sampleState "gui" "m1" praia r).
  - reflexivity.
  - discriminate.
Defined.

(** The owner's requests go through: the update rewrites the memory in
    place and appends the new media, the deletion removes the memory, its
    comments and its files. *)
Example owner_update_applies :
  let r := mkUpdate (Some "novo") None None None None (Some "private") DayNull
                    ["b.png"] "2024-03-01T00:00:00.000Z" in
  let '(res, s') := updateMemory (Some "carina") "m1" r sampleState in
  code res = 200%nat /\
  List.map title (memories (db s')) = ["novo"; "Museu"] /\
  List.map media (memories (db s')) = [["/uploads/a.png"; "/uploads/b.png"]; []] /\
  comments (db s') = comments sampleDB.
Proof. cbn. auto. Qed.

Example owner_delete_cascades :
  deleteMemory (Some "carina") "m1" sampleState
  = (mkResponse 200%nat (MessageBody "Memória excluída"),
     mkState (mkDB [museu] []) []).
Proof. reflexivity. Qed.

(** The uploads of a refused update stay on disk: the middleware stored
    them before the handler looked at the owner. *)
Example refused_update_keeps_uploads :
  let r := mkUpdate None None None None None None DayUndefined ["b.png"] "t" in
  files (snd (updateMemory (Some "gui") "m1" r sampleState))
  = ["/uploads/a.png"; "/uploads/b.png"].
Proof. reflexivity. Qed.

End ServerFacts.

(** ** Per-item store: an unticked, noteless item reads as absent *)

Module StorageFacts.

Import Storage.

Lemma getItem_setItem_eq ls k v : getItem (setItem ls k v) k = Some v.
Proof.
  induction ls as [|[k' w] ls IH]; simpl.
  - now rewrite String.eqb_refl.
  - destruct (String.eqb k' k) eqn:E; simpl; rewrite E; auto.
Qed.

Lemma getItem_setItem_ne ls k k' v :
  k <> k' -> getItem (setItem ls k v) k' = getItem ls k'.
Proof.
  intros Hne. induction ls as [|[k0 w] ls IH]; simpl.
  - apply String.eqb_neq in Hne. now rewrite Hne.
  - destruct (String.eqb k0 k) eqn:E; simpl.
    + apply String.eqb_eq in E. subst k0.
      apply String.eqb_neq in Hne. now rewrite Hne.
    + now rewrite IH.
Qed.

Lemma getItem_removeItem_ne ls k k' :
  k <> k' -> getItem (removeItem ls k) k' = getItem ls k'.
Proof.
  intros Hne. induction ls as [|[k0 w] ls IH]; simpl; [reflexivity|].
  destruct (String.eqb k0 k) eqn:E; simpl.
  - apply String.eqb_eq in E. subst k0.
    apply String.eqb_neq in Hne. now rewrite Hne.
  - now rewrite IH.
Qed.

Lemma getItem_absent ls k : ~ In k (List.map fst ls) -> getItem ls k = None.
Proof.
  induction ls as [|[k0 w] ls IH]; simpl; [reflexivity|].
  intros Hn. destruct (String.eqb k0 k) eqn:E.
  - apply String.eqb_eq in E. tauto.
  - apply IH. tauto.
Qed.

(** With unique keys, a removed key is gone. *)
Lemma getItem_removeItem_eq ls k :
  List.NoDup (List.map fst ls) -> getItem (removeItem ls k) k = None.
Proof.
  induction ls as [|[k0 w] ls IH]; simpl; [reflexivity|].
  intros Hnd. apply NoDup_cons_iff in Hnd as [Hk Hnd].
  destruct (String.eqb k0 k) eqn:E; simpl.
  - apply String.eqb_eq in E. subst k0. now apply getItem_absent.
  - rewrite E. auto.
Qed.

(** Under any key, the unticked state pushes no diary entry. *)
Lemma entryOf_unticked k : entryOf (k, Parsed unticked) = None.
Proof.
  unfold entryOf.
  destruct (negb (JS.truthy k) || negb (JS.startsWith k "day-")); reflexivity.
Qed.

(** A value that pushes no entry leaves the scan as if its key were not
    stored. *)
Lemma scan_setItem_silent ls k v :
  entryOf (k, v) = None -> scan (setItem ls k v) = scan (removeItem ls k).
Proof.
  intros Hv. induction ls as [|[k0 w] ls IH]; cbn [scan setItem removeItem].
  - now rewrite Hv.
  - destruct (String.eqb k0 k) eqn:E.
    + apply String.eqb_eq in E. subst k0. cbn [scan]. now rewrite Hv.
    + cbn [scan]. now rewrite IH.
Qed.

(** C8. In a store with unique keys, writing the unticked, noteless state
    under the key of (day, index) gives the same observations as the store
    without that key: the row is rendered not completed and without a
    note, the diary has the same entries, and every day's completed count
    is the same. *)
Theorem unticked_reads_as_absent (ls : storage) (dayId : JS.number) (index : nat) :
  List.NoDup (List.map fst ls) ->
  let key := itemKey dayId index in
  let written := setItem ls key (Parsed unticked) in
  let absent := removeItem ls key in
  getItem absent key = None /\
  (completed (initRow written dayId index) = completed (initRow absent dayId index) /\
   completed (initRow written dayId index) = false) /\
  (noteDisplay (initRow written dayId index) = noteDisplay (initRow absent dayId index) /\
   noteDisplay (initRow written dayId index) = None) /\
  diaryEntries written = diaryEntries absent /\
  isCompleted written dayId index = false /\
  (forall d total, countCompleted written d total = countCompleted absent d total).
Proof.
  intros Hnd key written absent.
  assert (Ha : getItem absent key = None) by now apply getItem_removeItem_eq.
  assert (Hw : getItem written key = Some (Parsed unticked))
    by apply getItem_setItem_eq.
  assert (Hc : forall d i, isCompleted written d i = isCompleted absent d i).
  { intros d i. unfold isCompleted.
    destruct (String.eqb key (itemKey d i)) eqn:E.
    - apply String.eqb_eq in E. rewrite <- E, Ha, Hw. reflexivity.
    - apply String.eqb_neq in E. unfold written, absent.
      now rewrite getItem_setItem_ne, getItem_removeItem_ne. }
  split; [exact Ha|].
  unfold initRow. fold key. rewrite Ha, Hw. cbn.
  repeat split.
  - unfold diaryEntries, written, absent. f_equal.
    apply scan_setItem_silent, entryOf_unticked.
  - unfold isCompleted. fold key. now rewrite Hw.
  - intros d total. unfold countCompleted. f_equal. apply filter_ext.
    intros i. apply Hc.
Qed.

Lemma unticked_reads_as_absent_witness :
  let written := setItem sampleStore (itemKey (JS.Int 2) 0) (Parsed unticked) in
  let absent := removeItem sampleStore (itemKey (JS.Int 2) 0) in
  getItem absent (itemKey (JS.Int 2) 0) = None /\
  (completed (initRow written (JS.Int 2) 0) = completed (initRow absent (JS.Int 2) 0) /\
   completed (initRow written (JS.Int 2) 0) = false) /\
  (noteDisplay (initRow written (JS.Int 2) 0) = noteDisplay (initRow absent (JS.Int 2) 0) /\
   noteDisplay (initRow written (JS.Int 2) 0) = None) /\
  diaryEntries written = diaryEntries absent /\
  isCompleted written (JS.Int 2) 0 = false /\
  (forall d total, countCompleted written d total = countCompleted absent d total).
Proof.
  apply (unticked_reads_as_absent sampleStore (JS.Int 2) 0).
  repeat constructor; simpl; intuition discriminate.
Defined.

(** Unticking a ticked row without a note is such a write. *)
Example doneClick_unticks (ls : storage) :
  doneClick (JS.Int 2) 0 (mkRow true None (JObject [("completed", JBool true)])) ls
  = (mkRow false None unticked, setItem ls (itemKey (JS.Int 2) 0) (Parsed unticked)).
Proof. reflexivity. Qed.

(** The diary of the sample store and the count of day 2; a malformed
    value counts as not completed. *)
Example sampleStore_views :
  diaryEntries sampleStore = [mkEntry 1 (JString "cafe")] /\
  countCompleted sampleStore (JS.Int 2) 2 = 1%nat /\
  itemKey (JS.Int 2) 0 = "day-2-item-0".
Proof. repeat split. Qed.

End StorageFacts.

(** ** Extractor: one record per day card, in order, cards detached *)

Module ItineraryFacts.

Import Dom Itinerary.

(** Induction on document trees, with the hypothesis for every child. *)
Lemma node_induction (P : node -> Prop) :
  (forall s, P (Text s)) ->
  (forall t cls at_ ch, Forall P ch -> P (Element t cls at_ ch)) ->
  forall n, P n.
Proof.
  intros HText HElem. fix IH 1. intros [s|t cls at_ ch].
  - apply HText.
  - apply HElem. induction ch as [|k ch IHch]; constructor.
    + apply IH.
    + exact IHch.
Qed.

Lemma flat_map_nil {A B} (f : A -> list B) (l : list A) :
  Forall (fun x => f x = []) l -> flat_map f l = [].
Proof.
  induction 1 as [|x l Hx _ IH]; simpl; [reflexivity|]. now rewrite Hx, IH.
Qed.

Lemma flat_map_flat_map_nil {A B C} (f : A -> list B) (g : B -> list C) (l : list A) :
  Forall (fun x => flat_map g (f x) = []) l -> flat_map g (flat_map f l) = [].
Proof.
  induction 1 as [|x l Hx _ IH]; simpl; [reflexivity|].
  now rewrite flat_map_app, Hx, IH.
Qed.

(** Nothing of class [c] is left below a node once the elements of that
    class are detached. *)
Lemma select_detach (c : string) (n : node) :
  selectAll (hasClass c) (detach c n) = [].
Proof.
  induction n as [s|t cls at_ ch IH] using node_induction.
  - reflexivity.
  - unfold selectAll in *. cbn [detach].
    destruct (hasClass c (Element t cls at_ ch)) eqn:E; [reflexivity|].
    cbn [flat_map select]. cbn [hasClass] in E |- *. rewrite E.
    cbn [app]. rewrite app_nil_r. now apply flat_map_flat_map_nil.
Qed.

Lemma selectAll_detachAll (c : string) (forest : list node) :
  selectAll (hasClass c) (detachAll c forest) = [].
Proof.
  unfold selectAll, detachAll. apply flat_map_flat_map_nil.
  apply Forall_forall. intros n _. apply select_detach.
Qed.

Section Extraction.

Variable serialize : list node -> string.

Lemma Forall2_map_r {A B} (R : A -> B -> Prop) (f : A -> B) (l : list A) :
  (forall x, R x (f x)) -> Forall2 R l (List.map f l).
Proof. intros H. induction l; simpl; constructor; auto. Qed.

Lemma parseRow_defaults (li : node) : rowDefaults li (parseRow serialize li).
Proof.
  unfold rowDefaults, parseRow. cbn [time transport].
  split; intros ->; reflexivity.
Qed.

Lemma parseCard_defaults (card : node) : cardDefaults card (parseCard serialize card).
Proof.
  unfold cardDefaults, parseCard. cbn [id title subtitle highlight schedule].
  split; [reflexivity|].
  repeat split; try (intros ->; reflexivity).
  apply Forall2_map_r, parseRow_defaults.
Qed.

(** C9. For every document, with [cards] its day cards in document order:
    the extractor returns one record per card, in the same order, each
    with the day number its card carries; a missing title, subtitle or
    time gives the empty string and a missing highlight or transport note
    gives [null]; and no day card is left in the document afterwards. The
    extractor is a total function: it has no failing case. *)
Theorem parseItinerary_records (document : list node) :
  let cards := selectAll (hasClass "day-card") document in
  let data := fst (parseItinerary serialize document) in
  let document' := snd (parseItinerary serialize document) in
  length data = length cards /\
  List.map id data = List.map (fun card => JS.parseInt10 (dataset_day card)) cards /\
  Forall2 cardDefaults cards data /\
  selectAll (hasClass "day-card") document' = [].
Proof.
  cbn zeta. unfold parseItinerary. cbn [fst snd].
  split; [apply length_map|].
  split; [now rewrite map_map|].
  split; [apply Forall2_map_r, parseCard_defaults|].
  apply selectAll_detachAll.
Qed.

End Extraction.

Example parseItinerary_samplePage :
  parseItinerary textOnly samplePage
  = ([ mkDay (JS.Int 1) "Chegada" "Lisboa" (Some "Pasteis")
             [mkItem "09:00" "Aeroporto" (Some "Metro")];
       mkDay (JS.Int 2) "Sintra" "" None [mkItem "" "Palacio" None] ],
     [ Element "h2" [] [] [Text "Roteiro"] ]).
Proof. reflexivity. Qed.

(** A card without a usable day number gets [NaN] as its id. *)
Example parseItinerary_no_number :
  List.map id (fst (parseItinerary textOnly
                      [Element "section" ["day-card"] [] [];
                       Element "section" ["day-card"] [("data-day", "x")] []]))
  = [JS.NaN; JS.NaN].
Proof. reflexivity. Qed.

End ItineraryFacts.

(** ** Controller: start-up view, address, keyboard, progress, day buttons *)

Module ControllerFacts.

Import Itinerary Storage Controller.

(** *** The query of the page address *)

Lemma has_delete ps name : SearchParams.has (SearchParams.delete ps name) name = false.
Proof.
  unfold SearchParams.has, SearchParams.delete.
  induction ps as [|[k v] ps IH]; simpl; [reflexivity|].
  destruct (String.eqb k name) eqn:E; simpl; [assumption|]. now rewrite E.
Qed.

Lemma get_delete ps name : SearchParams.get (SearchParams.delete ps name) name = None.
Proof.
  unfold SearchParams.get, SearchParams.delete.
  induction ps as [|[k v] ps IH]; simpl; [reflexivity|].
  destruct (String.eqb k name) eqn:E; simpl; [assumption|]. now rewrite E.
Qed.

Lemma get_set ps name value : SearchParams.get (SearchParams.set ps name value) name = Some value.
Proof.
  unfold SearchParams.get.
  induction ps as [|[k v] ps IH]; simpl.
  - now rewrite String.eqb_refl.
  - destruct (String.eqb k name) eqn:E; simpl; now rewrite E.
Qed.

(** After [set] the name occurs once. *)
Lemma count_set ps name value :
  length (List.filter (fun kv => String.eqb (fst kv) name)
                      (SearchParams.set ps name value)) = 1%nat.
Proof.
  assert (D : forall qs, List.filter (fun kv : string * string => String.eqb (fst kv) name)
                           (SearchParams.delete qs name) = []).
  { intros qs. unfold SearchParams.delete.
    induction qs as [|[k v] qs IH]; simpl; [reflexivity|].
    destruct (String.eqb k name) eqn:E; simpl; [assumption|]. now rewrite E. }
  induction ps as [|[k v] ps IH]; simpl.
  - now rewrite String.eqb_refl.
  - destruct (String.eqb k name) eqn:E; simpl; rewrite E; simpl.
    + now rewrite D.
    + exact IH.
Qed.

Lemma get_Some_has ps name v :
  SearchParams.get ps name = Some v -> SearchParams.has ps name = true.
Proof.
  unfold SearchParams.get, SearchParams.has.
  induction ps as [|[k w] ps IH]; simpl; [discriminate|].
  destruct (String.eqb k name); simpl; auto.
Qed.

Lemma search_openTab idStr pg :
  search (openTab idStr pg)
  = if String.eqb idStr "diary" then SearchParams.delete (search pg) "dia"
    else SearchParams.set (search pg) "dia" idStr.
Proof.
  assert (U : forall d q, search (updateDayProgress d q) = search q).
  { intros d q. unfold updateDayProgress.
    destruct (findDay _ _); reflexivity. }
  assert (C : forall q, search (createPanel idStr q) = search q).
  { intros q. unfold createPanel.
    destruct (String.eqb idStr "diary").
    { destruct (diarySection q); reflexivity. }
    destruct (String.eqb idStr "memories"); [reflexivity|].
    destruct (findDay _ _); [|reflexivity]. cbn. apply U. }
  unfold openTab. cbn [search].
  destruct (tabPanels _ !! idStr); [reflexivity|]. now rewrite C.
Qed.

(** C2, as the code has it. Opening the diary removes the [dia]
    parameter from the address; opening any other view, the memories view
    included, sets [dia] to the view's id, as its only value. *)
Theorem openTab_address (idStr : string) (pg : page) :
  (idStr = "diary" ->
     SearchParams.has (search (openTab idStr pg)) "dia" = false) /\
  (idStr <> "diary" ->
     SearchParams.get (search (openTab idStr pg)) "dia" = Some idStr /\
     length (List.filter (fun kv => String.eqb (fst kv) "dia")
                         (search (openTab idStr pg))) = 1%nat).
Proof.
  rewrite search_openTab. split.
  - intros ->. cbn. apply has_delete.
  - intros Hne. apply String.eqb_neq in Hne. rewrite Hne.
    split; [apply get_set | apply count_set].
Qed.

Example startPage_labels :
  List.map label (tabs (startPage None []))
  = ["Dia 1 (0/1)"; "Dia 2 (1/2)"; "Dia 3"; "Dia 4 (0/1)"; "Diário"; "Memórias"].
Proof. reflexivity. Qed.

(** Opening day 2 puts [dia=2] in the address, replacing what was
    there. *)
Lemma openTab_address_witness :
  SearchParams.get (search (openTab "2" (startPage None [("dia", "4"); ("x", "y")]))) "dia"
  = Some "2" /\
  length (List.filter (fun kv => String.eqb (fst kv) "dia")
            (search (openTab "2" (startPage None [("dia", "4"); ("x", "y")])))) = 1%nat.
Proof.
  apply (proj2 (openTab_address "2" (startPage None [("dia", "4"); ("x", "y")]))).
  discriminate.
Defined.

(** C2 as stated fails for the memories view: opening it leaves the
    address with [dia=memories], it does not clear the parameter. *)
Lemma openTab_memories_sets_dia :
  SearchParams.has (search (openTab "memories" (startPage None []))) "dia" = true /\
  search (openTab "memories" (startPage None [])) = [("dia", "memories")].
Proof. split; reflexivity. Qed.

(** *** Start-up *)

Lemma has_false_get ps name : SearchParams.has ps name = false -> SearchParams.get ps name = None.
Proof.
  unfold SearchParams.get, SearchParams.has.
  induction ps as [|[k w] ps IH]; simpl; [reflexivity|].
  destruct (String.eqb k name); simpl; [discriminate | auto].
Qed.

Lemma startupView_fallback pg :
  noStartupId pg ->
  startupView pg = match itineraryData pg with
                   | d :: _ => JS.toString (id d)
                   | [] => "diary"
                   end.
Proof.
  unfold noStartupId, startupView. intros [Hg|[Hh Hl]].
  - rewrite (get_Some_has _ _ _ Hg), Hg. reflexivity.
  - rewrite Hh. destruct Hl as [->| ->]; reflexivity.
Qed.

(** C1, as the code has it. A non-empty [dia] parameter is the view
    opened at start-up, whatever the stored last day; without a [dia]
    parameter a non-empty stored last day is opened; in every other case,
    an empty [dia] parameter included, the first day of the itinerary is
    opened, or the diary when there is no day. *)
Theorem startup_precedence (pg : page) :
  (forall v, SearchParams.get (search pg) "dia" = Some v -> v <> "" ->
             startupView pg = v /\ restoreLastDay pg = openTab v pg) /\
  (forall v, SearchParams.has (search pg) "dia" = false ->
             lastDay pg = Some v -> v <> "" ->
             startupView pg = v /\ restoreLastDay pg = openTab v pg) /\
  (forall d rest, noStartupId pg -> itineraryData pg = d :: rest ->
             startupView pg = JS.toString (id d) /\
             restoreLastDay pg = openTab (JS.toString (id d)) pg) /\
  (noStartupId pg -> itineraryData pg = [] ->
             startupView pg = "diary" /\ restoreLastDay pg = openTab "diary" pg).
Proof.
  unfold restoreLastDay.
  assert (A : forall v, SearchParams.get (search pg) "dia" = Some v -> v <> "" ->
                        startupView pg = v).
  { intros v Hg Hv. unfold startupView.
    rewrite (get_Some_has _ _ _ Hg), Hg. cbn.
    destruct v; [contradiction | reflexivity]. }
  assert (B : forall v, SearchParams.has (search pg) "dia" = false ->
                        lastDay pg = Some v -> v <> "" -> startupView pg = v).
  { intros v Hh Hl Hv. unfold startupView. rewrite Hh, Hl. cbn.
    destruct v; [contradiction | reflexivity]. }
  split; [|split; [|split]].
  - intros v Hg Hv. rewrite (A v Hg Hv). auto.
  - intros v Hh Hl Hv. rewrite (B v Hh Hl Hv). auto.
  - intros d rest Hno Hd. rewrite (startupView_fallback pg Hno), Hd. auto.
  - intros Hno Hd. rewrite (startupView_fallback pg Hno), Hd. auto.
Qed.

(** The precedence on the specification's example: [dia=2] wins over a
    stored last day 3. *)
Lemma startup_precedence_witness :
  startupView (startPage (Some "3") [("dia", "2")]) = "2" /\
  restoreLastDay (startPage (Some "3") [("dia", "2")])
  = openTab "2" (startPage (Some "3") [("dia", "2")]).
Proof.
  apply (proj1 (startup_precedence (startPage (Some "3") [("dia", "2")])) "2").
  - reflexivity.
  - discriminate.
Defined.

Example startup_examples :
  startupView (startPage (Some "3") []) = "3" /\
  startupView (startPage None []) = "1" /\
  startupView (blankPage [] [] None []) = "diary".
Proof. repeat split. Qed.

(** C1 as stated fails for an empty parameter: with [?dia=] in the
    address and 3 stored as last day, the view opened is neither the
    parameter's value nor the stored day, but the first day. *)
Lemma startup_empty_dia_opens_first_day :
  SearchParams.has (search (startPage (Some "3") [("dia", "")])) "dia" = true /\
  SearchParams.get (search (startPage (Some "3") [("dia", "")])) "dia" = Some "" /\
  lastDay (startPage (Some "3") [("dia", "")]) = Some "3" /\
  startupView (startPage (Some "3") [("dia", "")]) = "1" /\
  startupView (startPage (Some "3") [("dia", "")]) <> "".
Proof. repeat split. discriminate. Qed.

(** *** The tab strip under [openTab] *)

Lemma Forall2_sameButLabel_refl ts : Forall2 sameButLabel ts ts.
Proof. induction ts; constructor; auto. repeat split. Qed.

Lemma setLabel_sameButLabel tabId text ts :
  Forall2 sameButLabel ts (setLabel tabId text ts).
Proof.
  induction ts as [|t ts IH]; simpl; [constructor|].
  destruct (String.eqb (tab_id t) tabId); constructor; auto.
  - repeat split.
  - apply Forall2_sameButLabel_refl.
  - repeat split.
Qed.

Lemma updateDayProgress_tabs d pg :
  Forall2 sameButLabel (tabs pg) (tabs (updateDayProgress d pg)).
Proof.
  unfold updateDayProgress. destruct (findDay _ _).
  - apply setLabel_sameButLabel.
  - apply Forall2_sameButLabel_refl.
Qed.

Lemma updateDayProgress_focused d pg : focused (updateDayProgress d pg) = focused pg.
Proof. unfold updateDayProgress. destruct (findDay _ _); reflexivity. Qed.

Lemma createPanel_tabs idStr pg :
  Forall2 sameButLabel (tabs pg) (tabs (createPanel idStr pg)).
Proof.
  unfold createPanel.
  destruct (String.eqb idStr "diary").
  { destruct (diarySection pg); apply Forall2_sameButLabel_refl. }
  destruct (String.eqb idStr "memories"); [apply Forall2_sameButLabel_refl|].
  destruct (findDay _ _); [|apply Forall2_sameButLabel_refl].
  cbn. apply updateDayProgress_tabs.
Qed.

Lemma createPanel_focused idStr pg : focused (createPanel idStr pg) = focused pg.
Proof.
  unfold createPanel.
  destruct (String.eqb idStr "diary").
  { destruct (diarySection pg); reflexivity. }
  destruct (String.eqb idStr "memories"); [reflexivity|].
  destruct (findDay _ _); [|reflexivity]. cbn. apply updateDayProgress_focused.
Qed.

Lemma tabs_openTab idStr pg :
  Forall2 sameButLabel (List.map (selectTab idStr) (tabs pg)) (tabs (openTab idStr pg)).
Proof.
  unfold openTab. cbn [tabs].
  destruct (tabPanels _ !! idStr).
  - apply Forall2_sameButLabel_refl.
  - apply (createPanel_tabs idStr (with_tabs _ pg)).
Qed.

Lemma focused_openTab idStr pg : focused (openTab idStr pg) = focused pg.
Proof.
  unfold openTab. cbn [focused].
  destruct (tabPanels _ !! idStr); [reflexivity|].
  now rewrite createPanel_focused.
Qed.

Lemma Forall2_nth_error {A B} (R : A -> B -> Prop) l l' i x :
  Forall2 R l l' -> nth_error l i = Some x ->
  exists y, nth_error l' i = Some y /\ R x y.
Proof.
  intros H. revert i. induction H as [|a b l l' Hab _ IH]; intros [|i]; simpl;
    try discriminate.
  - intros [= ->]. eauto.
  - apply IH.
Qed.

Lemma openTab_selects i t pg :
  nth_error (tabs pg) i = Some t ->
  selectedAt i (openTab (getIdFromTab t) pg).
Proof.
  intros Hi. unfold selectedAt.
  assert (Hm : nth_error (List.map (selectTab (getIdFromTab t)) (tabs pg)) i
               = Some (selectTab (getIdFromTab t) t)).
  { rewrite nth_error_map, Hi. reflexivity. }
  destruct (Forall2_nth_error _ _ _ _ _ (tabs_openTab (getIdFromTab t) pg) Hm)
    as (t' & Ht' & _ & Hs & Hx & Ha).
  exists t'. unfold selectTab in Hs, Hx, Ha. cbn in Hs, Hx, Ha.
  rewrite String.eqb_refl in Hs, Hx, Ha. auto.
Qed.

(** Every tab left selected carries the opened id. *)
Lemma openTab_selected_only idStr pg t' :
  In t' (tabs (openTab idStr pg)) -> aria_selected t' = true ->
  getIdFromTab t' = idStr.
Proof.
  intros Hin Hsel. apply In_nth_error in Hin as [i Hi].
  assert (F : Forall2 (fun a b => sameButLabel b a) (tabs (openTab idStr pg))
                (List.map (selectTab idStr) (tabs pg))).
  { apply Forall2_flip. apply tabs_openTab. }
  destruct (Forall2_nth_error _ _ _ _ _ F Hi) as (s0 & Hs0 & Hid & Hs & _).
  rewrite nth_error_map in Hs0. destruct (nth_error (tabs pg) i) as [t|]; [|discriminate].
  injection Hs0 as <-. cbn in Hid, Hs. rewrite Hsel in Hs.
  unfold getIdFromTab in *. rewrite <- Hid. symmetry in Hs. now apply String.eqb_eq.
Qed.

(** *** Keyboard navigation *)

Lemma moveTo_inside (i : nat) (pg : page) :
  (i < length (tabs pg))%nat -> movedTo i pg (moveTo (Z.of_nat i) pg).
Proof.
  intros Hi. unfold moveTo, movedTo.
  assert ((Z.of_nat i <? 0) = false) as -> by (apply Z.ltb_ge; lia).
  assert ((Z.of_nat i >=? Z.of_nat (length (tabs pg))) = false) as ->
    by (rewrite Z.geb_leb; apply Z.leb_gt; lia).
  rewrite Nat2Z.id.
  destruct (nth_error (tabs pg) i) as [t|] eqn:Et.
  - exists t. split; [reflexivity|]. split; [reflexivity|]. split.
    + now rewrite focused_openTab.
    + apply openTab_selects. exact Et.
  - apply nth_error_None in Et. lia.
Qed.

Lemma rem_next (c n : nat) :
  (c <= n)%nat ->
  Z.rem (Z.of_nat c + 1) (Z.of_nat (S n)) = Z.of_nat (if (c =? n)%nat then 0 else S c).
Proof.
  intros Hc. destruct (Nat.eqb_spec c n) as [->|Hne].
  - replace (Z.of_nat n + 1) with (Z.of_nat (S n)) by lia.
    apply Z.rem_same. lia.
  - rewrite Z.rem_small by lia. lia.
Qed.

Lemma rem_prev (c n : nat) :
  (c <= n)%nat ->
  Z.rem (Z.of_nat c - 1 + Z.of_nat (S n)) (Z.of_nat (S n))
  = Z.of_nat (if (c =? 0)%nat then n else Nat.pred c).
Proof.
  intros Hc. destruct (Nat.eqb_spec c 0) as [->|Hne].
  - rewrite Z.rem_small by lia. lia.
  - rewrite Z.rem_mod_nonneg by lia.
    replace (Z.of_nat c - 1 + Z.of_nat (S n))
      with (Z.of_nat (Nat.pred c) + 1 * Z.of_nat (S n)) by lia.
    rewrite Z_mod_plus_full. apply Z.mod_small. lia.
Qed.

(** C3. In a strip of [lastIdx + 1] tabs with tab [c] current: Right
    moves to the next tab and from the last tab to the first, Left moves
    to the previous tab and from the first tab to the last, Home and End
    move to the first and last tab; each of these focuses the tab it
    lands on and opens its view. Enter and Space open the view of the
    focused tab. *)
Theorem tab_key_navigation (pg : page) (e : keyEvent) (lastIdx c : nat) :
  length (tabs pg) = S lastIdx ->
  (In (key e) ["ArrowRight"; "Right"] -> currentIndex (tabs pg) = Z.of_nat c ->
     movedTo (if (c =? lastIdx)%nat then 0 else S c) pg (handleTabKeyNav e pg)) /\
  (In (key e) ["ArrowLeft"; "Left"] -> currentIndex (tabs pg) = Z.of_nat c ->
     movedTo (if (c =? 0)%nat then lastIdx else Nat.pred c) pg (handleTabKeyNav e pg)) /\
  (key e = "Home" -> movedTo 0 pg (handleTabKeyNav e pg)) /\
  (key e = "End" -> movedTo lastIdx pg (handleTabKeyNav e pg)) /\
  (In (key e) ["Enter"; " "; "Spacebar"] ->
     forall i, target e = Some i -> (i <= lastIdx)%nat ->
               openedInPlace i pg (handleTabKeyNav e pg)).
Proof.
  intros Hlen.
  assert (Hn : (Z.of_nat (length (tabs pg)) =? 0) = false)
    by (apply Z.eqb_neq; lia).
  assert (Hcur : (c <= lastIdx)%nat \/ currentIndex (tabs pg) <> Z.of_nat c).
  { unfold currentIndex. destruct (JS.findIndex aria_selected (tabs pg)) as [j|] eqn:Ej.
    - destruct (Nat.le_gt_cases c lastIdx) as [H|H]; [now left|]. right.
      assert (j < length (tabs pg))%nat; [|lia].
      clear -Ej. revert j Ej. induction (tabs pg) as [|t ts IH]; simpl; [discriminate|].
      intros j. destruct (aria_selected t).
      + intros [= <-]. lia.
      + destruct (JS.findIndex aria_selected ts); simpl; [|discriminate].
        intros [= <-]. specialize (IH _ eq_refl). lia.
    - right. lia. }
  repeat apply conj.
  - intros Hk Hc. destruct Hcur as [Hle|]; [|contradiction].
    unfold handleTabKeyNav. rewrite Hn, Hc, Hlen, rem_next by exact Hle.
    assert (keyIs e ["ArrowRight"; "Right"] = true) as ->.
    { unfold keyIs. destruct Hk as [<-|[<-|[]]]; reflexivity. }
    apply moveTo_inside. rewrite Hlen. destruct (c =? lastIdx)%nat eqn:E; [lia|].
    apply Nat.eqb_neq in E. lia.
  - intros Hk Hc. destruct Hcur as [Hle|]; [|contradiction].
    unfold handleTabKeyNav. rewrite Hn, Hc, Hlen, rem_prev by exact Hle.
    assert (keyIs e ["ArrowRight"; "Right"] = false) as ->.
    { unfold keyIs. destruct Hk as [<-|[<-|[]]]; reflexivity. }
    assert (keyIs e ["ArrowLeft"; "Left"] = true) as ->.
    { unfold keyIs. destruct Hk as [<-|[<-|[]]]; reflexivity. }
    apply moveTo_inside. rewrite Hlen. destruct (c =? 0)%nat; lia.
  - intros Hk. unfold handleTabKeyNav, keyIs. rewrite Hn, Hk. cbn [existsb String.eqb Ascii.eqb Bool.eqb orb].
    apply (moveTo_inside 0). lia.
  - intros Hk. unfold handleTabKeyNav, keyIs. rewrite Hn, Hk, Hlen. cbn [existsb String.eqb Ascii.eqb Bool.eqb orb].
    replace (Z.of_nat (S lastIdx) - 1) with (Z.of_nat lastIdx) by lia.
    apply moveTo_inside. lia.
  - intros Hk i Ht Hi. unfold handleTabKeyNav. rewrite Hn, Ht.
    assert (keyIs e ["ArrowRight"; "Right"] = false) as ->.
    { unfold keyIs. destruct Hk as [<-|[<-|[<-|[]]]]; reflexivity. }
    assert (keyIs e ["ArrowLeft"; "Left"] = false) as ->.
    { unfold keyIs. destruct Hk as [<-|[<-|[<-|[]]]]; reflexivity. }
    assert (keyIs e ["Home"] = false) as ->.
    { unfold keyIs. destruct Hk as [<-|[<-|[<-|[]]]]; reflexivity. }
    assert (keyIs e ["End"] = false) as ->.
    { unfold keyIs. destruct Hk as [<-|[<-|[<-|[]]]]; reflexivity. }
    assert (keyIs e ["Enter"; " "; "Spacebar"] = true) as ->.
    { unfold keyIs. destruct Hk as [<-|[<-|[<-|[]]]]; reflexivity. }
    unfold openedInPlace.
    destruct (nth_error (tabs pg) i) as [t|] eqn:Et.
    + exists t. split; [reflexivity|]. split; [reflexivity|]. split.
      * apply focused_openTab.
      * now apply openTab_selects.
    + apply nth_error_None in Et. lia.
Qed.

(** On the memories tab, the last of six, Right wraps to the first
    tab. *)
Lemma tab_key_navigation_witness :
  movedTo 0 (openTab "memories" (startPage None []))
          (handleTabKeyNav (mkKey "ArrowRight" None)
                           (openTab "memories" (startPage None []))).
Proof.
  apply (proj1 (tab_key_navigation (openTab "memories" (startPage None []))
                  (mkKey "ArrowRight" None) 5 5 eq_refl)).
  - left. reflexivity.
  - reflexivity.
Defined.

Example wrap_right_then_left :
  let pg := openTab "memories" (startPage None []) in
  let pg1 := handleTabKeyNav (mkKey "ArrowRight" None) pg in
  let pg2 := handleTabKeyNav (mkKey "Left" None) pg1 in
  List.map aria_selected (tabs pg1) = [true; false; false; false; false; false] /\
  focused pg1 = Some 0%nat /\ lastDay pg1 = Some "1" /\
  List.map aria_selected (tabs pg2) = [false; false; false; false; false; true] /\
  focused pg2 = Some 5%nat /\ lastDay pg2 = Some "1".
Proof. repeat split. Qed.

(** *** Progress label *)

Lemma find_setLabel tabId text ts t :
  List.find (fun x => String.eqb (tab_id x) tabId) ts = Some t ->
  List.find (fun x => String.eqb (tab_id x) tabId) (setLabel tabId text ts)
  = Some (mkTab (tab_id t) text (aria_selected t) (tabindex t) (tab_active t)).
Proof.
  induction ts as [|x ts IH]; simpl; [discriminate|].
  destruct (String.eqb (tab_id x) tabId) eqn:E; simpl; rewrite E.
  - now intros [= ->].
  - exact IH.
Qed.

Lemma countCompleted_le ls dayId total : (countCompleted ls dayId total <= total)%nat.
Proof.
  unfold countCompleted.
  etransitivity; [apply filter_length_le|]. now rewrite length_seq.
Qed.

(** C4. For a day of the itinerary whose tab is in the strip, with
    [total] schedule items of which [completed] are stored as completed:
    after [updateDayProgress] the tab reads [Dia N (completed/total)] when
    some but not all of [total > 0] items are completed, [Dia N] with the
    check mark when all of them are, and plain [Dia N] when the day has no
    item. *)
Theorem progress_label (pg : page) (dayId : JS.number) (day : dayRecord) (t : tab) :
  findDay (itineraryData pg) (JS.toString dayId) = Some day ->
  List.find (fun x => String.eqb (tab_id x) ("tab-" +:+ JS.toString dayId)) (tabs pg)
    = Some t ->
  let total := length (schedule day) in
  let completed := countCompleted (items pg) dayId total in
  let base := "Dia " +:+ JS.toString dayId in
  exists t',
    List.find (fun x => String.eqb (tab_id x) ("tab-" +:+ JS.toString dayId))
              (tabs (updateDayProgress dayId pg)) = Some t' /\
    completed = length (List.filter (isCompleted (items pg) dayId) (seq 0 total)) /\
    (completed <= total)%nat /\
    ((0 < total)%nat -> (completed < total)%nat ->
       label t' = base +:+ " (" +:+ pretty completed +:+ "/" +:+ pretty total +:+ ")") /\
    ((0 < total)%nat -> completed = total -> label t' = base +:+ " ✓") /\
    (total = 0%nat -> label t' = base).
Proof.
  intros Hday Htab total completed base.
  unfold updateDayProgress. rewrite Hday. cbn [tabs with_tabs].
  fold total. fold completed. fold base.
  eexists. split; [apply find_setLabel, Htab|].
  split; [reflexivity|]. split; [apply countCompleted_le|].
  cbn [label]. repeat apply conj.
  - intros Hpos Hlt.
    assert ((0 <? total)%nat = true) as -> by now apply Nat.ltb_lt.
    assert ((completed =? total)%nat = false) as -> by (apply Nat.eqb_neq; lia).
    reflexivity.
  - intros Hpos Heq.
    assert ((0 <? total)%nat = true) as -> by now apply Nat.ltb_lt.
    assert ((completed =? total)%nat = true) as -> by now apply Nat.eqb_eq.
    reflexivity.
  - intros Hz.
    assert ((0 <? total)%nat = false) as -> by (apply Nat.ltb_ge; lia).
    reflexivity.
Qed.

(** Day 2 of the sample page has two items, one of them ticked. *)
Lemma progress_label_witness :
  exists t',
    List.find (fun x => String.eqb (tab_id x) "tab-2")
              (tabs (updateDayProgress (JS.Int 2) (startPage None []))) = Some t' /\
    label t' = "Dia 2 (1/2)".
Proof.
  destruct (progress_label (startPage None []) (JS.Int 2)
              (mkDay (JS.Int 2) "Sintra" "" None [row "10:00" "Palacio"; row "" "Almoco"])
              (mkTab "tab-2" "Dia 2 (1/2)" false (-1) false) eq_refl eq_refl)
    as (t' & Hfind & _ & _ & Hsome & _ & _).
  exists t'. split; [exact Hfind|].
  apply Hsome; vm_compute; lia.
Defined.

Example progress_label_examples :
  List.map label (tabs (blankPage fiveItems (ticked []) None []))
    = ["Dia 1 (0/5)"; "Diário"; "Memórias"] /\
  List.map label (tabs (blankPage fiveItems (ticked [0; 2; 4]%nat) None []))
    = ["Dia 1 (3/5)"; "Diário"; "Memórias"] /\
  List.map label (tabs (blankPage fiveItems (ticked [0; 1; 2; 3; 4]%nat) None []))
    = ["Dia 1 ✓"; "Diário"; "Memórias"].
Proof. repeat split. Qed.

(** *** Previous and next buttons of a day panel *)

Lemma pretty_N_go_ne_letter (x : N) (s : string) (c : ascii) (w : string) :
  (forall d, pretty_N_char d <> c) ->
  s <> String c w -> pretty_N_go x s <> String c w.
Proof.
  intros Hc. revert s. induction (N.lt_wf_0 x) as [x _ IH]. intros s Hs.
  destruct (N.eq_dec x 0%N) as [->|Hx].
  - now rewrite pretty_N_go_0.
  - rewrite pretty_N_go_step by lia. apply IH.
    + apply N.div_lt; lia.
    + intros [= E _]. exact (Hc _ E).
Qed.

Lemma toString_ne_letter (n : JS.number) (c : ascii) (w : string) :
  (forall d, pretty_N_char d <> c) -> c <> "-"%char -> c <> "N"%char ->
  JS.toString n <> String c w.
Proof.
  intros Hc Hdash HN. destruct n as [[|p|p]|]; cbn.
  - intros [= E _]. exact (Hc 0%N E).
  - unfold pretty, pretty_positive, pretty, pretty_N.
    destruct (decide (N.pos p = 0%N)); [discriminate|].
    apply pretty_N_go_ne_letter; [exact Hc | discriminate].
  - intros [= E _]. now apply Hdash.
  - intros [= E _]. now apply HN.
Qed.

(** A day number never prints as the id of the diary or of the memories
    view. *)
Lemma toString_not_view (n : JS.number) :
  String.eqb (JS.toString n) "diary" = false /\
  String.eqb (JS.toString n) "memories" = false.
Proof.
  split; apply String.eqb_neq; apply toString_ne_letter; try discriminate;
    intros d; unfold pretty_N_char; repeat case_match; discriminate.
Qed.

Lemma number_eqb_Int (n : JS.number) (k : Z) :
  JS.number_eqb n (JS.Int k) = true <-> n = JS.Int k.
Proof.
  destruct n as [z|]; cbn.
  - rewrite Z.eqb_eq. split; congruence.
  - split; discriminate.
Qed.

Lemma tabPanels_updateDayProgress d pg :
  tabPanels (updateDayProgress d pg) = tabPanels pg.
Proof. unfold updateDayProgress. destruct (findDay _ _); reflexivity. Qed.

(** The panel [createPanel] builds for a day of the itinerary. *)
Lemma createPanel_day (pg : page) (day : dayRecord) :
  findDay (itineraryData pg) (JS.toString (id day)) = Some day ->
  tabPanels (createPanel (JS.toString (id day)) pg) !! JS.toString (id day)
  = Some (mkPanel
            (DayPanel day (initRows (items pg) (id day) (schedule day))
               (if JS.gt (id day) (JS.Int 1)
                then Some (JS.toString (JS.sub (id day) (JS.Int 1))) else None)
               (if JS.lt (id day) (JS.Int (Z.of_nat (length (itineraryData pg))))
                then Some (JS.toString (JS.add (id day) (JS.Int 1))) else None))
            false false).
Proof.
  intros Hday. unfold createPanel.
  destruct (toString_not_view (id day)) as [-> ->]. rewrite Hday.
  cbn [tabPanels with_panels]. apply lookup_insert_eq.
Qed.

(** C5, as the code has it. The panel of a day numbered [d], in an
    itinerary of [N] days, has a previous-day button exactly when
    [d > 1] and a next-day button exactly when [d < N]; the buttons open
    [d - 1] and [d + 1]. When the day numbers are exactly 1 to [N] this
    is: a button is present exactly when the adjacent day exists. *)
Theorem day_nav_buttons (pg : page) (day : dayRecord) :
  findDay (itineraryData pg) (JS.toString (id day)) = Some day ->
  exists rows prevBtn nextBtn,
    tabPanels (createPanel (JS.toString (id day)) pg) !! JS.toString (id day)
      = Some (mkPanel (DayPanel day rows prevBtn nextBtn) false false) /\
    (prevBtn = if JS.gt (id day) (JS.Int 1)
               then Some (JS.toString (JS.sub (id day) (JS.Int 1))) else None) /\
    (nextBtn = if JS.lt (id day) (JS.Int (Z.of_nat (length (itineraryData pg))))
               then Some (JS.toString (JS.add (id day) (JS.Int 1))) else None) /\
    (contiguous (itineraryData pg) ->
       (is_Some prevBtn <-> hasDay (itineraryData pg) (JS.sub (id day) (JS.Int 1))) /\
       (is_Some nextBtn <-> hasDay (itineraryData pg) (JS.add (id day) (JS.Int 1)))).
Proof.
  intros Hday. do 3 eexists.
  split; [apply createPanel_day, Hday|].
  split; [reflexivity|]. split; [reflexivity|].
  intros Hcont. unfold contiguous in Hcont.
  assert (Hin : In day (itineraryData pg)).
  { unfold findDay in Hday. now apply find_some in Hday as [H _]. }
  destruct (id day) as [z|] eqn:Ez.
  - assert (Hz : 1 <= z <= Z.of_nat (length (itineraryData pg))).
    { apply Hcont. exists day. split; [exact Hin|]. rewrite Ez. apply Z.eqb_refl. }
    cbn [JS.gt JS.lt JS.sub JS.add]. rewrite !Hcont. split.
    + destruct (Z.gtb_spec z 1) as [Hc|Hc]; split; intros H.
      * lia.
      * now eexists.
      * now destruct H.
      * lia.
    + destruct (Z.ltb_spec z (Z.of_nat (length (itineraryData pg)))) as [Hc|Hc];
        split; intros H.
      * lia.
      * now eexists.
      * now destruct H.
      * lia.
  - cbn. split; split.
    + now intros [? ?].
    + intros (d & _ & H). destruct (id d); discriminate.
    + now intros [? ?].
    + intros (d & _ & H). destruct (id d); discriminate.
Qed.

Lemma fourDays_contiguous : contiguous fourDays.
Proof.
  intros k. split.
  - intros (d & Hin & He). apply number_eqb_Int in He.
    cbn in Hin. destruct Hin as [<-|[<-|[<-|[<-|[]]]]]; cbn in He;
      injection He as <-; cbn; lia.
  - intros Hk. cbn in Hk.
    assert (E : k = 1 \/ k = 2 \/ k = 3 \/ k = 4) by lia.
    destruct E as [-> | [-> | [-> | ->]]]; eexists.
    + split; [left; reflexivity | reflexivity].
    + split; [right; left; reflexivity | reflexivity].
    + split; [do 2 right; left; reflexivity | reflexivity].
    + split; [do 3 right; left; reflexivity | reflexivity].
Qed.

(** Day 4 of the four sample days has a previous-day button and no
    next-day button. *)
Lemma day_nav_buttons_witness :
  exists rows prevBtn nextBtn,
    tabPanels (createPanel "4" (startPage None [])) !! "4"
      = Some (mkPanel (DayPanel (mkDay (JS.Int 4) "Volta" "" None [row "" "Mala"])
                                rows prevBtn nextBtn) false false) /\
    prevBtn = Some "3" /\ nextBtn = None /\
    hasDay fourDays (JS.Int 3) /\ ~ hasDay fourDays (JS.Int 5).
Proof.
  destruct (day_nav_buttons (startPage None [])
              (mkDay (JS.Int 4) "Volta" "" None [row "" "Mala"]) eq_refl)
    as (rows & prevBtn & nextBtn & Hp & Hprev & Hnext & Hadj).
  destruct (Hadj fourDays_contiguous) as [Hl Hr].
  exists rows, prevBtn, nextBtn.
  split; [exact Hp|]. split; [exact Hprev|]. split; [exact Hnext|].
  split.
  - apply Hl. rewrite Hprev. now eexists.
  - intros H. apply Hr in H. rewrite Hnext in H. now destruct H.
Defined.

(** C5 as stated fails when day numbers leave a gap: in an itinerary of
    days 1 and 3, the panel of day 3 has a previous-day button, which
    opens "2", though no day 2 exists, and the panel of day 1 has a
    next-day button to the same missing day. *)
Lemma gap_buttons_without_adjacent_day :
  tabPanels (createPanel "3" (blankPage gapDays [] None [])) !! "3"
    = Some (mkPanel (DayPanel (mkDay (JS.Int 3) "Porto" "" None []) [] (Some "2") None)
                    false false) /\
  tabPanels (createPanel "1" (blankPage gapDays [] None [])) !! "1"
    = Some (mkPanel (DayPanel (mkDay (JS.Int 1) "Chegada" "" None []) [] None (Some "2"))
                    false false) /\
  findDay gapDays "2" = None /\
  ~ hasDay gapDays (JS.Int 2).
Proof.
  split; [reflexivity|]. split; [reflexivity|]. split; [reflexivity|].
  intros (d & Hin & He). apply number_eqb_Int in He.
  cbn in Hin. destruct Hin as [<-|[<-|[]]]; discriminate.
Qed.

End ControllerFacts.

(** ** Printing and reading numbers *)

(** ** White space and trimming *)

Module TrimFacts.

Lemma string_length_ind (P : string -> Prop) :
  (forall s, (forall r, (String.length r < String.length s)%nat -> P r) -> P s) ->
  forall s, P s.
Proof.
  intros H s. remember (String.length s) as n eqn:E. revert s E.
  induction (lt_wf n) as [n _ IH]. intros s ->. apply H.
  intros r Hr. exact (IH _ Hr r eq_refl).
Qed.

Lemma app_cons a (x y : string) : String a x +:+ y = String a (x +:+ y).
Proof. reflexivity. Qed.

Lemma app_empty (y : string) : "" +:+ y = y.
Proof. reflexivity. Qed.

(** [trimStart] drops one white-space character at a time. *)
Lemma trimStart_eq s :
  JS.trimStart s = match JS.afterWs s with Some r => JS.trimStart r | None => s end.
Proof.
  destruct s as [|a [|b [|c r]]]; unfold JS.afterWs; cbn [JS.trimStart];
    try reflexivity.
  - now destruct (JS.is_ws a).
  - destruct (JS.is_ws a); [reflexivity|]. now destruct (JS.is_ws2 a b).
  - destruct (JS.is_ws a); [reflexivity|]. destruct (JS.is_ws2 a b); [reflexivity|].
    now destruct (JS.is_ws3 a b c).
Qed.

Lemma afterWs_split s r : JS.afterWs s = Some r -> exists w, w <> "" /\ s = w +:+ r.
Proof.
  destruct s as [|a [|b [|c t]]]; unfold JS.afterWs.
  - discriminate.
  - destruct (JS.is_ws a); [|discriminate]. intros [= <-].
    exists (String a ""). split; [discriminate | reflexivity].
  - destruct (JS.is_ws a); [intros [= <-]; exists (String a "");
                            split; [discriminate | reflexivity]|].
    destruct (JS.is_ws2 a b); [|discriminate]. intros [= <-].
    exists (String a (String b "")). split; [discriminate | reflexivity].
  - destruct (JS.is_ws a); [intros [= <-]; exists (String a "");
                            split; [discriminate | reflexivity]|].
    destruct (JS.is_ws2 a b); [intros [= <-]; exists (String a (String b ""));
                               split; [discriminate | reflexivity]|].
    destruct (JS.is_ws3 a b c); [|discriminate]. intros [= <-].
    exists (String a (String b (String c ""))). split; [discriminate | reflexivity].
Qed.

Lemma append_assoc (x y z : string) : (x +:+ y) +:+ z = x +:+ (y +:+ z).
Proof. induction x as [|a x IH]; [reflexivity|]. rewrite !app_cons. now rewrite IH. Qed.

Lemma length_app (x y : string) :
  String.length (x +:+ y) = (String.length x + String.length y)%nat.
Proof. induction x as [|a x IH]; [reflexivity|]. rewrite app_cons. cbn. now rewrite IH. Qed.

Lemma afterWs_shorter s r :
  JS.afterWs s = Some r -> (String.length r < String.length s)%nat.
Proof.
  intros H. destruct (afterWs_split s r H) as (w & Hw & ->). rewrite length_app.
  destruct w; [contradiction | cbn; lia].
Qed.

(** What starts a string starts every extension of it. *)
Lemma afterWs_app s r q : JS.afterWs s = Some r -> JS.afterWs (s +:+ q) = Some (r +:+ q).
Proof.
  destruct s as [|a [|b [|c t]]]; rewrite ?app_cons; unfold JS.afterWs.
  - discriminate.
  - destruct (JS.is_ws a) eqn:Ea; [|discriminate]. now intros [= <-].
  - destruct (JS.is_ws a) eqn:Ea; [now intros [= <-]|].
    destruct (JS.is_ws2 a b) eqn:Eb; [|discriminate]. now intros [= <-].
  - destruct (JS.is_ws a) eqn:Ea; [now intros [= <-]|].
    destruct (JS.is_ws2 a b) eqn:Eb; [now intros [= <-]|].
    destruct (JS.is_ws3 a b c) eqn:Ec; [|discriminate]. now intros [= <-].
Qed.

(** Nothing that [trimStart] returns starts with white space. *)
Lemma trimStart_clean s : JS.afterWs (JS.trimStart s) = None.
Proof.
  induction s as [s IH] using string_length_ind. rewrite trimStart_eq.
  destruct (JS.afterWs s) as [r|] eqn:E; [|exact E].
  apply IH. now apply afterWs_shorter.
Qed.

Lemma trimStart_fixed s : JS.afterWs s = None -> JS.trimStart s = s.
Proof. intros H. now rewrite trimStart_eq, H. Qed.

(** [trimStart] returns the end of its argument. *)
Lemma trimStart_suffix s : exists w, s = w +:+ JS.trimStart s.
Proof.
  induction s as [s IH] using string_length_ind. rewrite trimStart_eq.
  destruct (JS.afterWs s) as [r|] eqn:E; [|now exists ""].
  destruct (afterWs_split s r E) as (w & _ & ->).
  destruct (IH r (afterWs_shorter _ _ E)) as [w' Hw'].
  exists (w +:+ w'). rewrite append_assoc. now rewrite <- Hw'.
Qed.

(** White space in front of a string is trimmed away with it. *)
Lemma blank_app x q : JS.trimStart x = "" -> JS.trimStart (x +:+ q) = JS.trimStart q.
Proof.
  induction x as [x IH] using string_length_ind. intros Hx.
  destruct x as [|a x']; [reflexivity|].
  rewrite trimStart_eq in Hx.
  destruct (JS.afterWs (String a x')) as [r|] eqn:E; [|discriminate].
  rewrite trimStart_eq, (afterWs_app _ _ q E).
  apply IH; [now apply afterWs_shorter | exact Hx].
Qed.

(** [trimEnd] returns the beginning of its argument, and what it cuts
    off is white space. *)
Lemma trimEnd_split s : exists q, s = JS.trimEnd s +:+ q /\ JS.trimStart q = "".
Proof.
  induction s as [|a r (q & Hq & Hb)]; [now exists ""|].
  cbn [JS.trimEnd]. destruct (JS.truthy (JS.trimStart (String a r))) eqn:T.
  - exists q. split; [|exact Hb]. rewrite app_cons. now rewrite <- Hq.
  - exists (String a r). split; [reflexivity|].
    destruct (JS.trimStart (String a r)); [reflexivity | discriminate].
Qed.

Lemma trimEnd_idem s : JS.trimEnd (JS.trimEnd s) = JS.trimEnd s.
Proof.
  induction s as [|a r IH]; [reflexivity|].
  cbn [JS.trimEnd]. destruct (JS.truthy (JS.trimStart (String a r))) eqn:T; [|reflexivity].
  cbn [JS.trimEnd].
  destruct (JS.truthy (JS.trimStart (String a (JS.trimEnd r)))) eqn:T'.
  - now rewrite IH.
  - exfalso. destruct (trimEnd_split r) as (q & Hq & Hb).
    assert (B : JS.trimStart (String a (JS.trimEnd r)) = "").
    { destruct (JS.trimStart (String a (JS.trimEnd r))); [reflexivity | discriminate]. }
    pose proof (blank_app _ q B) as H. rewrite app_cons, <- Hq, Hb in H.
    now rewrite H in T.
Qed.

(** Cutting the end off leaves the beginning free of white space. *)
Lemma trimStart_trimEnd s : JS.afterWs s = None -> JS.trimStart (JS.trimEnd s) = JS.trimEnd s.
Proof.
  intros H. apply trimStart_fixed.
  destruct (JS.afterWs (JS.trimEnd s)) as [r|] eqn:E; [|reflexivity].
  destruct (trimEnd_split s) as (q & Hq & _).
  pose proof (afterWs_app _ _ q E) as A. rewrite <- Hq, H in A. discriminate.
Qed.

Lemma trim_idem s : JS.trim (JS.trim s) = JS.trim s.
Proof.
  unfold JS.trim. rewrite (trimStart_trimEnd _ (trimStart_clean s)). apply trimEnd_idem.
Qed.

(** A byte below 128 that is no white space starts no white-space
    character. *)
Lemma afterWs_plain c r :
  (nat_of_ascii c < 128)%nat -> JS.is_ws c = false -> JS.afterWs (String c r) = None.
Proof.
  intros Hc Hw. unfold JS.afterWs. rewrite Hw.
  assert (E : forall k, (128 <= k)%nat -> (nat_of_ascii c =? k)%nat = false)
    by (intros k Hk; apply Nat.eqb_neq; lia).
  destruct r as [|b [|d t]]; [reflexivity | |].
  - unfold JS.is_ws2. now rewrite E by lia.
  - unfold JS.is_ws2, JS.is_ws3. cbv zeta. now rewrite !E by lia.
Qed.

(** White space of more than one byte is trimmed like a space: a no-break
    space, an ideographic space, a byte order mark and a line separator
    go; a zero-width space, which is no white space, stays. *)
Example trim_beyond_ascii :
  JS.trim " ﻿ nota	　 " = "nota" /\
  JS.trim " 　" = "" /\
  JS.trim "​nota" = "​nota".
Proof. repeat split; reflexivity. Qed.

End TrimFacts.

Module NumberFacts.

Lemma pretty_N_char_digit (d : N) :
  (d < 10)%N ->
  JS.is_digit (pretty_N_char d) = true /\ JS.digit_val (pretty_N_char d) = Z.of_N d.
Proof.
  intros Hd.
  assert (E : (d = 0 \/ d = 1 \/ d = 2 \/ d = 3 \/ d = 4 \/ d = 5 \/ d = 6 \/ d = 7
               \/ d = 8 \/ d = 9)%N) by lia.
  destruct E as [-> | [-> | [-> | [-> | [-> | [-> | [-> | [-> | [-> | ->]]]]]]]]];
    split; reflexivity.
Qed.

(** Reading back the digits [pretty_N_go] puts in front of [s]: the
    accumulator is shifted by their number of places and gains [x]. *)
Lemma digits_pretty_N_go (x : N) :
  forall s, exists k,
    forall acc seen,
      JS.digits (pretty_N_go x s) acc seen
      = JS.digits s (acc * k + Z.of_N x) (seen || (0 <? x)%N).
Proof.
  induction (N.lt_wf_0 x) as [x _ IH]. intros s.
  destruct (N.eq_dec x 0%N) as [->|Hx].
  - exists 1. intros acc seen. rewrite pretty_N_go_0, orb_false_r. f_equal. lia.
  - rewrite pretty_N_go_step by lia.
    destruct (IH (x / 10)%N ltac:(apply N.div_lt; lia)
                 (String (pretty_N_char (x mod 10)) s)) as [k Hk].
    exists (10 * k). intros acc seen. rewrite Hk. cbn [JS.digits].
    destruct (pretty_N_char_digit (x mod 10)%N) as [-> ->].
    { apply N.mod_lt. lia. }
    assert ((0 <? x)%N = true) as -> by (apply N.ltb_lt; lia).
    rewrite orb_true_r. f_equal.
    pose proof (N.div_mod x 10 ltac:(lia)) as Hdm. lia.
Qed.

Lemma all_digits_cons c s :
  JS.is_digit c = true -> (s = "" \/ JS.all_digits s = true) ->
  JS.all_digits (String c s) = true.
Proof.
  intros Hc [->|Hs]; cbn; [exact Hc|]. destruct s; [discriminate|].
  now rewrite Hc.
Qed.

Lemma all_digits_pretty_N_go (x : N) :
  forall s, (s = "" \/ JS.all_digits s = true) -> (0 < x)%N \/ s <> "" ->
            JS.all_digits (pretty_N_go x s) = true.
Proof.
  induction (N.lt_wf_0 x) as [x _ IH]. intros s Hs Hne.
  destruct (N.eq_dec x 0%N) as [->|Hx].
  - rewrite pretty_N_go_0. destruct Hs as [->|Hs]; [|exact Hs].
    destruct Hne as [H|H]; [lia | contradiction].
  - rewrite pretty_N_go_step by lia. apply IH.
    + apply N.div_lt; lia.
    + right. apply all_digits_cons; [|exact Hs].
      apply pretty_N_char_digit, N.mod_lt. lia.
    + right. discriminate.
Qed.

(** The decimal form of a natural number: digits only, and they read
    back as the number. *)
Lemma pretty_N_digits (x : N) :
  JS.all_digits (pretty x) = true /\
  JS.digits (pretty x) 0 false = (Z.of_N x, true).
Proof.
  unfold pretty, pretty_N. destruct (decide (x = 0%N)) as [->|Hx].
  - split; reflexivity.
  - split.
    + apply all_digits_pretty_N_go; [now left | left; lia].
    + destruct (digits_pretty_N_go x "") as [k Hk]. rewrite Hk. cbn.
      assert ((0 <? x)%N = true) as -> by (apply N.ltb_lt; lia). reflexivity.
Qed.

Lemma all_digits_first s :
  JS.all_digits s = true -> exists c r, s = String c r /\ JS.is_digit c = true.
Proof.
  destruct s as [|c r]; cbn; [discriminate|]. intros H. exists c, r. split; [reflexivity|].
  destruct r; [exact H|]. now apply andb_true_iff in H.
Qed.

Lemma is_digit_not_ws c : JS.is_digit c = true -> JS.is_ws c = false.
Proof.
  unfold JS.is_digit, JS.is_ws. intros H. apply andb_true_iff in H as [H1 H2].
  apply Nat.leb_le in H1, H2.
  repeat (apply orb_false_iff; split); apply Nat.eqb_neq; lia.
Qed.

Lemma afterWs_digit c r : JS.is_digit c = true -> JS.afterWs (String c r) = None.
Proof.
  intros H. apply TrimFacts.afterWs_plain; [|now apply is_digit_not_ws].
  unfold JS.is_digit in H. apply andb_true_iff in H as [_ H]. apply Nat.leb_le in H. lia.
Qed.

Lemma afterWs_minus r : JS.afterWs (String "-" r) = None.
Proof. apply TrimFacts.afterWs_plain; [apply Nat.ltb_lt | ]; reflexivity. Qed.

(** A string of digits has no white space to trim. *)
Lemma trimEnd_digits s : JS.all_digits s = true -> JS.trimEnd s = s.
Proof.
  induction s as [|c r IH]; [discriminate|]. intros H.
  destruct (all_digits_first _ H) as (c0 & r0 & [= <- <-] & Hc).
  cbn [JS.trimEnd]. rewrite (TrimFacts.trimStart_fixed _ (afterWs_digit c r Hc)).
  cbn [JS.truthy]. destruct r as [|c' r']; [reflexivity|].
  cbn [JS.all_digits] in H. apply andb_true_iff in H as [_ H].
  now rewrite (IH H).
Qed.

Lemma trim_digits s : JS.all_digits s = true -> JS.trim s = s.
Proof.
  intros H. unfold JS.trim.
  destruct (all_digits_first s H) as (c & r & -> & Hc).
  rewrite (TrimFacts.trimStart_fixed _ (afterWs_digit c r Hc)). now apply trimEnd_digits.
Qed.

Lemma pretty_Z_nonneg (z : Z) : 0 <= z -> pretty z = pretty (Z.to_N z).
Proof. destruct z; [reflexivity | reflexivity | lia]. Qed.

Lemma pretty_Z_neg (p : positive) : pretty (Z.neg p) = String "-" (pretty (N.pos p)).
Proof. reflexivity. Qed.

(** A printed integer has no white space around it. *)
Lemma trim_pretty (z : Z) : JS.trim (pretty z) = pretty z /\ JS.truthy (pretty z) = true.
Proof.
  destruct z as [|p|p].
  - split; reflexivity.
  - rewrite (pretty_Z_nonneg (Z.pos p)) by lia. cbn [Z.to_N].
    destruct (pretty_N_digits (N.pos p)) as [H _]. split; [now apply trim_digits|].
    destruct (all_digits_first _ H) as (c & r & -> & _). reflexivity.
  - rewrite pretty_Z_neg. split; [|reflexivity].
    destruct (pretty_N_digits (N.pos p)) as [H _].
    unfold JS.trim. rewrite (TrimFacts.trimStart_fixed _ (afterWs_minus _)).
    cbn [JS.trimEnd]. rewrite (TrimFacts.trimStart_fixed _ (afterWs_minus _)).
    cbn [JS.truthy]. now rewrite (trimEnd_digits _ H).
Qed.

(** [Number(String(z))] is [z]. *)
Lemma Number_pretty (z : Z) : JS.Number_ (pretty z) = JS.Int z.
Proof.
  unfold JS.Number_. rewrite (proj1 (trim_pretty z)).
  destruct z as [|p|p].
  - reflexivity.
  - rewrite (pretty_Z_nonneg (Z.pos p)) by lia. cbn [Z.to_N].
    destruct (pretty_N_digits (N.pos p)) as [Ha Hd].
    destruct (all_digits_first _ Ha) as (c & r & E & Hc).
    rewrite E in *.
    assert (c <> "-"%char /\ c <> "+"%char) as [H1 H2].
    { split; intros ->; discriminate. }
    destruct (Ascii.eqb_spec c "-"); [contradiction|].
    destruct (Ascii.eqb_spec c "+"); [contradiction|].
    destruct c as [[] [] [] [] [] [] [] []]; try discriminate;
      try contradiction; rewrite Ha, Hd; reflexivity.
  - rewrite pretty_Z_neg.
    destruct (pretty_N_digits (N.pos p)) as [Ha Hd]. now rewrite Ha, Hd.
Qed.

(** [parseInt(String(z), 10)] is [z]. *)
Lemma parseInt10_pretty (z : Z) : JS.parseInt10 (Some (pretty z)) = JS.Int z.
Proof.
  unfold JS.parseInt10.
  destruct z as [|p|p].
  - reflexivity.
  - rewrite (pretty_Z_nonneg (Z.pos p)) by lia. cbn [Z.to_N].
    destruct (pretty_N_digits (N.pos p)) as [Ha Hd].
    destruct (all_digits_first _ Ha) as (c & r & E & Hc).
    rewrite E in *. rewrite (TrimFacts.trimStart_fixed _ (afterWs_digit c r Hc)).
    destruct c as [[] [] [] [] [] [] [] []]; try discriminate; rewrite Hd; reflexivity.
  - rewrite pretty_Z_neg. rewrite (TrimFacts.trimStart_fixed _ (afterWs_minus _)).
    destruct (pretty_N_digits (N.pos p)) as [Ha Hd]. now rewrite Hd.
Qed.

(** A printed day number reads back as the number, so printing is
    injective, and it is never blank. *)
Lemma parseInt10_toString (n : JS.number) : JS.parseInt10 (Some (JS.toString n)) = n.
Proof. destruct n as [z|]; [apply parseInt10_pretty | reflexivity]. Qed.

Lemma toString_inj (a b : JS.number) : JS.toString a = JS.toString b -> a = b.
Proof.
  intros H. rewrite <- (parseInt10_toString a), <- (parseInt10_toString b).
  now rewrite H.
Qed.

Lemma toString_not_blank (n : JS.number) : JS.truthy (JS.trim (JS.toString n)) = true.
Proof.
  destruct n as [z|]; [|reflexivity]. cbn [JS.toString].
  destruct (trim_pretty z) as [-> H]. exact H.
Qed.

End NumberFacts.

(** ** Backend: session, publishing, comments, reactions *)

Module BackendFacts.

Import Server Backend.

(** X1. A login answers 200 exactly for a non-empty username with its
    stored, non-empty password; the session then names that user and
    [/auth/me] reports it; any other login leaves the session as it was;
    after a logout [/auth/me] reports no user. *)
Theorem login_me_logout (USERS : gmap string string) (sess : session) (b : loginBody) :
  (code (fst (login USERS sess b)) = 200%nat <->
   exists u p, username b = Some u /\ password b = Some p /\
               u <> "" /\ p <> "" /\ USERS !! u = Some p) /\
  (code (fst (login USERS sess b)) = 200%nat ->
   me (snd (login USERS sess b)) = CurrentUser (username b)) /\
  (code (fst (login USERS sess b)) <> 200%nat -> snd (login USERS sess b) = sess) /\
  me (snd (logout (snd (login USERS sess b)))) = CurrentUser None.
Proof.
  assert (T : forall s, JS.truthy s = true <-> s <> "").
  { intros s. destruct s; cbn; split; congruence. }
  unfold login, me.
  destruct (username b) as [u|] eqn:Eu, (password b) as [p|] eqn:Ep; cbn.
  2: rewrite orb_true_r; cbn.
  2-4: repeat split; try discriminate; try reflexivity;
       intros (u' & p' & H1 & H2 & _); congruence.
  destruct (JS.truthy u) eqn:Tu; cbn.
  2:{ repeat split; try discriminate; try reflexivity.
      intros (u' & p' & [= <-] & _ & Hu & _). apply T in Hu. congruence. }
  destruct (JS.truthy p) eqn:Tp; cbn.
  2:{ repeat split; try discriminate; try reflexivity.
      intros (u' & p' & _ & [= <-] & _ & Hp & _). apply T in Hp. congruence. }
  apply T in Tu. pose proof (proj1 (T p) Tp) as Hp.
  destruct (USERS !! u) as [stored|] eqn:Es.
  - destruct (String.eqb_spec stored p) as [->|Hne].
    + rewrite Tp. cbn. repeat split; try reflexivity; try congruence.
      intros _. exists u, p. auto.
    + rewrite andb_false_r. cbn. repeat split; try discriminate; try reflexivity.
      intros (u' & p' & [= <-] & [= <-] & _ & _ & H). congruence.
  - cbn. repeat split; try discriminate; try reflexivity.
    intros (u' & p' & [= <-] & [= <-] & _ & _ & H). congruence.
Qed.

Lemma find_app_fresh {A} (p : A -> bool) (l : list A) (x : A) :
  List.find p l = None -> p x = true -> List.find p (l ++ [x]) = Some x.
Proof.
  induction l as [|y l IH]; cbn; [now intros _ ->|].
  destruct (p y); [discriminate | assumption].
Qed.

Lemma find_app_old {A} (p : A -> bool) (l : list A) (x y : A) :
  List.find p l = Some y -> List.find p (l ++ [x]) = Some y.
Proof.
  induction l as [|z l IH]; cbn; [discriminate|].
  destruct (p z); [trivial | assumption].
Qed.

(** X2. A memory published with a title under an id no stored memory has
    is answered as created, is owned by the caller, goes to the end of
    the stored memories, leaves memories and comments as they were, and
    can then be fetched by any logged-in user under its id, together with
    the comments stored for that id. *)
Theorem published_memory_is_fetched (caller reader : string) (r : createRequest)
    (s : state) (t : string) :
  c_title r = Some t -> t <> "" ->
  findMemory (c_uuid r) (db s) = None ->
  let m := newMemory caller r in
  let s' := snd (createMemory (Some caller) r s) in
  fst (createMemory (Some caller) r s) = OneMemory m /\
  id m = c_uuid r /\ user m = caller /\ title m = t /\ reactions m = [] /\
  memories (db s') = (memories (db s) ++ [m])%list /\
  comments (db s') = comments (db s) /\
  getMemory (Some reader) (c_uuid r) (db s')
    = MemoryAndComments m (commentsOf (c_uuid r) (db s)) /\
  (forall rid x, findMemory rid (db s) = Some x -> findMemory rid (db s') = Some x).
Proof.
  intros Ht Hne Hfresh m s'.
  assert (E : createMemory (Some caller) r s
              = (OneMemory m,
                 mkState (mkDB (memories (db s) ++ [m]) (comments (db s)))
                         (files s ++ List.map uploadPath (c_stored r)))).
  { unfold createMemory. rewrite Ht. cbn [JS.truthy_opt].
    assert (JS.truthy t = true) as -> by (destruct t; [contradiction | reflexivity]).
    reflexivity. }
  unfold s'. rewrite E. cbn [fst snd db memories comments].
  split; [reflexivity|]. split; [reflexivity|]. split; [reflexivity|].
  split; [unfold m, newMemory; cbn [title]; now rewrite Ht|].
  split; [reflexivity|]. split; [reflexivity|]. split; [reflexivity|].
  split.
  - unfold getMemory, findMemory. cbn [memories].
    rewrite (find_app_fresh _ _ m Hfresh); [reflexivity|].
    cbn. apply String.eqb_refl.
  - intros rid x Hx. unfold findMemory. cbn [memories]. now apply find_app_old.
Qed.

Lemma published_memory_is_fetched_witness :
  let r := mkCreate (Some "Sintra") None None (Some (TagsString "a, b")) None None
                    (DayValue "2") ["f.png"] "m3" "t0" "t1" "t2" in
  getMemory (Some "gui") "m3" (db (snd (createMemory (Some "carina") r sampleState)))
  = MemoryAndComments (newMemory "carina" r) [] /\
  status (newMemory "carina" r) = "draft" /\
  tags (newMemory "carina" r) = ["a"; "b"] /\
  day (newMemory "carina" r) = Some (DayNumber 2) /\
  media (newMemory "carina" r) = ["/uploads/f.png"].
Proof.
  intros r. split.
  - apply (published_memory_is_fetched "carina" "gui" r sampleState "Sintra");
      [reflexivity | discriminate | reflexivity].
  - repeat split.
Defined.

Lemma findIndex_None {A} (p : A -> bool) (l : list A) :
  List.find p l = None -> JS.findIndex p l = None.
Proof.
  induction l as [|x l IH]; cbn; [reflexivity|].
  destruct (p x); [discriminate|]. intros H. now rewrite (IH H).
Qed.

Lemma findIndex_Some {A} (p : A -> bool) (l : list A) (x : A) :
  List.find p l = Some x ->
  exists idx, JS.findIndex p l = Some idx /\ nth_error l idx = Some x.
Proof.
  induction l as [|y l IH]; cbn; [discriminate|].
  destruct (p y).
  - intros [= ->]. exists O. auto.
  - intros H. destruct (IH H) as (idx & -> & Hn). exists (S idx). auto.
Qed.

(** X3. A request that carries media and is then turned down keeps its
    files: publishing without a title (400), and updating a memory that
    is unknown (404) or someone else's (403), leave the database as it
    was but leave the uploaded files in the uploads directory. *)
Theorem refused_uploads_stay (caller : string) (s : state) :
  (forall r, JS.truthy_opt (c_title r) = false ->
     let out := createMemory (Some caller) r s in
     replyCode (fst out) = 400%nat /\ db (snd out) = db s /\
     files (snd out) = (files s ++ List.map uploadPath (c_stored r))%list) /\
  (forall rid r, findMemory rid (db s) = None ->
     let out := updateMemory (Some caller) rid r s in
     code (fst out) = 404%nat /\ db (snd out) = db s /\
     files (snd out) = (files s ++ List.map uploadPath (uploaded r))%list) /\
  (forall rid r m, findMemory rid (db s) = Some m -> user m <> caller ->
     let out := updateMemory (Some caller) rid r s in
     code (fst out) = 403%nat /\ db (snd out) = db s /\
     files (snd out) = (files s ++ List.map uploadPath (uploaded r))%list).
Proof.
  split; [|split].
  - intros r Ht out. unfold out, createMemory. rewrite Ht. cbn. auto.
  - intros rid r Hnone out. unfold out, updateMemory, storeUploads. cbn [db memories].
    unfold findMemory in Hnone. rewrite (findIndex_None _ _ Hnone). cbn. auto.
  - intros rid r m Hm Hu out. unfold out, updateMemory, storeUploads. cbn [db memories].
    unfold findMemory in Hm. destruct (findIndex_Some _ _ _ Hm) as (idx & -> & ->).
    assert (negb (String.eqb (user m) caller) = true) as ->.
    { apply negb_true_iff. now apply String.eqb_neq. }
    cbn. auto.
Qed.

Lemma refused_uploads_stay_witness :
  let r := mkUpdate None None None None None None DayUndefined ["b.png"] "t" in
  let out := updateMemory (Some "gui") "m1" r sampleState in
  code (fst out) = 403%nat /\ db (snd out) = db sampleState /\
  files (snd out) = (files sampleState ++ List.map uploadPath (uploaded r))%list.
Proof.
  intros r.
  apply (proj2 (proj2 (refused_uploads_stay "gui" sampleState)) "m1" r praia).
  - reflexivity.
  - discriminate.
Defined.

Lemma nth_error_setAt_eq {A} (l : list A) (idx : nat) (x y : A) :
  nth_error l idx = Some x -> nth_error (setAt l idx y) idx = Some y.
Proof.
  revert idx. induction l as [|z l IH]; intros [|idx]; cbn; try discriminate; auto.
Qed.

Lemma nth_error_setAt_ne {A} (l : list A) (idx i : nat) (y : A) :
  i <> idx -> nth_error (setAt l idx y) i = nth_error l i.
Proof.
  revert idx i. induction l as [|z l IH]; intros [|idx] [|i] H; cbn; try reflexivity;
    try contradiction.
  apply IH. congruence.
Qed.

Lemma map_setAt {A B} (f : A -> B) (l : list A) (idx : nat) (x y : A) :
  nth_error l idx = Some x -> f y = f x -> List.map f (setAt l idx y) = List.map f l.
Proof.
  revert idx. induction l as [|z l IH]; intros [|idx]; cbn; try discriminate.
  - intros [= ->] ->. reflexivity.
  - intros H E. now rewrite (IH idx H E).
Qed.

Lemma find_setAt_first {A} (p : A -> bool) (l : list A) (idx : nat) (y : A) :
  JS.findIndex p l = Some idx -> p y = true -> List.find p (setAt l idx y) = Some y.
Proof.
  revert idx. induction l as [|z l IH]; intros idx; cbn; [discriminate|].
  destruct (p z) eqn:E.
  - intros [= <-] Hy. cbn. now rewrite Hy.
  - destruct (JS.findIndex p l) as [j|]; cbn; [|discriminate].
    intros [= <-] Hy. cbn. rewrite E. now apply IH.
Qed.

(** X4. The owner's update is answered with the updated memory, which is
    then what its id fetches. It keeps the memory's id, owner, creation
    time and reactions, adds the new media after the old, and stamps the
    update time. The stored memories keep their number, order, ids and
    owners, every other memory is still there, and the comments are
    untouched. A request without fields changes the update time only. *)
Theorem owner_update_keeps_identity (s : state) (rid : string) (r : updateRequest)
    (m : memory) :
  findMemory rid (db s) = Some m ->
  let out := updateMemory (Some (user m)) rid r s in
  let m' := applyUpdate r m in
  fst out = mkResponse 200%nat (MemoryBody m') /\
  findMemory rid (db (snd out)) = Some m' /\
  id m' = id m /\ user m' = user m /\ createdAt m' = createdAt m /\
  reactions m' = reactions m /\ updatedAt m' = now r /\
  media m' = (media m ++ List.map uploadPath (uploaded r))%list /\
  List.map id (memories (db (snd out))) = List.map id (memories (db s)) /\
  List.map user (memories (db (snd out))) = List.map user (memories (db s)) /\
  (forall x, In x (memories (db s)) -> id x <> rid -> In x (memories (db (snd out)))) /\
  comments (db (snd out)) = comments (db s) /\
  (emptyUpdate r ->
   m' = {| id := id m; user := user m; title := title m; text := text m;
           date := date m; tags := tags m; location := location m;
           status := status m; media := media m; day := day m;
           createdAt := createdAt m; updatedAt := now r;
           reactions := reactions m |}).
Proof.
  intros Hm out m'. unfold findMemory in Hm.
  destruct (findIndex_Some _ _ _ Hm) as (idx & Hidx & Hnth).
  assert (Hrid : String.eqb (id m) rid = true).
  { now apply find_some in Hm as [_ H]. }
  assert (E : out = (mkResponse 200%nat (MemoryBody m'),
                     mkState (mkDB (setAt (memories (db s)) idx m') (comments (db s)))
                             (files s ++ List.map uploadPath (uploaded r)))).
  { unfold out, updateMemory, storeUploads. cbn [db memories files].
    rewrite Hidx, Hnth, String.eqb_refl. reflexivity. }
  rewrite E. cbn [fst snd db memories comments].
  split; [reflexivity|].
  split; [unfold findMemory; cbn [memories]; now apply find_setAt_first|].
  split; [reflexivity|]. split; [reflexivity|]. split; [reflexivity|].
  split; [reflexivity|]. split; [reflexivity|].
  split.
  { unfold m', applyUpdate. cbn [media]. destruct (uploaded r); [|reflexivity].
    cbn. now rewrite app_nil_r. }
  split; [now apply (map_setAt id _ _ m)|].
  split; [now apply (map_setAt user _ _ m)|].
  split.
  { intros x Hx Hne. apply In_nth_error in Hx as [i Hi].
    assert (i <> idx).
    { intros ->. rewrite Hnth in Hi. injection Hi as <-.
      apply String.eqb_eq in Hrid. contradiction. }
    apply (nth_error_In _ i). now rewrite nth_error_setAt_ne. }
  split; [reflexivity|].
  intros (H1 & H2 & H3 & H4 & H5 & H6 & H7 & H8).
  unfold m', applyUpdate. now rewrite H1, H2, H3, H4, H5, H6, H7, H8.
Qed.

Lemma owner_update_keeps_identity_witness :
  let r := mkUpdate (Some "novo") None None None None (Some "private") DayNull
                    ["b.png"] "2024-03-01T00:00:00.000Z" in
  findMemory "m1" (db (snd (updateMemory (Some "carina") "m1" r sampleState)))
    = Some (applyUpdate r praia) /\
  media (applyUpdate r praia) = ["/uploads/a.png"; "/uploads/b.png"] /\
  List.map id (memories (db (snd (updateMemory (Some "carina") "m1" r sampleState))))
    = ["m1"; "m2"].
Proof.
  intros r.
  destruct (owner_update_keeps_identity sampleState "m1" r praia eq_refl)
    as (_ & Hf & _ & _ & _ & _ & _ & Hmedia & Hids & _).
  split; [exact Hf|]. split; [exact Hmedia | exact Hids].
Defined.

(** *** Tags *)

Lemma split_pieces sep s : Forall (fun piece => hasChar sep piece = false) (JS.split sep s).
Proof.
  induction s as [|c r IH]; cbn; [repeat constructor|].
  destruct (Ascii.eqb c sep) eqn:E.
  - constructor; [reflexivity | exact IH].
  - destruct (JS.split sep r) as [|h t];
      [constructor; [cbn; now rewrite E | constructor]|].
    inversion IH; subst. constructor; [|assumption]. cbn. now rewrite E.
Qed.

Lemma hasChar_app c (x y : string) : hasChar c (x +:+ y) = hasChar c x || hasChar c y.
Proof.
  induction x as [|a x IH]; [reflexivity|]. rewrite TrimFacts.app_cons. cbn [hasChar].
  now rewrite IH, orb_assoc.
Qed.

Lemma hasChar_trimStart c s : hasChar c s = false -> hasChar c (JS.trimStart s) = false.
Proof.
  intros H. destruct (TrimFacts.trimStart_suffix s) as [w E]. rewrite E, hasChar_app in H.
  now apply orb_false_iff in H.
Qed.

Lemma hasChar_trimEnd c s : hasChar c s = false -> hasChar c (JS.trimEnd s) = false.
Proof.
  intros H. destruct (TrimFacts.trimEnd_split s) as (q & E & _). rewrite E, hasChar_app in H.
  now apply orb_false_iff in H.
Qed.

(** X5. The tags read from a comma-separated string are never empty,
    carry no white space at either end and contain no comma. *)
Theorem parseTags_clean (s t : string) :
  In t (parseTags (TagsString s)) ->
  t <> "" /\ JS.trim t = t /\ hasChar "," t = false.
Proof.
  unfold parseTags. intros H. apply filter_In in H as [H Ht].
  apply in_map_iff in H as (piece & <- & Hp).
  split; [|split].
  - intros E. rewrite E in Ht. discriminate.
  - apply TrimFacts.trim_idem.
  - unfold JS.trim. apply hasChar_trimEnd, hasChar_trimStart.
    pose proof (split_pieces "," s) as F. rewrite List.Forall_forall in F. now apply F.
Qed.

Lemma parseTags_clean_witness :
  parseTags (TagsString " praia , ,sol,") = ["praia"; "sol"] /\
  ("sol" <> "" /\ JS.trim "sol" = "sol" /\ hasChar "," "sol" = false).
Proof.
  split; [reflexivity|].
  apply (parseTags_clean " praia , ,sol," "sol").
  change (In "sol" ["praia"; "sol"]). right. left. reflexivity.
Defined.

(** *** Deleting *)

Lemma unique_id_first (ms : list memory) (m : memory) :
  List.NoDup (List.map id ms) -> In m ms ->
  List.find (fun x => String.eqb (id x) (id m)) ms = Some m.
Proof.
  induction ms as [|y ms IH]; cbn; [contradiction|].
  intros Hnd Hin. apply NoDup_cons_iff in Hnd as [Hy Hnd].
  destruct Hin as [->|Hin]; [now rewrite String.eqb_refl|].
  destruct (String.eqb_spec (id y) (id m)) as [E|_]; [|auto].
  exfalso. apply Hy. rewrite E. now apply in_map.
Qed.

Lemma filter_keeps_all {A} (p : A -> bool) (l : list A) :
  (forall x, In x l -> p x = true) -> List.filter p l = l.
Proof.
  induction l as [|x l IH]; cbn; [reflexivity|]. intros H.
  rewrite (H x) by now left. f_equal. apply IH. intros y Hy. apply H. now right.
Qed.

(** With unique ids, removing the first memory of an id removes the
    memories of that id. *)
Lemma removeAt_unique (ms : list memory) (rid : string) (idx : nat) :
  List.NoDup (List.map id ms) ->
  JS.findIndex (fun x => String.eqb (id x) rid) ms = Some idx ->
  removeAt ms idx = List.filter (fun x => negb (String.eqb (id x) rid)) ms.
Proof.
  revert idx. induction ms as [|y ms IH]; intros idx; cbn; [discriminate|].
  intros Hnd. apply NoDup_cons_iff in Hnd as [Hy Hnd].
  destruct (String.eqb_spec (id y) rid) as [E|E]; cbn.
  - intros [= <-]. symmetry. apply filter_keeps_all. intros x Hx.
    apply negb_true_iff, String.eqb_neq. intros Ex. apply Hy. rewrite E, <- Ex.
    now apply in_map.
  - destruct (JS.findIndex _ ms) as [j|] eqn:Ej; cbn; [|discriminate].
    intros [= <-]. f_equal. now apply IH.
Qed.

(** X6. With unique memory ids, the owner's deletion answers 200 and
    removes the memory (its id then fetches 404), every comment on it
    and every file its media name; the other memories, the other
    comments and the other files stay, in their order. *)
Theorem owner_delete_removes_all (s : state) (m : memory) (reader : string) :
  List.NoDup (List.map id (memories (db s))) ->
  In m (memories (db s)) ->
  let out := deleteMemory (Some (user m)) (id m) s in
  code (fst out) = 200%nat /\
  memories (db (snd out))
    = List.filter (fun x => negb (String.eqb (id x) (id m))) (memories (db s)) /\
  comments (db (snd out))
    = List.filter (fun c => negb (String.eqb (memoryId c) (id m))) (comments (db s)) /\
  getMemory (Some reader) (id m) (db (snd out)) = notFound /\
  listComments (Some reader) (id m) (db (snd out)) = CommentList [] /\
  (forall f, In f (files (snd out)) <-> In f (files s) /\ ~ In f (media m)).
Proof.
  intros Hnd Hin out.
  pose proof (unique_id_first _ _ Hnd Hin) as Hfind.
  destruct (findIndex_Some _ _ _ Hfind) as (idx & Hidx & Hnth).
  assert (E : out = (mkResponse 200%nat (MessageBody "Memória excluída"),
                     mkState
                       (mkDB (removeAt (memories (db s)) idx)
                             (List.filter (fun c => negb (String.eqb (memoryId c) (id m)))
                                          (comments (db s))))
                       (unlinkAll (media m) (files s)))).
  { unfold out, deleteMemory. rewrite Hidx, Hnth, String.eqb_refl. reflexivity. }
  rewrite E. cbn [fst snd db memories comments files code].
  rewrite (removeAt_unique _ _ _ Hnd Hidx).
  split; [reflexivity|]. split; [reflexivity|]. split; [reflexivity|].
  split; [|split].
  - unfold getMemory, findMemory. cbn [memories].
    destruct (List.find _ (List.filter _ _)) as [x|] eqn:Ex; [|reflexivity].
    apply find_some in Ex as [Hx Hid]. apply filter_In in Hx as [_ Hx].
    rewrite Hid in Hx. discriminate.
  - unfold listComments, commentsOf. cbn [comments]. f_equal.
    destruct (List.filter _ (List.filter _ _)) as [|c l] eqn:Ec; [reflexivity|].
    assert (Hc : In c (c :: l)) by now left. rewrite <- Ec in Hc.
    apply filter_In in Hc as [Hc H1]. apply filter_In in Hc as [_ H2].
    rewrite H1 in H2. discriminate.
  - intros f. unfold unlinkAll. rewrite filter_In, negb_true_iff.
    split; intros [H1 H2]; (split; [exact H1|]).
    + intros Hf. apply not_true_iff_false in H2. apply H2.
      apply existsb_exists. exists f. split; [exact Hf | apply String.eqb_refl].
    + apply not_true_iff_false. intros Hx. apply existsb_exists in Hx as (x & Hx & Ex).
      apply String.eqb_eq in Ex. subst x. contradiction.
Qed.

Lemma owner_delete_removes_all_witness :
  let out := deleteMemory (Some "carina") "m1" sampleState in
  code (fst out) = 200%nat /\
  memories (db (snd out)) = [museu] /\
  comments (db (snd out)) = [] /\
  getMemory (Some "gui") "m1" (db (snd out)) = notFound.
Proof.
  destruct (owner_delete_removes_all sampleState praia "gui") as (H1 & H2 & H3 & H4 & _).
  - repeat constructor; cbn; intuition discriminate.
  - now left.
  - repeat split; assumption.
Defined.

(** *** Comments *)

(** X7. A comment whose text is missing or blank is refused with 400,
    before the memory is even looked up; a comment on an unknown memory is
    refused with 404; both leave the state as it was. An accepted comment
    is signed with the caller's name, stored after the existing
    comments, and from then on listed last for that memory; the memories
    are untouched. *)
Theorem comment_is_appended (caller reader rid uuid now : string) (text : option string)
    (s : state) :
  let out := addComment (Some caller) rid text uuid now s in
  (JS.truthy (JS.trim (default "" text)) = false ->
     replyCode (fst out) = 400%nat /\ snd out = s) /\
  (JS.truthy (JS.trim (default "" text)) = true -> findMemory rid (db s) = None ->
     replyCode (fst out) = 404%nat /\ snd out = s) /\
  (forall t m, text = Some t -> JS.truthy (JS.trim t) = true ->
     findMemory rid (db s) = Some m ->
     let c := mkComment uuid rid caller t now [] in
     fst out = OneComment c /\
     comments (db (snd out)) = (comments (db s) ++ [c])%list /\
     memories (db (snd out)) = memories (db s) /\
     listComments (Some reader) rid (db (snd out))
       = CommentList (commentsOf rid (db s) ++ [c])%list).
Proof.
  intros out.
  assert (B : forall t, JS.truthy (JS.trim t) = true -> JS.truthy t = true).
  { intros [|a r]; [discriminate | reflexivity]. }
  split; [|split].
  - intros Hb. unfold out, addComment. rewrite Hb, orb_true_r. cbn. auto.
  - intros Hb Hnone. unfold out, addComment.
    destruct text as [t|]; [|discriminate].
    change (default "" (Some t)) with t in *. cbn [JS.truthy_opt].
    rewrite Hb, (B t Hb), Hnone. cbn. auto.
  - intros t m -> Ht Hm c. unfold out, addComment.
    change (default "" (Some t)) with t. cbn [JS.truthy_opt].
    rewrite Ht, (B t Ht), Hm. cbn [negb orb fst snd db comments memories].
    assert (Hid : id m = rid).
    { unfold findMemory in Hm. apply find_some in Hm as [_ H].
      now apply String.eqb_eq. }
    rewrite Hid. fold c.
    split; [reflexivity|]. split; [reflexivity|]. split; [reflexivity|].
    unfold listComments, commentsOf. cbn [comments].
    rewrite List.filter_app. cbn. now rewrite String.eqb_refl.
Qed.

Lemma comment_is_appended_witness :
  listComments (Some "carina") "m1"
    (db (snd (addComment (Some "gui") "m1" (Some " que dia! ") "c2" "t" sampleState)))
  = CommentList [mkComment "c1" "m1" "gui" "lindo" "2024-01-06T00:00:00.000Z" [];
                 mkComment "c2" "m1" "gui" " que dia! " "t" []].
Proof.
  destruct (comment_is_appended "gui" "carina" "m1" "c2" "t" (Some " que dia! ")
              sampleState) as (_ & _ & H).
  destruct (H " que dia! " praia eq_refl eq_refl eq_refl) as (_ & _ & _ & Hl).
  exact Hl.
Defined.

(** A comment of no-break spaces is blank. *)
Example blank_comment_is_refused :
  addComment (Some "gui") "m1" (Some "   ") "c2" "t" sampleState
  = (Refused 400%nat "Comentário vazio", sampleState).
Proof. reflexivity. Qed.

(** *** Reactions *)

Lemma countOf_bump_eq e counts :
  countOf e (bump e counts) = Some (default 0%nat (countOf e counts) + 1)%nat.
Proof.
  unfold countOf. induction counts as [|[k n] r IH]; cbn.
  - now rewrite String.eqb_refl.
  - destruct (String.eqb k e) eqn:E; cbn; rewrite E; [reflexivity | exact IH].
Qed.

Lemma countOf_bump_ne e e' counts :
  e' <> e -> countOf e' (bump e counts) = countOf e' counts.
Proof.
  intros Hne. unfold countOf. induction counts as [|[k n] r IH]; cbn.
  - destruct (String.eqb_spec e e'); [congruence | reflexivity].
  - destruct (String.eqb_spec k e) as [->|Hk]; cbn.
    + destruct (String.eqb_spec e e'); [congruence | reflexivity].
    + destruct (String.eqb k e'); [reflexivity | exact IH].
Qed.

Lemma find_changeFirst {A} (p : A -> bool) (f : A -> A) (l : list A) (x : A) :
  List.find p l = Some x -> p (f x) = true ->
  List.find p (changeFirst p f l) = Some (f x).
Proof.
  induction l as [|y l IH]; cbn; [discriminate|].
  destruct (p y) eqn:E.
  - intros [= ->] Hf. cbn. now rewrite Hf.
  - intros H Hf. cbn. rewrite E. now apply IH.
Qed.

Lemma In_changeFirst {A} (p : A -> bool) (f : A -> A) (l : list A) (x : A) :
  In x l -> p x = false -> In x (changeFirst p f l).
Proof.
  induction l as [|y l IH]; cbn; [trivial|].
  intros [->|Hin] Hx.
  - rewrite Hx. now left.
  - destruct (p y); [now right | right; auto].
Qed.

Lemma map_changeFirst {A B} (g : A -> B) (p : A -> bool) (f : A -> A) (l : list A) :
  (forall x, g (f x) = g x) -> List.map g (changeFirst p f l) = List.map g l.
Proof.
  intros H. induction l as [|y l IH]; cbn; [reflexivity|].
  destruct (p y); cbn; [now rewrite H | now rewrite IH].
Qed.

Lemma countable_truthy e : countable e = true -> JS.truthy e = true.
Proof.
  unfold countable. intros H. apply andb_true_iff in H as [_ H].
  destruct e; [discriminate | reflexivity].
Qed.

(** X8. Any logged-in user's reaction to a stored memory, with an emoji
    that is not a name objects inherit ([constructor], [toString],
    [__proto__], ...) and does not start with a digit, answers the new
    counts: the count of that emoji is one more than before (one, for the
    first reaction), every other count is as before, and the memory then
    fetched under the id carries these counts. The stored memories keep
    their ids and order, every other memory and all comments are
    untouched, and a second reaction with the same emoji brings the count
    to two more than before. *)
Theorem reaction_counts_up (who again rid e : string) (s : state) (m : memory) :
  findMemory rid (db s) = Some m -> countable e = true ->
  let before := default 0%nat (countOf e (reactions m)) in
  let counts := bump e (reactions m) in
  let out := reactMemory (Some who) rid (Some e) s in
  fst out = ReactionCounts counts /\
  countOf e counts = Some (before + 1)%nat /\
  (forall e', e' <> e -> countOf e' counts = countOf e' (reactions m)) /\
  findMemory rid (db (snd out)) = Some (withReactions counts m) /\
  List.map id (memories (db (snd out))) = List.map id (memories (db s)) /\
  (forall x, In x (memories (db s)) -> id x <> rid -> In x (memories (db (snd out)))) /\
  comments (db (snd out)) = comments (db s) /\
  fst (reactMemory (Some again) rid (Some e) (snd out)) = ReactionCounts (bump e counts) /\
  countOf e (bump e counts) = Some (before + 2)%nat.
Proof.
  intros Hm He before counts out.
  assert (Te : JS.truthy e = true) by exact (countable_truthy e He).
  assert (Hrid : String.eqb (id m) rid = true).
  { unfold findMemory in Hm. now apply find_some in Hm as [_ H]. }
  assert (E : out = (ReactionCounts counts,
                     mkState
                       (mkDB (changeFirst (fun x => String.eqb (id x) rid)
                                          (withReactions counts) (memories (db s)))
                             (comments (db s)))
                       (files s))).
  { unfold out, reactMemory. now rewrite Te, Hm. }
  assert (F : findMemory rid (db (snd out)) = Some (withReactions counts m)).
  { rewrite E. unfold findMemory. cbn [snd db memories].
    apply find_changeFirst; [exact Hm | exact Hrid]. }
  split; [now rewrite E|].
  split; [apply countOf_bump_eq|].
  split; [intros e' Hne; now apply countOf_bump_ne|].
  split; [exact F|].
  split; [rewrite E; cbn [snd db memories]; now apply map_changeFirst|].
  split.
  { intros x Hx Hne. rewrite E. cbn [snd db memories]. apply In_changeFirst; [exact Hx|].
    now apply String.eqb_neq. }
  split; [now rewrite E|].
  split.
  - unfold reactMemory. now rewrite Te, F.
  - rewrite countOf_bump_eq. unfold counts. rewrite countOf_bump_eq.
    apply (f_equal Some). unfold before.
    generalize (default 0%nat (countOf e (reactions m))). intros b. cbn. lia.
Qed.

Lemma reaction_counts_up_witness :
  countable "❤" = true /\
  fst (reactMemory (Some "gui") "m1" (Some "❤")
         (snd (reactMemory (Some "carina") "m1" (Some "❤") sampleState)))
  = ReactionCounts [("❤", 2%nat)].
Proof.
  split; [reflexivity|].
  destruct (reaction_counts_up "carina" "gui" "m1" "❤" sampleState praia eq_refl eq_refl)
    as (_ & _ & _ & _ & _ & _ & _ & H & _).
  exact H.
Defined.

(** The names left out: they are not countable. *)
Example inherited_names_are_not_countable :
  countable "constructor" = false /\ countable "toString" = false /\
  countable "__proto__" = false /\ countable "7" = false /\ countable "" = false.
Proof. repeat split; reflexivity. Qed.




(** *** Export *)

(** X10. The export leaves nothing out and filters nothing. For a
    logged-in user it holds one entry per stored memory, in stored
    order, whoever the author and whatever the status; each entry
    carries its memory's media as links under the origin and exactly
    the comments the comments listing gives for that memory; and a
    stored comment is in some entry exactly when its memory is stored.
    Without a session the export is refused. *)
Theorem export_is_complete (u origin : string) (d : database) :
  exportAll None origin d = notAuthorized /\
  exists entries,
    exportAll (Some u) origin d = Exported entries /\
    List.map entry entries = memories d /\
    (forall x, In x entries ->
       mediaLinks x = List.map (fun p => origin +:+ p) (media (entry x)) /\
       listComments (Some u) (id (entry x)) d = CommentList (entry_comments x)) /\
    (forall c, In c (comments d) ->
       (exists x, In x entries /\ In c (entry_comments x)) <->
       (exists m, In m (memories d) /\ id m = memoryId c)).
Proof.
  split; [reflexivity|]. eexists. split; [reflexivity|]. split; [|split].
  - rewrite List.map_map. cbn [entry]. apply List.map_id.
  - intros x Hx. apply List.in_map_iff in Hx as (m & <- & _). split; reflexivity.
  - intros c Hc. split.
    + intros (x & Hx & Hin). apply List.in_map_iff in Hx as (m & <- & Hm).
      cbn [entry_comments] in Hin. unfold commentsOf in Hin.
      apply filter_In in Hin as [_ E]. apply String.eqb_eq in E. eauto.
    + intros (m & Hm & E). eexists. split.
      * apply List.in_map_iff. exists m. split; [reflexivity | exact Hm].
      * cbn [entry_comments]. unfold commentsOf. apply filter_In.
        split; [exact Hc|]. rewrite E. apply String.eqb_refl.
Qed.

End BackendFacts.

(** ** Memories on the itinerary side: media, cover and day lists *)

Module MemoriesViewFacts.

Import Server Backend MemoriesView.

Lemma string_app_assoc (a b c : string) : (a +:+ b) +:+ c = a +:+ (b +:+ c).
Proof.
  induction a as [|x a IH]; [reflexivity|]. exact (f_equal (String x) IH).
Qed.

Lemma string_app_cons (x : ascii) (a b : string) : String x a +:+ b = String x (a +:+ b).
Proof. reflexivity. Qed.

Lemma string_app_nil (b : string) : "" +:+ b = b.
Proof. reflexivity. Qed.

Lemma split_whole sep e : hasChar sep e = false -> JS.split sep e = [e].
Proof.
  induction e as [|c r IH]; cbn; [reflexivity|]. intros H.
  apply orb_false_iff in H as [Hc Hr]. rewrite Hc, (IH Hr). reflexivity.
Qed.

(** The last piece of a split is what follows the last separator. *)
Lemma split_last sep a e :
  hasChar sep e = false ->
  exists h t, JS.split sep (a +:+ String sep e) = h :: t /\ t <> [] /\ List.last t "" = e.
Proof.
  intros He. induction a as [|c r (h & t & E & Ht & Hl)];
    rewrite ?string_app_nil, ?string_app_cons; cbn [JS.split].
  - rewrite Ascii.eqb_refl, (split_whole _ _ He). exists "", [e]. repeat split. discriminate.
  - rewrite E. destruct (Ascii.eqb c sep).
    + exists "", (h :: t). repeat split; [discriminate|].
      destruct t; [contradiction | exact Hl].
    + exists (String c h), t. auto.
Qed.

Lemma lastSegment_ext a e :
  hasChar "." e = false -> lastSegment (a +:+ String "." e) = e.
Proof.
  intros He. unfold lastSegment.
  destruct (split_last "." a e He) as (h & t & -> & Ht & Hl).
  destruct t; [contradiction | exact Hl].
Qed.

Section Display.

Variable toLowerCase : string -> string.

(** Lower-casing leaves the nine lower-case extension names alone. *)
Hypothesis toLowerCase_ext :
  forall e, In e ["jpg"; "jpeg"; "png"; "webp"; "gif"; "mp4"; "mov"; "mkv"; "avi"] ->
            toLowerCase e = e.

(** X11. Whatever file name the upload filter accepts, the path stored
    for it in the memory's media is displayed by the cards: as an image
    or as a video, never skipped. *)
Theorem accepted_media_is_displayed (uuid originalname : string) :
  fileFilter toLowerCase originalname = true ->
  exists kind,
    mediaKindOf toLowerCase (uploadPath (filename toLowerCase uuid originalname))
    = Some kind.
Proof.
  unfold fileFilter, filename, uploadPath, mediaKindOf. intros H.
  apply existsb_exists in H as (ext & Hin & Heq). apply String.eqb_eq in Heq.
  subst ext. rewrite <- string_app_assoc. unfold allowed in Hin. cbn [In] in Hin.
  decompose [or] Hin; try contradiction;
    match goal with E : _ = toLowerCase _ |- _ => rewrite <- E end;
    rewrite lastSegment_ext by reflexivity;
    rewrite toLowerCase_ext by (cbn; tauto);
    eexists; reflexivity.
Qed.

End Display.

Lemma asciiLower_ext e :
  In e ["jpg"; "jpeg"; "png"; "webp"; "gif"; "mp4"; "mov"; "mkv"; "avi"] ->
  JS.asciiLower e = e.
Proof.
  cbn [In]. intros H. decompose [or] H; try contradiction; subst e; reflexivity.
Qed.

Lemma accepted_media_is_displayed_witness :
  fileFilter JS.asciiLower "Praia.JPG" = true /\
  exists kind,
    mediaKindOf JS.asciiLower (uploadPath (filename JS.asciiLower "u-1" "Praia.JPG"))
    = Some kind.
Proof.
  split; [reflexivity|].
  apply (accepted_media_is_displayed JS.asciiLower asciiLower_ext "u-1" "Praia.JPG").
  reflexivity.
Defined.

(** What the filter turns down, and what the cards skip. *)
Example rejected_and_skipped :
  List.map (fileFilter JS.asciiLower) ["a.png"; "a.PNG"; "a.svg"; "png"; ".png"; "a.png.exe"]
    = [true; true; false; false; false; false] /\
  List.map (mediaKindOf JS.asciiLower) ["/uploads/x.gif"; "/uploads/x.MOV"; "/uploads/x.png.txt"; "mp4"]
    = [Some Image; Some Video; None; Some Video].
Proof. split; reflexivity. Qed.

Section Lists.

Variable Date_ : string -> JS.number.
Variable toLowerCase : string -> string.

Lemma list_for_day (u : string) (d : database) (n : JS.number) :
  loadMemoriesForDay Date_ toLowerCase (Some u) d n
  = Some (List.filter (dayMatches (JS.toString n)) (memories d)).
Proof.
  unfold loadMemoriesForDay, listMemories, arrayOf. cbn [q_tag q_status q_q q_from q_to q_day
    filterIf dayGiven code payload Nat.eqb].
  now rewrite NumberFacts.toString_not_blank.
Qed.

Lemma list_for_cover (u : string) (d : database) :
  loadCoverMemories Date_ toLowerCase (Some u) d = Some (List.filter noDay (memories d)).
Proof. reflexivity. Qed.

(** X12. For a logged-in user, the cover lists exactly the stored
    memories without a day and the block of a day lists exactly the
    stored memories whose day prints as that day's number, both in stored
    order; no memory is in the cover and in a day's block, and a memory
    is in the blocks of at most one day number. Logged out, neither list
    is given. *)
Theorem memory_shown_in_one_place (u : string) (d : database) :
  exists onCover,
    loadCoverMemories Date_ toLowerCase (Some u) d = Some onCover /\
    onCover = List.filter noDay (memories d) /\
    loadCoverMemories Date_ toLowerCase None d = None /\
    forall n, exists ofDay,
      loadMemoriesForDay Date_ toLowerCase (Some u) d n = Some ofDay /\
      ofDay = List.filter (dayMatches (JS.toString n)) (memories d) /\
      loadMemoriesForDay Date_ toLowerCase None d n = None /\
      (forall m, In m ofDay <->
                 In m (memories d) /\
                 exists dm, day m = Some dm /\ dayRef_String dm = JS.toString n) /\
      (forall m, In m ofDay -> ~ In m onCover) /\
      (forall n' ofOther m,
         loadMemoriesForDay Date_ toLowerCase (Some u) d n' = Some ofOther ->
         In m ofDay -> In m ofOther -> n' = n).
Proof.
  exists (List.filter noDay (memories d)).
  split; [apply list_for_cover|]. split; [reflexivity|]. split; [reflexivity|].
  intros n. exists (List.filter (dayMatches (JS.toString n)) (memories d)).
  assert (M : forall k m, In m (List.filter (dayMatches (JS.toString k)) (memories d)) <->
                 In m (memories d) /\
                 exists dm, day m = Some dm /\ dayRef_String dm = JS.toString k).
  { intros k m. rewrite filter_In. unfold dayMatches.
    split; intros [Hin H]; (split; [exact Hin|]).
    - destruct (day m) as [dm|]; [|discriminate]. exists dm. split; [reflexivity|].
      now apply String.eqb_eq.
    - destruct H as (dm & -> & E). now apply String.eqb_eq. }
  split; [apply list_for_day|]. split; [reflexivity|]. split; [reflexivity|].
  split; [apply M|]. split.
  - intros m Hm Hc. apply M in Hm as (_ & dm & Hd & E).
    apply filter_In in Hc as [_ Hc]. unfold noDay in Hc. rewrite Hd, E in Hc.
    now rewrite NumberFacts.toString_not_blank in Hc.
  - intros n' ofOther m Hl Hm Hm'. rewrite list_for_day in Hl. injection Hl as <-.
    apply M in Hm as (_ & dm & Hd & E). apply M in Hm' as (_ & dm' & Hd' & E').
    rewrite Hd in Hd'. injection Hd' as <-. apply NumberFacts.toString_inj. congruence.
Qed.

(** X13. A memory published with a day number as its day, written in
    decimal digits and within the range in which JavaScript numbers are
    exact, is stored with that number, from then on is listed last in
    the block of that day, and is in no other day's block and not in the
    cover. *)
Theorem published_day_is_listed (caller reader : string) (r : createRequest) (s : state)
    (t : string) (z : Z) :
  c_title r = Some t -> t <> "" ->
  - 9007199254740991 <= z <= 9007199254740991 ->
  c_day r = DayValue (JS.toString (JS.Int z)) ->
  let m := newMemory caller r in
  let d' := db (snd (createMemory (Some caller) r s)) in
  day m = Some (DayNumber z) /\
  loadMemoriesForDay Date_ toLowerCase (Some reader) d' (JS.Int z)
    = Some (List.filter (dayMatches (JS.toString (JS.Int z))) (memories (db s)) ++ [m])%list /\
  (forall n l, n <> JS.Int z ->
     loadMemoriesForDay Date_ toLowerCase (Some reader) d' n = Some l -> ~ In m l) /\
  (forall l, loadCoverMemories Date_ toLowerCase (Some reader) d' = Some l -> ~ In m l).
Proof.
  intros Ht Hne _ Hday m d'.
  assert (Hm : day m = Some (DayNumber z)).
  { unfold m, newMemory. cbn [day]. rewrite Hday.
    rewrite (NumberFacts.toString_not_blank (JS.Int z)). unfold normaliseDay.
    cbn [JS.toString]. now rewrite NumberFacts.Number_pretty. }
  assert (Hd : memories d' = (memories (db s) ++ [m])%list).
  { unfold d', createMemory. rewrite Ht. cbn [JS.truthy_opt].
    assert (JS.truthy t = true) as -> by (destruct t; [contradiction | reflexivity]).
    reflexivity. }
  split; [exact Hm|]. split; [|split].
  - rewrite list_for_day, Hd, List.filter_app. do 2 f_equal.
    cbn [List.filter]. unfold dayMatches. rewrite Hm. cbn [dayRef_String JS.toString].
    now rewrite String.eqb_refl.
  - intros n l Hn Hl Hin. rewrite list_for_day in Hl. injection Hl as <-.
    apply filter_In in Hin as [_ Hin]. unfold dayMatches in Hin. rewrite Hm in Hin.
    apply String.eqb_eq in Hin. apply Hn. symmetry.
    apply NumberFacts.toString_inj. exact Hin.
  - intros l Hl Hin. rewrite list_for_cover in Hl. injection Hl as <-.
    apply filter_In in Hin as [_ Hin]. unfold noDay in Hin. rewrite Hm in Hin.
    cbn [dayRef_String] in Hin. change (pretty z) with (JS.toString (JS.Int z)) in Hin.
    now rewrite (NumberFacts.toString_not_blank (JS.Int z)) in Hin.
Qed.

End Lists.

Lemma published_day_is_listed_witness :
  let r := mkCreate (Some "Sintra") None None None None None (DayValue "2") []
                    "m3" "t0" "t1" "t2" in
  loadMemoriesForDay sampleDate JS.asciiLower (Some "gui")
      (db (snd (createMemory (Some "carina") r sampleState))) (JS.Int 2)
    = Some [praia; newMemory "carina" r].
Proof.
  intros r.
  destruct (published_day_is_listed sampleDate JS.asciiLower "carina" "gui" r sampleState
              "Sintra" 2 eq_refl) as (_ & H & _).
  - discriminate.
  - lia.
  - reflexivity.
  - exact H.
Defined.

Section Blocks.

Import Controller.

Variable Date_ : string -> JS.number.
Variable toLowerCase : string -> string.
Variable formatDate : string -> string.
Variable now : string.

Lemma renderDayMemories_lookup (panels : gmap string panel) (n : JS.number)
    (ms : option (list memory)) (bs : gmap string block) (key : string) :
  renderDayMemories toLowerCase formatDate now panels n ms bs !! key
  = if String.eqb (JS.toString n) key
    then match panels !! key with
         | Some _ => blockFor toLowerCase formatDate now ms
         | None => bs !! key
         end
    else bs !! key.
Proof.
  unfold renderDayMemories, blockFor.
  destruct (String.eqb_spec (JS.toString n) key) as [<-|Hne].
  - destruct (panels !! JS.toString n); [|reflexivity].
    destruct ms as [[|m l]|].
    + apply lookup_insert_eq.
    + apply lookup_insert_eq.
    + apply lookup_delete_eq.
  - destruct (panels !! JS.toString n); [|reflexivity].
    destruct ms as [[|m l]|].
    + now apply lookup_insert_ne.
    + now apply lookup_insert_ne.
    + now apply lookup_delete_ne.
Qed.

(** One rendering per day, whatever the loader [g] gives: the block
    under a key is decided by the days of that key, which all have the
    same number. *)
Lemma rendered_days_lookup (g : JS.number -> option (list memory))
    (panels : gmap string panel) (data : list Itinerary.dayRecord) (key : string) :
  forall bs,
    fold_left (fun bs dayRec =>
                 renderDayMemories toLowerCase formatDate now panels (Itinerary.id dayRec)
                                   (g (Itinerary.id dayRec)) bs) data bs !! key
    = match List.find (fun dayRec => String.eqb (JS.toString (Itinerary.id dayRec)) key) data,
            panels !! key with
      | Some dayRec, Some _ => blockFor toLowerCase formatDate now (g (Itinerary.id dayRec))
      | _, _ => bs !! key
      end.
Proof.
  induction data as [|dayRec rest IH]; intros bs; cbn [fold_left List.find].
  - now destruct (panels !! key).
  - rewrite IH, renderDayMemories_lookup.
    destruct (String.eqb_spec (JS.toString (Itinerary.id dayRec)) key) as [E|_].
    + destruct (List.find _ rest) as [other|] eqn:Eo; [|now destruct (panels !! key)].
      destruct (panels !! key); [|reflexivity].
      apply find_some in Eo as [_ Eo]. apply String.eqb_eq in Eo.
      rewrite <- E in Eo. apply NumberFacts.toString_inj in Eo. now rewrite Eo.
    + reflexivity.
Qed.

(** X14. After a refresh, the day whose panel has been built shows the
    block of its own list: no block when logged out, the empty-state
    message when the day has no memory, the cards of the day's memories
    otherwise. A day whose panel has not been built, and any key that is
    no day of the itinerary, keeps what it had: the refresh builds
    nothing. After [showLogin] clears the itinerary side, no built day
    panel has a block and the cover is hidden. *)
Theorem day_blocks_follow_session (sess : session) (d : database) (pg : page)
    (blocks : gmap string block) (key : string) :
  let refreshed :=
    refreshAllDayMemories Date_ toLowerCase formatDate now sess d pg blocks in
  let cleared := clearItineraryMemories toLowerCase formatDate now pg blocks in
  (forall dayRec p,
     In dayRec (itineraryData pg) -> JS.toString (Itinerary.id dayRec) = key ->
     tabPanels pg !! key = Some p ->
     refreshed !! key
       = blockFor toLowerCase formatDate now
           (loadMemoriesForDay Date_ toLowerCase sess d (Itinerary.id dayRec)) /\
     fst cleared !! key = None) /\
  ((forall dayRec, In dayRec (itineraryData pg) ->
                   JS.toString (Itinerary.id dayRec) <> key) \/
   tabPanels pg !! key = None ->
   refreshed !! key = blocks !! key /\ fst cleared !! key = blocks !! key) /\
  snd cleared = CoverHidden.
Proof.
  intros refreshed cleared.
  unfold refreshed, cleared, refreshAllDayMemories, clearItineraryMemories. cbn [fst snd].
  rewrite (rendered_days_lookup
             (fun n => loadMemoriesForDay Date_ toLowerCase sess d n)),
          (rendered_days_lookup (fun _ => None)).
  split; [|split; [|reflexivity]].
  - intros dayRec p Hin Hkey Hp. rewrite Hp.
    destruct (List.find _ (itineraryData pg)) as [found|] eqn:Ef.
    + apply find_some in Ef as [_ Ef]. apply String.eqb_eq in Ef.
      rewrite <- Hkey in Ef. apply NumberFacts.toString_inj in Ef. rewrite Ef. auto.
    + exfalso. apply (find_none _ _ Ef) in Hin. apply String.eqb_neq in Hin. contradiction.
  - intros [Hnone|Hnone].
    + destruct (List.find _ (itineraryData pg)) as [found|] eqn:Ef; [|auto].
      apply find_some in Ef as [Hin Ef]. apply String.eqb_eq in Ef.
      now apply Hnone in Hin.
    + rewrite Hnone. now destruct (List.find _ (itineraryData pg)).
Qed.

End Blocks.

End MemoriesViewFacts.

(** ** Controller: activation, panels, reload *)

Module ActivationFacts.

Import Itinerary Storage Controller Activation.

(** *** What [createPanel] and [updateDayProgress] leave alone *)

Lemma updateDayProgress_rest d pg :
  itineraryData (updateDayProgress d pg) = itineraryData pg /\
  diarySection (updateDayProgress d pg) = diarySection pg /\
  tabPanels (updateDayProgress d pg) = tabPanels pg /\
  items (updateDayProgress d pg) = items pg /\
  lastDay (updateDayProgress d pg) = lastDay pg /\
  search (updateDayProgress d pg) = search pg /\
  focused (updateDayProgress d pg) = focused pg.
Proof. unfold updateDayProgress. destruct (findDay _ _); repeat split. Qed.

Lemma createPanel_rest idStr pg :
  itineraryData (createPanel idStr pg) = itineraryData pg /\
  items (createPanel idStr pg) = items pg /\
  lastDay (createPanel idStr pg) = lastDay pg /\
  search (createPanel idStr pg) = search pg /\
  focused (createPanel idStr pg) = focused pg.
Proof.
  unfold createPanel.
  destruct (String.eqb idStr "diary"); [destruct (diarySection pg); repeat split|].
  destruct (String.eqb idStr "memories"); [repeat split|].
  destruct (findDay _ _); [|repeat split].
  cbn. destruct (updateDayProgress_rest (id d) pg) as (-> & _ & _ & -> & -> & -> & ->).
  repeat split.
Qed.

(** A panel is only ever put under the id asked for. *)
Lemma createPanel_other idStr pg key :
  key <> idStr -> tabPanels (createPanel idStr pg) !! key = tabPanels pg !! key.
Proof.
  intros Hne. unfold createPanel.
  destruct (String.eqb idStr "diary").
  { destruct (diarySection pg); cbn; now rewrite lookup_insert_ne. }
  destruct (String.eqb idStr "memories"); [cbn; now rewrite lookup_insert_ne|].
  destruct (findDay _ _); [|reflexivity].
  cbn. rewrite lookup_insert_ne by congruence.
  now destruct (updateDayProgress_rest (id d) pg) as (_ & _ & -> & _).
Qed.

(** When no panel comes out, the id is no view and no day, and nothing
    was done. *)
Lemma createPanel_nothing idStr pg :
  tabPanels (createPanel idStr pg) !! idStr = None ->
  String.eqb idStr "diary" = false /\ String.eqb idStr "memories" = false /\
  findDay (itineraryData pg) idStr = None /\ createPanel idStr pg = pg.
Proof.
  unfold createPanel.
  destruct (String.eqb idStr "diary").
  { destruct (diarySection pg); cbn; rewrite lookup_insert_eq; discriminate. }
  destruct (String.eqb idStr "memories"); [cbn; rewrite lookup_insert_eq; discriminate|].
  destruct (findDay _ _); [cbn; rewrite lookup_insert_eq; discriminate|].
  auto.
Qed.

Lemma createPanel_unknown idStr pg :
  String.eqb idStr "diary" = false -> String.eqb idStr "memories" = false ->
  findDay (itineraryData pg) idStr = None -> createPanel idStr pg = pg.
Proof. intros H1 H2 H3. unfold createPanel. now rewrite H1, H2, H3. Qed.

(** The page after the first two steps of [openTab]: the selection
    written on the tabs and the panel built if it was missing. *)
Lemma openTab_steps idStr pg :
  exists mid,
    mid = (let pg1 := with_tabs (List.map (selectTab idStr) (tabs pg)) pg in
           match tabPanels pg !! idStr with
           | Some _ => pg1
           | None => createPanel idStr pg1
           end) /\
    openTab idStr pg
    = mkPage (itineraryData mid) (diarySection mid) (tabs mid) (focused mid)
        (map_imap (fun key p =>
                     if String.eqb key idStr
                     then Some (mkPanel (content p) true false)
                     else Some (mkPanel (content p) false true))
                  (tabPanels mid))
        (items mid)
        (if negb (String.eqb idStr "diary") && negb (String.eqb idStr "memories")
         then Some idStr else lastDay mid)
        (if String.eqb idStr "diary"
         then SearchParams.delete (search mid) "dia"
         else SearchParams.set (search mid) "dia" idStr).
Proof. eexists. split; reflexivity. Qed.

(** *** Activating a view twice *)

Lemma delete_delete ps name :
  SearchParams.delete (SearchParams.delete ps name) name = SearchParams.delete ps name.
Proof.
  unfold SearchParams.delete.
  induction ps as [|[k v] ps IH]; cbn [List.filter fst]; [reflexivity|].
  destruct (String.eqb k name) eqn:E; cbn [List.filter fst negb]; [exact IH|].
  rewrite E. cbn [negb]. now f_equal.
Qed.

Lemma set_set ps name value :
  SearchParams.set (SearchParams.set ps name value) name value
  = SearchParams.set ps name value.
Proof.
  induction ps as [|[k v] ps IH]; cbn [SearchParams.set].
  - now rewrite String.eqb_refl.
  - destruct (String.eqb k name) eqn:E; cbn [SearchParams.set]; rewrite E.
    + now rewrite delete_delete.
    + now rewrite IH.
Qed.

(** A tab that already carries the selection of [idStr] is left as it
    is. *)
Lemma selectTab_fixed idStr t t' :
  sameButLabel (selectTab idStr t) t' -> selectTab idStr t' = t'.
Proof.
  intros (Hid & Hs & Hx & Ha). destruct t' as [i l s x a].
  unfold selectTab in *. cbn [tab_id aria_selected tabindex tab_active label] in *.
  unfold getIdFromTab in *. cbn [tab_id] in *. subst. reflexivity.
Qed.

Lemma selectTab_settled idStr pg :
  List.map (selectTab idStr) (tabs (openTab idStr pg)) = tabs (openTab idStr pg).
Proof.
  pose proof (ControllerFacts.tabs_openTab idStr pg) as F.
  remember (List.map (selectTab idStr) (tabs pg)) as l eqn:El.
  assert (G : Forall2 (fun a b => exists t, a = selectTab idStr t /\ sameButLabel a b)
                l (tabs (openTab idStr pg))).
  { subst l. clear - F. revert F. generalize (tabs (openTab idStr pg)).
    induction (tabs pg) as [|t ts IH]; intros l' F; inversion F; subst; constructor; eauto. }
  clear F El. induction G as [|a b l l' (t & -> & Hab) _ IH]; cbn; [reflexivity|].
  now rewrite IH, (selectTab_fixed _ _ _ Hab).
Qed.

Lemma panels_settled idStr (m : gmap string panel) :
  let f := fun (key : string) (p : panel) =>
             if String.eqb key idStr
             then Some (mkPanel (content p) true false)
             else Some (mkPanel (content p) false true) in
  map_imap f (map_imap f m) = map_imap f m.
Proof.
  intros f. apply map_eq. intros i. rewrite !map_lookup_imap.
  destruct (m !! i) as [p|]; cbn; [|reflexivity].
  unfold f. destruct (String.eqb i idStr) eqn:E; cbn; now rewrite ?E.
Qed.

(** X15. Activating the view that is already open changes nothing: the
    second [openTab] with the same id leaves the tabs, the panels, the
    stored last day and the address exactly as the first one left them,
    whatever the id (also one that names no view). *)
Theorem openTab_again (idStr : string) (pg : page) :
  openTab idStr (openTab idStr pg) = openTab idStr pg.
Proof.
  destruct (openTab_steps idStr pg) as (mid & Hmid & E).
  destruct (openTab_steps idStr (openTab idStr pg)) as (mid' & Hmid' & E').
  assert (Hsame : mid' = openTab idStr pg).
  { subst mid'. cbv zeta. rewrite selectTab_settled.
    assert (Heta : with_tabs (tabs (openTab idStr pg)) (openTab idStr pg)
                   = openTab idStr pg) by reflexivity.
    rewrite Heta.
    destruct (tabPanels (openTab idStr pg) !! idStr) eqn:L; [reflexivity|].
    apply createPanel_unknown.
    all: rewrite E in L; cbn [tabPanels] in L; rewrite map_lookup_imap in L.
    all: assert (Lmid : tabPanels mid !! idStr = None)
           by (destruct (tabPanels mid !! idStr); [cbn in L; rewrite String.eqb_refl in L;
                                                   discriminate | reflexivity]).
    all: assert (Hno : tabPanels pg !! idStr = None)
           by (destruct (tabPanels pg !! idStr) eqn:Lp; [|reflexivity];
               subst mid; cbv zeta in Lmid; cbn [tabPanels with_tabs] in Lmid; congruence).
    all: subst mid; cbv zeta in Lmid; rewrite Hno in Lmid.
    all: destruct (createPanel_nothing _ _ Lmid) as (H1 & H2 & H3 & _).
    - exact H1.
    - exact H2.
    - rewrite E. cbn [itineraryData]. rewrite Hno.
      destruct (createPanel_rest idStr (with_tabs (List.map (selectTab idStr) (tabs pg)) pg))
        as (-> & _). exact H3. }
  rewrite E', Hsame. rewrite E. cbn [itineraryData diarySection tabs focused tabPanels
                                      items lastDay search].
  f_equal.
  - apply panels_settled.
  - destruct (negb (String.eqb idStr "diary") && negb (String.eqb idStr "memories"));
      reflexivity.
  - destruct (String.eqb idStr "diary"); [apply delete_delete | apply set_set].
Qed.

(** *** The panels after an activation *)

Lemma openTab_lookup idStr pg key :
  exists mid,
    (forall k p, tabPanels pg !! k = Some p -> tabPanels mid !! k = Some p) /\
    (forall k, k <> idStr -> tabPanels mid !! k = tabPanels pg !! k) /\
    tabPanels (openTab idStr pg) !! key
    = match tabPanels mid !! key with
      | Some p => Some (mkPanel (content p) (String.eqb key idStr)
                                (negb (String.eqb key idStr)))
      | None => None
      end.
Proof.
  destruct (openTab_steps idStr pg) as (mid & Hmid & E). exists mid.
  assert (Hother : forall k, k <> idStr -> tabPanels mid !! k = tabPanels pg !! k).
  { intros k Hk. subst mid. cbv zeta.
    destruct (tabPanels pg !! idStr); [reflexivity|].
    now rewrite createPanel_other. }
  split; [|split; [exact Hother|]].
  - intros k p Hp. destruct (String.eqb_spec k idStr) as [->|Hk].
    + subst mid. cbv zeta. now rewrite Hp.
    + now rewrite Hother.
  - rewrite E. cbn [tabPanels]. rewrite map_lookup_imap.
    destruct (tabPanels mid !! key); cbn; [|reflexivity].
    now destruct (String.eqb key idStr).
Qed.

Lemma openTab_visible idStr pg k p' :
  tabPanels (openTab idStr pg) !! k = Some p' ->
  panel_active p' = String.eqb k idStr /\ panel_hidden p' = negb (String.eqb k idStr).
Proof.
  intros Hp'. destruct (openTab_lookup idStr pg k) as (mid & _ & _ & E).
  rewrite E in Hp'. destruct (tabPanels mid !! k); [|discriminate].
  injection Hp' as <-. split; reflexivity.
Qed.

Lemma openTab_keeps idStr pg k p :
  tabPanels pg !! k = Some p ->
  exists p', tabPanels (openTab idStr pg) !! k = Some p' /\ content p' = content p.
Proof.
  intros Hp. destruct (openTab_lookup idStr pg k) as (mid & Hkeep & _ & E).
  rewrite E, (Hkeep _ _ Hp). eexists. split; reflexivity.
Qed.

Lemma openTab_builds_one idStr pg k :
  k <> idStr -> tabPanels pg !! k = None -> tabPanels (openTab idStr pg) !! k = None.
Proof.
  intros Hne Hnone. destruct (openTab_lookup idStr pg k) as (mid & _ & Hother & E).
  now rewrite E, Hother, Hnone.
Qed.

(** X16. After [openTab id], every panel built so far is hidden and
    inactive except the one stored under [id], which is shown and
    active; the panels that existed before are all still there with the
    content they had (a panel is built once and reused); and no panel
    appears under any other id. *)
Theorem openTab_panels (idStr : string) (pg : page) :
  (forall k p', tabPanels (openTab idStr pg) !! k = Some p' ->
     panel_active p' = String.eqb k idStr /\
     panel_hidden p' = negb (String.eqb k idStr)) /\
  (forall k p, tabPanels pg !! k = Some p ->
     exists p', tabPanels (openTab idStr pg) !! k = Some p' /\
                content p' = content p) /\
  (forall k, k <> idStr -> tabPanels pg !! k = None ->
     tabPanels (openTab idStr pg) !! k = None).
Proof.
  split; [|split].
  - apply openTab_visible.
  - apply openTab_keeps.
  - apply openTab_builds_one.
Qed.

(** X17. Opening an id that is no view and no day of the itinerary (a
    stale [?dia=] link, say) builds nothing and leaves every panel
    hidden, and is still remembered: the id is stored as the last day
    and written to the address, so the next start-up asks for it
    again. *)
Theorem openTab_unknown_day (idStr : string) (pg : page) :
  idStr <> "diary" -> idStr <> "memories" ->
  findDay (itineraryData pg) idStr = None ->
  tabPanels pg !! idStr = None ->
  let pg' := openTab idStr pg in
  (forall k, is_Some (tabPanels pg' !! k) <-> is_Some (tabPanels pg !! k)) /\
  (forall k p', tabPanels pg' !! k = Some p' ->
     panel_hidden p' = true /\ panel_active p' = false) /\
  Forall (fun t => aria_selected t = true -> getIdFromTab t = idStr) (tabs pg') /\
  lastDay pg' = Some idStr /\
  SearchParams.get (search pg') "dia" = Some idStr /\
  (idStr <> "" -> startupView pg' = idStr).
Proof.
  intros Hd Hm Hfind Hnone pg'.
  assert (Hgone : tabPanels pg' !! idStr = None).
  { unfold pg', openTab. cbv zeta. cbn [tabPanels with_tabs]. rewrite Hnone.
    rewrite createPanel_unknown; [|now apply String.eqb_neq..|exact Hfind].
    cbn [tabPanels with_tabs]. now rewrite map_lookup_imap, Hnone. }
  assert (Hlast : lastDay pg' = Some idStr).
  { unfold pg', openTab. cbn [lastDay].
    apply String.eqb_neq in Hd, Hm. now rewrite Hd, Hm. }
  assert (Hget : SearchParams.get (search pg') "dia" = Some idStr).
  { unfold pg'. rewrite ControllerFacts.search_openTab.
    apply String.eqb_neq in Hd. rewrite Hd. apply ControllerFacts.get_set. }
  pose proof (openTab_visible idStr pg) as Hvis.
  pose proof (openTab_keeps idStr pg) as Hkeep.
  pose proof (openTab_builds_one idStr pg) as Hnew.
  fold pg' in Hvis, Hkeep, Hnew.
  split; [|split; [|split; [|split; [|split]]]].
  - intros k. split.
    + intros [p' Hp']. destruct (String.eqb_spec k idStr) as [->|Hk]; [congruence|].
      destruct (tabPanels pg !! k) eqn:L; [eauto|].
      rewrite (Hnew _ Hk L) in Hp'. discriminate.
    + intros [p Hp]. destruct (Hkeep _ _ Hp) as (p' & Hp' & _). eauto.
  - intros k p' Hp'. destruct (Hvis _ _ Hp') as [-> ->].
    destruct (String.eqb_spec k idStr) as [->|Hk]; [congruence|split; reflexivity].
  - apply List.Forall_forall. intros t Ht Hsel.
    exact (ControllerFacts.openTab_selected_only idStr pg t Ht Hsel).
  - exact Hlast.
  - exact Hget.
  - intros Hne. unfold startupView.
    rewrite (ControllerFacts.get_Some_has _ _ _ Hget), Hget. cbn.
    destruct idStr; [congruence|reflexivity].
Qed.

Lemma openTab_unknown_day_witness :
  findDay fourDays "9" = None /\
  lastDay (openTab "9" (startPage None [])) = Some "9" /\
  startupView (openTab "9" (startPage None [])) = "9".
Proof.
  assert (H := openTab_unknown_day "9" (startPage None [])
                 ltac:(discriminate) ltac:(discriminate)
                 ltac:(vm_compute; reflexivity) ltac:(vm_compute; reflexivity)).
  destruct H as (_ & _ & _ & Hl & _ & Hs).
  split; [reflexivity|]. split; [exact Hl | apply Hs; discriminate].
Defined.

(** *** The tab strip [buildTabs] makes *)

Lemma sameButLabel_ids a b :
  Forall2 sameButLabel a b -> List.map tab_id a = List.map tab_id b.
Proof.
  induction 1 as [|x y a b (Hid & _) _ IH]; cbn; [reflexivity|]. now rewrite Hid, IH.
Qed.

Lemma dayTabs_fold data pg :
  let pg' := fold_left
               (fun (pg : page) (day : dayRecord) =>
                  updateDayProgress (id day)
                    (with_tabs (tabs pg ++ [newTab ("tab-" +:+ JS.toString (id day))
                                                   ("Dia " +:+ JS.toString (id day))]) pg))
               data pg in
  List.map tab_id (tabs pg')
  = (List.map tab_id (tabs pg)
     ++ List.map (fun d => "tab-" +:+ JS.toString (id d)) data)%list /\
  itineraryData pg' = itineraryData pg /\ diarySection pg' = diarySection pg /\
  tabPanels pg' = tabPanels pg /\ items pg' = items pg /\
  lastDay pg' = lastDay pg /\ search pg' = search pg /\ focused pg' = focused pg.
Proof.
  cbv zeta. revert pg. induction data as [|d data IH]; intros pg.
  - cbn. rewrite app_nil_r. repeat split.
  - cbn [fold_left].
    destruct (IH (updateDayProgress (id d)
                    (with_tabs (tabs pg ++ [newTab ("tab-" +:+ JS.toString (id d))
                                                   ("Dia " +:+ JS.toString (id d))]) pg)))
      as (Ht & Hd & Hs & Hp & Hi & Hl & Hu & Hf).
    destruct (updateDayProgress_rest (id d)
                (with_tabs (tabs pg ++ [newTab ("tab-" +:+ JS.toString (id d))
                                               ("Dia " +:+ JS.toString (id d))]) pg))
      as (Rd & Rs & Rp & Ri & Rl & Ru & Rf).
    rewrite Hd, Hs, Hp, Hi, Hl, Hu, Hf, Rd, Rs, Rp, Ri, Rl, Ru, Rf.
    split; [|repeat split].
    rewrite Ht.
    rewrite <- (sameButLabel_ids _ _ (ControllerFacts.updateDayProgress_tabs (id d) _)).
    cbn [tabs with_tabs]. rewrite List.map_app. cbn [List.map tab_id newTab].
    now rewrite <- List.app_assoc.
Qed.

Lemma buildTabs_shape data section pg :
  let pg' := buildTabs data section pg in
  List.map tab_id (tabs pg')
  = (List.map (fun d => "tab-" +:+ JS.toString (id d)) data
     ++ match section with Some _ => ["tab-diary"] | None => [] end
     ++ ["tab-memories"])%list /\
  itineraryData pg' = data /\ diarySection pg' = section /\
  tabPanels pg' = ∅ /\ items pg' = items pg /\
  lastDay pg' = lastDay pg /\ search pg' = search pg /\ focused pg' = focused pg.
Proof.
  cbv zeta. unfold buildTabs.
  destruct (dayTabs_fold data
              (mkPage data section [] (focused pg) ∅ (items pg) (lastDay pg) (search pg)))
    as (Ht & Hd & Hs & Hp & Hi & Hl & Hu & Hf).
  cbn [tabs itineraryData diarySection tabPanels items lastDay search focused] in *.
  destruct section; cbn [tabs itineraryData diarySection tabPanels items lastDay search
                         focused with_tabs];
    rewrite ?List.map_app, Ht; cbn [List.map tab_id newTab app];
    rewrite ?Hd, ?Hs, ?Hp, ?Hi, ?Hl, ?Hu, ?Hf; rewrite <- ?List.app_assoc; repeat split.
Qed.

Lemma getIdFromTab_prefixed t s : tab_id t = "tab-" +:+ s -> getIdFromTab t = s.
Proof. intros E. unfold getIdFromTab. rewrite E. reflexivity. Qed.

(** The panel a first activation builds is the one shown. *)
Lemma openTab_fresh idStr pg p :
  tabPanels pg !! idStr = None ->
  tabPanels (createPanel idStr (with_tabs (List.map (selectTab idStr) (tabs pg)) pg))
    !! idStr = Some p ->
  tabPanels (openTab idStr pg) !! idStr = Some (mkPanel (content p) true false).
Proof.
  intros Hnone Hp. unfold openTab. cbv zeta. cbn [tabPanels with_tabs]. rewrite Hnone.
  cbn [tabPanels]. rewrite map_lookup_imap.
  unfold selectTab in Hp. rewrite Hp. cbn. now rewrite String.eqb_refl.
Qed.

Lemma findDay_of_day data d :
  In d data ->
  exists day, findDay data (JS.toString (id d)) = Some day /\ In day data /\
              JS.toString (id day) = JS.toString (id d).
Proof.
  intros Hin. unfold findDay.
  destruct (List.find _ data) as [day|] eqn:F.
  - apply List.find_some in F as [Hd E]. apply String.eqb_eq in E. eauto.
  - exfalso. pose proof (List.find_none _ _ F d Hin) as E. cbn in E.
    now rewrite String.eqb_refl in E.
Qed.

(** X18. The strip [buildTabs] makes has one tab per day, then the diary
    tab when the page has a diary section, then the memories tab; and
    activating any of these tabs on the fresh page shows a panel of the
    tab's own kind under the tab's id: a day panel of a day of the
    itinerary with that number, the diary panel holding the section, or
    the memories panel. *)
Theorem every_tab_opens_its_view (data : list dayRecord) (section : option diary)
    (pg0 : page) :
  let pg := buildTabs data section pg0 in
  List.map tab_id (tabs pg)
  = (List.map (fun d => "tab-" +:+ JS.toString (id d)) data
     ++ match section with Some _ => ["tab-diary"] | None => [] end
     ++ ["tab-memories"])%list /\
  length (tabs pg)
  = (length data + match section with Some _ => 1 | None => 0 end + 1)%nat /\
  Forall (fun t =>
            exists p, tabPanels (openTab (getIdFromTab t) pg) !! getIdFromTab t = Some p /\
                      panel_hidden p = false /\ panel_active p = true /\
                      match content p with
                      | DayPanel day _ _ _ =>
                          In day data /\ JS.toString (id day) = getIdFromTab t
                      | DiaryPanel withSection _ =>
                          getIdFromTab t = "diary" /\ withSection = true
                      | MemoriesPanel => getIdFromTab t = "memories"
                      end)
         (tabs pg).
Proof.
  intros pg. destruct (buildTabs_shape data section pg0) as (Ht & Hd & Hs & Hp & _).
  fold pg in Ht, Hd, Hs, Hp. split; [exact Ht|]. split.
  { rewrite <- (List.length_map tab_id), Ht, !List.length_app, List.length_map.
    destruct section; cbn; lia. }
  apply List.Forall_forall. intros t Hin.
  assert (Hid : In (tab_id t) (List.map tab_id (tabs pg))) by now apply List.in_map.
  assert (Hnone : forall k, tabPanels pg !! k = None) by (intros k; now rewrite Hp).
  rewrite Ht in Hid. apply List.in_app_or in Hid as [Hid|Hid];
    [|apply List.in_app_or in Hid as [Hid|Hid]].
  - apply List.in_map_iff in Hid as (d & Hd' & Hdin). symmetry in Hd'.
    rewrite (getIdFromTab_prefixed _ _ Hd').
    destruct (findDay_of_day _ _ Hdin) as (day & Hfind & Hday & Hsame).
    rewrite <- Hsame in *.
    eexists. split.
    { apply openTab_fresh; [apply Hnone|].
      apply ControllerFacts.createPanel_day. cbn [itineraryData with_tabs]. now rewrite Hd. }
    cbn. auto.
  - destruct section as [sec|]; [|destruct Hid].
    destruct Hid as [Hid|[]]. symmetry in Hid.
    rewrite (getIdFromTab_prefixed t "diary" Hid).
    eexists. split.
    { apply openTab_fresh; [apply Hnone|].
      unfold createPanel. cbn [String.eqb Ascii.eqb Bool.eqb diarySection with_tabs].
      rewrite Hs. cbn [tabPanels]. apply lookup_insert_eq. }
    cbn. auto.
  - destruct Hid as [Hid|[]]. symmetry in Hid.
    rewrite (getIdFromTab_prefixed t "memories" Hid).
    eexists. split.
    { apply openTab_fresh; [apply Hnone|].
      unfold createPanel. cbn [String.eqb Ascii.eqb Bool.eqb with_panels tabPanels].
      apply lookup_insert_eq. }
    cbn. auto.
Qed.

(** *** Reloading the page *)

Lemma openTab_rest idStr pg :
  itineraryData (openTab idStr pg) = itineraryData pg /\
  items (openTab idStr pg) = items pg /\
  lastDay (openTab idStr pg)
  = (if negb (String.eqb idStr "diary") && negb (String.eqb idStr "memories")
     then Some idStr else lastDay pg).
Proof.
  unfold openTab. cbv zeta. cbn [itineraryData items lastDay tabPanels with_tabs].
  destruct (tabPanels pg !! idStr); [repeat split|].
  destruct (createPanel_rest idStr
              (with_tabs (List.map (selectTab idStr) (tabs pg)) pg))
    as (Hd & Hi & Hl & _).
  unfold selectTab in Hd, Hi, Hl. rewrite Hd, Hi, Hl. repeat split.
Qed.

(** X19. What a reload comes back to after [openTab id]. A day or the
    memories view is restored: the address carries its id, which wins at
    start-up. The diary is not: its activation removes [dia] and stores
    nothing, so the reload opens the last day visited, or the first day
    (the diary when there is none) if no day was visited. An empty id
    falls back the same way. The notes and ticks in [localStorage]
    survive untouched. *)
Theorem reload_restores_view (idStr : string) (pg : page) (section : option diary) :
  let pg' := reload section (openTab idStr pg) in
  let fallback := match itineraryData pg with
                  | d :: _ => JS.toString (id d)
                  | [] => "diary"
                  end in
  items pg' = items pg /\
  (idStr <> "diary" -> idStr <> "" -> startupView pg' = idStr) /\
  (idStr = "diary" ->
     startupView pg' = if JS.truthy_opt (lastDay pg) then default "" (lastDay pg)
                       else fallback) /\
  (idStr = "" -> startupView pg' = fallback).
Proof.
  intros pg' fallback.
  destruct (buildTabs_shape (itineraryData (openTab idStr pg)) section
              (mkPage [] None [] None ∅ (items (openTab idStr pg))
                      (lastDay (openTab idStr pg)) (search (openTab idStr pg))))
    as (_ & Hd & _ & _ & Hi & Hl & Hu & _).
  fold (reload section (openTab idStr pg)) in Hd, Hi, Hl, Hu. fold pg' in Hd, Hi, Hl, Hu.
  cbn [items lastDay search] in Hi, Hl, Hu.
  destruct (openTab_rest idStr pg) as (Od & Oi & Ol).
  rewrite Od in Hd. rewrite Oi in Hi. rewrite Ol in Hl.
  rewrite ControllerFacts.search_openTab in Hu.
  split; [exact Hi|]. unfold startupView. rewrite Hd, Hl, Hu. split; [|split].
  - intros Hne Hne'. apply String.eqb_neq in Hne. rewrite Hne.
    rewrite (ControllerFacts.get_Some_has _ _ _ (ControllerFacts.get_set _ _ _)),
      ControllerFacts.get_set.
    cbn. destruct idStr; [congruence|reflexivity].
  - intros ->. cbn [String.eqb Ascii.eqb Bool.eqb negb andb].
    now rewrite ControllerFacts.has_delete.
  - intros ->. cbn [String.eqb Ascii.eqb Bool.eqb negb andb].
    rewrite (ControllerFacts.get_Some_has _ _ _ (ControllerFacts.get_set _ _ _)),
      ControllerFacts.get_set.
    reflexivity.
Qed.

(** *** The diary section and navigation *)

Lemma diarySection_openTab idStr pg :
  diarySection (openTab idStr pg)
  = if String.eqb idStr "diary"
    then match tabPanels pg !! idStr with
         | Some _ => diarySection pg
         | None => option_map (fun d => mkDiary (diary_hidden d) (diary_list d) true)
                              (diarySection pg)
         end
    else diarySection pg.
Proof.
  unfold openTab. cbv zeta. cbn [diarySection tabPanels with_tabs].
  destruct (tabPanels pg !! idStr).
  { now destruct (String.eqb idStr "diary"). }
  unfold createPanel. destruct (String.eqb idStr "diary").
  { cbn [diarySection with_tabs]. now destruct (diarySection pg). }
  destruct (String.eqb idStr "memories"); [reflexivity|].
  cbn [itineraryData with_tabs]. destruct (findDay _ _); [|reflexivity].
  cbn [diarySection with_panels].
  now rewrite (proj1 (proj2 (updateDayProgress_rest _ _))).
Qed.

(** What navigation keeps true of the diary: the section holds what the
    markup gave it, it is attached exactly when the diary panel has been
    built, and that panel was built around the section as it was. *)
Lemma diary_untouched_step (h : bool) (l : list diaryEntry) (opened : bool)
    (idStr : string) (pg : page) :
  diarySection pg = Some (mkDiary h l opened) ->
  (if opened
   then exists p, tabPanels pg !! "diary" = Some p /\ content p = DiaryPanel true h
   else tabPanels pg !! "diary" = None) ->
  let opened' := opened || String.eqb idStr "diary" in
  diarySection (openTab idStr pg) = Some (mkDiary h l opened') /\
  (if opened'
   then exists p, tabPanels (openTab idStr pg) !! "diary" = Some p /\
                  content p = DiaryPanel true h
   else tabPanels (openTab idStr pg) !! "diary" = None).
Proof.
  intros Hsec Hpanel opened'. unfold opened'.
  pose proof (openTab_keeps idStr pg) as Hkeep.
  pose proof (openTab_builds_one idStr pg) as Hnew.
  rewrite diarySection_openTab, Hsec.
  destruct (String.eqb_spec idStr "diary") as [->|Hne].
  - rewrite orb_true_r. destruct opened.
    + destruct Hpanel as (p & Hp & Hc). rewrite Hp. split; [reflexivity|].
      destruct (Hkeep _ _ Hp) as (p' & Hp' & Hc'). exists p'. split; [exact Hp'|].
      congruence.
    + rewrite Hpanel. split; [reflexivity|]. eexists. split.
      * apply openTab_fresh; [exact Hpanel|].
        unfold createPanel. cbn [String.eqb Ascii.eqb Bool.eqb diarySection with_tabs].
        rewrite Hsec. cbn [tabPanels]. apply lookup_insert_eq.
      * reflexivity.
  - rewrite orb_false_r. split; [reflexivity|]. destruct opened.
    + destruct Hpanel as (p & Hp & Hc).
      destruct (Hkeep _ _ Hp) as (p' & Hp' & Hc'). exists p'. split; [exact Hp'|].
      congruence.
    + apply Hnew; [congruence | exact Hpanel].
Qed.

Lemma diary_untouched_path (h : bool) (l : list diaryEntry) (path : list string) :
  forall (opened : bool) (pg : page),
    diarySection pg = Some (mkDiary h l opened) ->
    (if opened
     then exists p, tabPanels pg !! "diary" = Some p /\ content p = DiaryPanel true h
     else tabPanels pg !! "diary" = None) ->
    let opened' := opened || existsb (fun idStr => String.eqb idStr "diary") path in
    let pg' := fold_left (fun pg idStr => openTab idStr pg) path pg in
    items pg' = items pg /\
    diarySection pg' = Some (mkDiary h l opened') /\
    (if opened'
     then exists p, tabPanels pg' !! "diary" = Some p /\ content p = DiaryPanel true h
     else tabPanels pg' !! "diary" = None).
Proof.
  induction path as [|idStr path IH]; intros opened pg Hsec Hpanel; cbn [existsb fold_left].
  - rewrite orb_false_r. auto.
  - destruct (diary_untouched_step h l opened idStr pg Hsec Hpanel) as [Hsec' Hpanel'].
    destruct (IH _ _ Hsec' Hpanel') as (Hi & Hs & Hp).
    destruct (openTab_rest idStr pg) as (_ & Hitems & _).
    rewrite <- orb_assoc in Hs, Hp. rewrite Hi, Hitems. auto.
Qed.

(** X20. Navigation never refreshes the diary. From start-up on, through
    any sequence of activations, the stored items are untouched and the
    diary section holds what the markup gave it, hidden or not, whatever
    notes the store holds: a call of [updateDiary] that finds the
    section detached, as the one at start-up does, changes nothing, and
    building the diary panel attaches the section without refreshing
    it. Only a call of
    [updateDiary] made once the diary panel has been built (the note
    button makes one) puts the stored notes in the list, shows the
    section when there is an entry and sets the message of the panel
    when there is none. *)
Theorem diary_waits_for_a_note (data : list dayRecord) (h : bool) (l : list diaryEntry)
    (pg0 : page) (path : list string) :
  let start := buildTabs data (Some (mkDiary h l false)) pg0 in
  let pg := fold_left (fun pg idStr => openTab idStr pg) path start in
  let opened := existsb (fun idStr => String.eqb idStr "diary") path in
  let entries := diaryEntries (items pg0) in
  let none := match entries with [] => true | _ => false end in
  updateDiary start = start /\
  items pg = items pg0 /\
  diarySection pg = Some (mkDiary h l opened) /\
  (if opened
   then exists p, tabPanels pg !! "diary" = Some p /\ content p = DiaryPanel true h /\
                  diarySection (updateDiary pg) = Some (mkDiary none entries true) /\
                  tabPanels (updateDiary pg) !! "diary"
                  = Some (mkPanel (DiaryPanel true none) (panel_active p) (panel_hidden p))
   else tabPanels pg !! "diary" = None /\ updateDiary pg = pg).
Proof.
  intros start pg opened entries none.
  destruct (buildTabs_shape data (Some (mkDiary h l false)) pg0)
    as (_ & _ & Hs & Hp & Hi & _).
  fold start in Hs, Hp, Hi.
  assert (Hstart : updateDiary start = start).
  { unfold updateDiary. now rewrite Hs. }
  assert (Hnone : tabPanels start !! "diary" = None) by now rewrite Hp.
  destruct (diary_untouched_path h l path false start Hs Hnone) as (Hitems & Hsec & Hpanel).
  cbn [orb] in Hsec, Hpanel. fold pg in Hitems, Hsec, Hpanel. fold opened in Hsec, Hpanel.
  split; [exact Hstart|]. split; [congruence|]. split; [exact Hsec|].
  destruct opened.
  - destruct Hpanel as (p & Hp' & Hc). exists p. split; [exact Hp'|]. split; [exact Hc|].
    unfold updateDiary. rewrite Hsec. cbn [diary_attached]. rewrite Hp', Hc, Hitems, Hi.
    fold entries. fold none. cbn [diarySection tabPanels]. split; [reflexivity|].
    apply lookup_insert_eq.
  - split; [exact Hpanel|]. unfold updateDiary. now rewrite Hsec.
Qed.

End ActivationFacts.

From Stdlib Require Import Sorting.Sorted Sorting.Permutation.

(** ** Rows, notes and the diary *)

Module RowFacts.

Import Storage Activation.

(** *** Item keys *)

Lemma takeDigits_digits s : JS.all_digits s = true -> takeDigits s = (s, "").
Proof.
  induction s as [|c r IH]; [discriminate|]. intros H. cbn [takeDigits].
  destruct r as [|c' r'].
  - cbn in H. rewrite H. reflexivity.
  - cbn [JS.all_digits] in H. apply andb_true_iff in H as [Hc Hr].
    rewrite Hc, (IH Hr). reflexivity.
Qed.

Lemma takeDigits_app s c r :
  JS.all_digits s = true -> JS.is_digit c = false ->
  takeDigits (s +:+ String c r) = (s, String c r).
Proof.
  induction s as [|x s IH]; [discriminate|]. intros H Hc.
  change (String x s +:+ String c r) with (String x (s +:+ String c r)).
  cbn [takeDigits]. destruct s as [|y s'].
  - cbn in H. rewrite H. change ("" +:+ String c r) with (String c r).
    cbn [takeDigits]. now rewrite Hc.
  - cbn [JS.all_digits] in H. apply andb_true_iff in H as [Hx Hs].
    rewrite Hx, (IH Hs Hc). reflexivity.
Qed.

Lemma pretty_nat_digits (i : nat) :
  JS.all_digits (pretty i) = true /\ JS.truthy (pretty i) = true.
Proof.
  destruct (NumberFacts.pretty_N_digits (N.of_nat i)) as [H _].
  split; [exact H|].
  destruct (NumberFacts.all_digits_first _ H) as (c & r & E & _).
  change (pretty i) with (pretty (N.of_nat i)). now rewrite E.
Qed.

(** The key of an item of a day numbered [z >= 0] matches the pattern
    of the diary scan, with the day's digits as first group. *)
Lemma matchItemKey_itemKey (z : Z) (i : nat) :
  0 <= z -> matchItemKey (itemKey (JS.Int z) i) = Some (pretty z, pretty i).
Proof.
  intros Hz. unfold matchItemKey, itemKey. cbn [JS.toString].
  change (stripPrefix "day-" ("day-" +:+ pretty z +:+ "-item-" +:+ pretty i))
    with (Some (pretty z +:+ String "-" ("item-" +:+ pretty i))).
  cbv beta iota.
  assert (Hd : JS.all_digits (pretty z) = true).
  { rewrite NumberFacts.pretty_Z_nonneg by exact Hz. apply NumberFacts.pretty_N_digits. }
  rewrite (takeDigits_app (pretty z) "-" ("item-" +:+ pretty i) Hd eq_refl).
  destruct (NumberFacts.all_digits_first _ Hd) as (c & r & E & _).
  rewrite E at 1. cbn [JS.truthy negb].
  change (stripPrefix "-item-" (String "-" ("item-" +:+ pretty i))) with (Some (pretty i)).
  cbv beta iota.
  destruct (pretty_nat_digits i) as [Hi Ht].
  rewrite (takeDigits_digits _ Hi), Ht. reflexivity.
Qed.

Lemma itemKey_day_prefix d i :
  JS.truthy (itemKey d i) = true /\ JS.startsWith (itemKey d i) "day-" = true.
Proof.
  split; [reflexivity|].
  unfold itemKey.
  change ("day-" +:+ JS.toString d +:+ "-item-" +:+ pretty i)
    with (String "d" (String "a" (String "y" (String "-"
            (JS.toString d +:+ "-item-" +:+ pretty i))))).
  assert (N : forall s, JS.startsWith s "" = true) by (intros []; reflexivity).
  exact (N (JS.toString d +:+ "-item-" +:+ pretty i)).
Qed.

(** What the diary scan makes of a value stored under the key of an item
    of day [z >= 0]: an entry of day [z] carrying the note, when the
    value is truthy and has a truthy note. *)
Lemma entryOf_itemKey (z : Z) (i : nat) (j : json) :
  0 <= z ->
  entryOf (itemKey (JS.Int z) i, Parsed j)
  = if truthy j && truthy_opt (prop "note" j)
    then option_map (mkEntry z) (prop "note" j) else None.
Proof.
  intros Hz. unfold entryOf.
  destruct (itemKey_day_prefix (JS.Int z) i) as [-> ->]. cbn [negb orb parse].
  destruct (truthy j && truthy_opt (prop "note" j)); [|reflexivity].
  rewrite (matchItemKey_itemKey z i Hz).
  destruct (prop "note" j); [|reflexivity]. cbn [option_map]. do 2 f_equal.
  rewrite NumberFacts.pretty_Z_nonneg by exact Hz.
  destruct (NumberFacts.pretty_N_digits (Z.to_N z)) as [_ ->]. cbn. lia.
Qed.

Lemma itemKey_inj d i j : itemKey d i = itemKey d j -> i = j.
Proof.
  unfold itemKey. intros E.
  apply String.app_inj in E. apply String.app_inj in E. apply String.app_inj in E.
  now apply pretty_nat_inj in E.
Qed.

(** *** Properties of the saved object *)

Lemma find_setField_eq name v fields :
  List.find (fun kv : string * json => String.eqb (fst kv) name) (setField name v fields)
  = Some (match List.find (fun kv : string * json => String.eqb (fst kv) name) fields with
          | Some (k, _) => (k, v)
          | None => (name, v)
          end).
Proof.
  induction fields as [|[k w] r IH]; cbn [setField List.find fst].
  - now rewrite String.eqb_refl.
  - destruct (String.eqb k name) eqn:E; cbn [List.find fst]; rewrite E; [reflexivity|].
    exact IH.
Qed.

Lemma prop_setProp_eq name v fields :
  prop name (setProp name v (JObject fields)) = Some v.
Proof.
  cbn [prop setProp]. rewrite find_setField_eq.
  now destruct (List.find _ fields) as [[k w]|].
Qed.

Lemma prop_setProp_ne name other v j :
  other <> name -> prop other (setProp name v j) = prop other j.
Proof.
  intros Hne. destruct j as [| | | | |fields]; try reflexivity. cbn [prop setProp]. f_equal.
  induction fields as [|[k w] r IH]; cbn [setField List.find fst].
  - apply String.eqb_neq in Hne. rewrite String.eqb_sym. now rewrite Hne.
  - destruct (String.eqb k name) eqn:E; cbn [List.find fst].
    + apply String.eqb_eq in E. subst k.
      assert (String.eqb name other = false) as -> by (apply String.eqb_neq; congruence).
      reflexivity.
    + destruct (String.eqb k other); [reflexivity | exact IH].
Qed.

Lemma prop_deleteProp_eq name j : prop name (deleteProp name j) = None.
Proof.
  destruct j as [| | | | |fields]; try reflexivity. cbn [prop deleteProp].
  induction fields as [|[k w] r IH]; cbn [List.filter List.find fst]; [reflexivity|].
  destruct (String.eqb k name) eqn:E; cbn [negb List.find fst]; [exact IH|].
  now rewrite E.
Qed.

Lemma prop_deleteProp_ne name other j :
  other <> name -> prop other (deleteProp name j) = prop other j.
Proof.
  intros Hne. destruct j as [| | | | |fields]; try reflexivity. cbn [prop deleteProp]. f_equal.
  induction fields as [|[k w] r IH]; cbn [List.filter List.find fst]; [reflexivity|].
  destruct (String.eqb k name) eqn:E; cbn [negb List.find fst].
  - apply String.eqb_eq in E. subst k.
    assert (String.eqb name other = false) as -> by (apply String.eqb_neq; congruence).
    exact IH.
  - destruct (String.eqb k other); [reflexivity | exact IH].
Qed.

(** The object a row starts from, for a plain stored item. *)
Lemma plainItem_saved ls d i :
  plainItem (getItem ls (itemKey d i)) ->
  exists fields,
    saved (initRow ls d i) = JObject fields /\
    match getItem ls (itemKey d i) with
    | Some (Parsed (JObject fs)) => fs = fields
    | Some v => entryOf (itemKey d i, v) = None /\ fields = []
    | None => fields = []
    end.
Proof.
  unfold plainItem, initRow. cbn [saved].
  destruct (getItem ls (itemKey d i)) as [[|j]|]; cbn [parse].
  - intros _. exists []. repeat split. unfold entryOf.
    now destruct (negb _ || negb _).
  - intros [Hf|[fields ->]].
    + rewrite Hf. exists []. split; [reflexivity|].
      assert (E : entryOf (itemKey d i, Parsed j) = None).
      { unfold entryOf. destruct (negb _ || negb _); [reflexivity|]. cbn [parse].
        now rewrite Hf. }
      destruct j; try (split; [exact E | reflexivity]). discriminate.
    + exists fields. split; reflexivity.
  - intros _. exists []. split; reflexivity.
Qed.

(** Overwriting an item with a value the scan reads the same way leaves
    the scan as it was. *)
Lemma scan_setItem_same ls k v :
  match getItem ls k with
  | Some old => entryOf (k, old) = entryOf (k, v)
  | None => entryOf (k, v) = None
  end ->
  scan (setItem ls k v) = scan ls.
Proof.
  induction ls as [|[k0 w] ls IH]; cbn [getItem setItem scan].
  - now intros ->.
  - destruct (String.eqb_spec k0 k) as [->|Hne].
    + intros E. cbn [scan]. now rewrite E.
    + intros H. cbn [scan]. now rewrite (IH H).
Qed.

Lemma In_scan ls e :
  In e (scan ls) <-> exists kv, In kv ls /\ entryOf kv = Some e.
Proof.
  induction ls as [|kv ls IH]; cbn [scan].
  - split; [intros [] | intros (kv & [] & _)].
  - destruct (entryOf kv) as [e0|] eqn:E.
    + cbn [In]. rewrite IH. split.
      * intros [<-|(kv' & Hin & He)]; [exists kv; split; [now left | exact E]|].
        exists kv'. split; [now right | exact He].
      * intros (kv' & [<-|Hin] & He); [left; congruence|]. right. eauto.
    + rewrite IH. split.
      * intros (kv' & Hin & He). exists kv'. split; [now right | exact He].
      * intros (kv' & [<-|Hin] & He); [congruence|]. eauto.
Qed.

Lemma In_setItem ls k v : In (k, v) (setItem ls k v).
Proof.
  induction ls as [|[k0 w] ls IH]; cbn [setItem]; [now left|].
  destruct (String.eqb_spec k0 k) as [->|Hne]; [now left | now right].
Qed.

(** *** The done button *)

Lemma count_flip (f g : nat -> bool) (i : nat) (l : list nat) :
  List.NoDup l -> In i l -> (forall j, In j l -> j <> i -> g j = f j) ->
  g i = negb (f i) ->
  (length (List.filter g l) + (if f i then 1 else 0)
   = length (List.filter f l) + (if f i then 0 else 1))%nat.
Proof.
  intros Hnd Hin Hsame Hflip.
  induction l as [|x l IH]; [destruct Hin|].
  apply List.NoDup_cons_iff in Hnd as [Hx Hnd]. cbn [List.filter].
  destruct Hin as [->|Hin].
  - assert (E : List.filter g l = List.filter f l).
    { apply List.filter_ext_in. intros j Hj. apply Hsame; [now right|]. congruence. }
    rewrite Hflip, E. destruct (f i); cbn; lia.
  - assert (Hxi : x <> i) by congruence.
    rewrite (Hsame x (or_introl eq_refl) Hxi).
    assert (IH' := IH Hnd Hin (fun j Hj => Hsame j (or_intror Hj))).
    destruct (f x); cbn [length]; lia.
Qed.

(** A panel built again from the store shows the row as the done button
    left it. *)
Lemma doneClick_reload (ls : storage) (d : JS.number) (i : nat) :
  plainItem (getItem ls (itemKey d i)) ->
  initRow (snd (doneClick d i (initRow ls d i) ls)) d i
  = fst (doneClick d i (initRow ls d i) ls).
Proof.
  intros Hplain.
  destruct (plainItem_saved ls d i Hplain) as (fields & Hsaved & _).
  set (rv := initRow ls d i) in *.
  set (after := setProp "completed" (JBool (negb (completed rv))) (JObject fields)).
  assert (Hnote : prop "note" after = prop "note" (JObject fields)).
  { apply prop_setProp_ne. discriminate. }
  assert (Hcompl : prop "completed" after = Some (JBool (negb (completed rv)))).
  { apply prop_setProp_eq. }
  unfold doneClick. cbn [fst snd]. rewrite Hsaved. fold after.
  unfold initRow at 1. rewrite StorageFacts.getItem_setItem_eq. cbn [parse].
  change (truthy after) with true. cbv iota. rewrite Hnote, Hcompl.
  cbn [truthy_opt truthy]. f_equal.
  unfold rv, initRow. cbn [noteDisplay]. unfold rv, initRow in Hsaved. cbn [saved] in Hsaved.
  now rewrite Hsaved.
Qed.

(** X21. Ticking or unticking a row whose stored item is plain (absent,
    unreadable, falsy or an object) is persistent and local: the class
    of the row flips and the note display stays; a panel built again
    from the store shows exactly the row as the click left it; for a
    day of [total] items containing the row the completed count moves by
    exactly one, in the direction of the click; no other key of the
    store changes; and the diary entries are what they were. *)
Theorem doneClick_persists (ls : storage) (d : JS.number) (i : nat) :
  plainItem (getItem ls (itemKey d i)) ->
  let rv := initRow ls d i in
  let rv' := fst (doneClick d i rv ls) in
  let ls' := snd (doneClick d i rv ls) in
  completed rv' = negb (completed rv) /\
  noteDisplay rv' = noteDisplay rv /\
  initRow ls' d i = rv' /\
  (forall total, (i < total)%nat ->
     (countCompleted ls' d total + (if completed rv then 1 else 0)
      = countCompleted ls d total + (if completed rv then 0 else 1))%nat) /\
  (forall k, k <> itemKey d i -> getItem ls' k = getItem ls k) /\
  diaryEntries ls' = diaryEntries ls.
Proof.
  intros Hplain rv rv' ls'.
  destruct (plainItem_saved ls d i Hplain) as (fields & Hsaved & Hstored).
  set (c := truthy_opt (prop "completed" (JObject fields))).
  set (after := JObject (setField "completed" (JBool (negb c)) fields)).
  assert (Hrv : rv = mkRow c (if truthy_opt (prop "note" (JObject fields))
                              then Some (prop "note" (JObject fields)) else None)
                           (JObject fields)).
  { unfold rv, initRow. unfold initRow in Hsaved. cbn [saved] in Hsaved.
    now rewrite Hsaved. }
  assert (Hrv' : rv' = mkRow (negb c) (noteDisplay rv) after).
  { unfold rv', doneClick. cbn [fst]. now rewrite Hrv. }
  assert (Hls' : ls' = setItem ls (itemKey d i) (Parsed after)).
  { unfold ls', doneClick. cbn [snd]. now rewrite Hrv. }
  assert (Hnote : prop "note" after = prop "note" (JObject fields)).
  { apply (prop_setProp_ne "completed" "note" _ (JObject fields)). discriminate. }
  assert (Hcompl : prop "completed" after = Some (JBool (negb c))).
  { apply (prop_setProp_eq "completed" _ fields). }
  assert (Hinit : initRow ls' d i = rv') by exact (doneClick_reload ls d i Hplain).
  assert (Hdone : forall st, isCompleted st d i = completed (initRow st d i)).
  { intros st. unfold isCompleted, initRow. cbn [completed].
    destruct (parse (getItem st (itemKey d i))) as [j|]; [|reflexivity].
    destruct (truthy j); reflexivity. }
  split; [now rewrite Hrv', Hrv|]. split; [now rewrite Hrv'|]. split; [exact Hinit|].
  split; [|split].
  - intros total Hlt. unfold countCompleted. fold rv in Hdone.
    replace (completed rv) with (isCompleted ls d i) by apply Hdone.
    apply count_flip.
    + apply List.seq_NoDup.
    + apply List.in_seq. lia.
    + intros j _ Hne. unfold isCompleted. rewrite Hls'.
      rewrite StorageFacts.getItem_setItem_ne; [reflexivity|].
      intros E. apply Hne. symmetry. exact (itemKey_inj _ _ _ E).
    + rewrite (Hdone ls'), Hinit, (Hdone ls). change (initRow ls d i) with rv.
      rewrite Hrv', Hrv. reflexivity.
  - intros k Hk. rewrite Hls'. apply StorageFacts.getItem_setItem_ne. congruence.
  - unfold diaryEntries. f_equal. rewrite Hls'. apply scan_setItem_same.
    assert (Hafter : entryOf (itemKey d i, Parsed after)
                     = entryOf (itemKey d i, Parsed (JObject fields))).
    { unfold entryOf. destruct (negb _ || negb _); [reflexivity|]. cbn [parse].
      rewrite Hnote. reflexivity. }
    assert (Hempty : entryOf (itemKey d i, Parsed (JObject [])) = None).
    { unfold entryOf. now destruct (negb _ || negb _). }
    rewrite Hafter.
    destruct (getItem ls (itemKey d i)) as [[|j]|].
    + destruct Hstored as [-> ->]. now rewrite Hempty.
    + destruct j as [| | | | |fs];
        [destruct Hstored as [-> ->]; now rewrite Hempty ..|now subst].
    + now subst fields.
Qed.

Lemma doneClick_persists_witness :
  completed (fst (doneClick (JS.Int 2) 0 (initRow sampleStore (JS.Int 2) 0) sampleStore))
  = false /\
  countCompleted
    (snd (doneClick (JS.Int 2) 0 (initRow sampleStore (JS.Int 2) 0) sampleStore))
    (JS.Int 2) 2 = 0%nat /\
  countCompleted sampleStore (JS.Int 2) 2 = 1%nat.
Proof.
  assert (Hplain : plainItem (getItem sampleStore (itemKey (JS.Int 2) 0))).
  { right. eexists. reflexivity. }
  destruct (doneClick_persists sampleStore (JS.Int 2) 0 Hplain) as (Hc & _ & _ & Hn & _).
  split; [exact Hc|]. specialize (Hn 2%nat ltac:(lia)).
  assert (E : countCompleted sampleStore (JS.Int 2) 2 = 1%nat) by reflexivity.
  rewrite E in Hn. split; [|exact E].
  change (completed (initRow sampleStore (JS.Int 2) 0)) with true in Hn.
  cbv iota in Hn. lia.
Defined.

(** *** Notes and the diary *)

Lemma insertByDay_perm e l : Permutation (insertByDay e l) (e :: l).
Proof.
  induction l as [|x l IH]; cbn [insertByDay]; [reflexivity|].
  destruct (entry_day e <=? entry_day x); [reflexivity|].
  rewrite IH. apply perm_swap.
Qed.

Lemma sortByDay_perm l : Permutation (sortByDay l) l.
Proof.
  induction l as [|e l IH]; cbn [sortByDay fold_right]; [reflexivity|].
  fold (sortByDay l). rewrite insertByDay_perm. now constructor.
Qed.

Lemma insertByDay_sorted e l :
  Sorted (fun a b => entry_day a <= entry_day b) l ->
  Sorted (fun a b => entry_day a <= entry_day b) (insertByDay e l).
Proof.
  induction l as [|x l IH]; intros Hs; cbn [insertByDay].
  - repeat constructor.
  - destruct (Z.leb_spec (entry_day e) (entry_day x)) as [Hle|Hgt].
    + constructor; [exact Hs|]. constructor. exact Hle.
    + apply Sorted_inv in Hs as [Hs Hhd]. constructor; [now apply IH|].
      destruct l as [|y l]; cbn [insertByDay].
      * constructor. lia.
      * destruct (entry_day e <=? entry_day y); constructor; [lia|].
        now apply HdRel_inv in Hhd.
Qed.

Lemma sortByDay_sorted l :
  Sorted (fun a b => entry_day a <= entry_day b) (sortByDay l).
Proof.
  induction l as [|e l IH]; cbn [sortByDay fold_right]; [constructor|].
  now apply insertByDay_sorted.
Qed.

Lemma In_diaryEntries ls e :
  (exists kv, In kv ls /\ entryOf kv = Some e) -> In e (diaryEntries ls).
Proof.
  intros H. apply In_scan in H. unfold diaryEntries.
  apply Permutation_in with (l := scan ls); [|exact H]. symmetry. apply sortByDay_perm.
Qed.

(** X22. The diary lists exactly the notes the scan finds: an entry is
    shown if and only if some stored item yields it, each as often as it
    is stored, and the entries come in increasing order of day. *)
Theorem diary_lists_stored_notes (ls : storage) :
  Permutation (diaryEntries ls) (scan ls) /\
  Sorted (fun a b => entry_day a <= entry_day b) (diaryEntries ls) /\
  (forall e, In e (diaryEntries ls) <-> exists kv, In kv ls /\ entryOf kv = Some e).
Proof.
  split; [apply sortByDay_perm|]. split; [apply sortByDay_sorted|].
  intros e. rewrite <- In_scan. split; apply Permutation_in.
  - apply sortByDay_perm.
  - symmetry. apply sortByDay_perm.
Qed.

Lemma isCompleted_initRow st d i : isCompleted st d i = completed (initRow st d i).
Proof.
  unfold isCompleted, initRow. cbn [completed].
  destruct (parse (getItem st (itemKey d i))) as [j|]; [|reflexivity].
  destruct (truthy j); reflexivity.
Qed.

(** X23. Answering the note prompt on a row of day [z] (a day number
    that prints as plain digits) whose stored item is plain. The tick of
    the row and the completed counts are untouched and a panel built
    again from the store shows the row as the answer left it. An answer
    that is not blank is shown on the row, trimmed, and is an entry of
    day [z] in the diary. A blank answer hides the note display and
    takes the row out of the diary: the entries are those of the store
    without the row's key. *)
Theorem noteClick_reaches_diary (ls : storage) (z : Z) (i : nat) (note : string) :
  0 <= z <= 9007199254740991 ->
  plainItem (getItem ls (itemKey (JS.Int z) i)) ->
  let rv := initRow ls (JS.Int z) i in
  let rv' := fst (noteClick (JS.Int z) i (Some note) rv ls) in
  let ls' := snd (noteClick (JS.Int z) i (Some note) rv ls) in
  let text := JS.trim note in
  completed rv' = completed rv /\
  initRow ls' (JS.Int z) i = rv' /\
  (forall total, countCompleted ls' (JS.Int z) total = countCompleted ls (JS.Int z) total) /\
  (text <> "" ->
     noteDisplay rv' = Some (Some (JString text)) /\
     In (mkEntry z (JString text)) (diaryEntries ls')) /\
  (text = "" ->
     noteDisplay rv' = None /\
     diaryEntries ls' = diaryEntries (removeItem ls (itemKey (JS.Int z) i))).
Proof.
  intros Hz Hplain rv rv' ls' text.
  destruct (plainItem_saved ls (JS.Int z) i Hplain) as (fields & Hsaved & _).
  set (after := if JS.truthy text then setProp "note" (JString text) (JObject fields)
                else deleteProp "note" (JObject fields)).
  assert (Hrv : saved rv = JObject fields) by exact Hsaved.
  assert (Hrv' : rv' = mkRow (completed rv)
                             (if JS.truthy text then Some (prop "note" after) else None)
                             after).
  { unfold rv', noteClick. cbn [fst]. fold text. rewrite Hrv. reflexivity. }
  assert (Hls' : ls' = setItem ls (itemKey (JS.Int z) i) (Parsed after)).
  { unfold ls', noteClick. cbn [snd]. fold text. rewrite Hrv. reflexivity. }
  assert (Hobj : truthy after = true).
  { unfold after. destruct (JS.truthy text); reflexivity. }
  assert (Hcompl : prop "completed" after = prop "completed" (JObject fields)).
  { unfold after. destruct (JS.truthy text);
      [apply prop_setProp_ne | apply prop_deleteProp_ne]; discriminate. }
  assert (Hnote : prop "note" after
                  = if JS.truthy text then Some (JString text) else None).
  { unfold after. destruct (JS.truthy text);
      [apply prop_setProp_eq | apply prop_deleteProp_eq]. }
  assert (Hc : completed rv = truthy_opt (prop "completed" (JObject fields))).
  { unfold rv, initRow. cbn [completed]. unfold initRow in Hsaved. cbn [saved] in Hsaved.
    now rewrite Hsaved. }
  assert (Hinit : initRow ls' (JS.Int z) i = rv').
  { unfold initRow. rewrite Hls', StorageFacts.getItem_setItem_eq. cbn [parse].
    rewrite Hobj, Hrv', Hcompl, Hc, Hnote.
    destruct (JS.truthy text) eqn:T; [|reflexivity].
    cbn [truthy_opt truthy]. now rewrite T. }
  split; [now rewrite Hrv'|]. split; [exact Hinit|]. split; [|split].
  - intros total. unfold countCompleted. f_equal. apply List.filter_ext. intros j.
    destruct (Nat.eq_dec j i) as [->|Hne].
    + now rewrite !isCompleted_initRow, Hinit, Hrv'.
    + unfold isCompleted. rewrite Hls', StorageFacts.getItem_setItem_ne; [reflexivity|].
      intros E. apply Hne. symmetry. exact (itemKey_inj _ _ _ E).
  - intros Hne.
    assert (T : forall s, s <> "" -> JS.truthy s = true)
      by (intros [|? ?] ?; [congruence | reflexivity]).
    specialize (T text Hne).
    rewrite Hrv'. cbn [noteDisplay]. rewrite Hnote, T. split; [reflexivity|].
    apply In_diaryEntries.
    exists (itemKey (JS.Int z) i, Parsed after). split; [rewrite Hls'; apply In_setItem|].
    rewrite entryOf_itemKey by lia. rewrite Hobj, Hnote, T. cbn [truthy_opt truthy andb].
    now rewrite T.
  - intros He. assert (T : JS.truthy text = false) by now rewrite He.
    rewrite Hrv'. cbn [noteDisplay]. rewrite T. split; [reflexivity|].
    unfold diaryEntries. f_equal. rewrite Hls'. apply StorageFacts.scan_setItem_silent.
    rewrite entryOf_itemKey by lia. now rewrite Hnote, T, andb_false_r.
Qed.

Lemma noteClick_reaches_diary_witness :
  plainItem (getItem sampleStore (itemKey (JS.Int 1) 3)) /\
  In (mkEntry 1 (JString "praia"))
     (diaryEntries (snd (noteClick (JS.Int 1) 3 (Some "  praia ")
                                   (initRow sampleStore (JS.Int 1) 3) sampleStore))).
Proof.
  assert (Hplain : plainItem (getItem sampleStore (itemKey (JS.Int 1) 3))).
  { right. eexists. reflexivity. }
  split; [exact Hplain|].
  destruct (noteClick_reaches_diary sampleStore 1 3 "  praia " ltac:(lia) Hplain)
    as (_ & _ & _ & Hyes & _).
  assert (Hne : JS.trim "  praia " <> "") by (vm_compute; discriminate).
  exact (proj2 (Hyes Hne)).
Defined.

(** An answer of no-break spaces is blank: the note goes, and an answer
    padded with them is stored without them. *)
Example blank_answer_removes_the_note :
  noteClick (JS.Int 1) 3 (Some "  ") (initRow sampleStore (JS.Int 1) 3) sampleStore
  = (mkRow false None (JObject []),
     setItem sampleStore "day-1-item-3" (Parsed (JObject []))) /\
  noteDisplay (fst (noteClick (JS.Int 1) 3 (Some " praia ")
                              (initRow sampleStore (JS.Int 1) 3) sampleStore))
  = Some (Some (JString "praia")).
Proof. split; reflexivity. Qed.

Lemma matchItemKey_unnumbered (d : JS.number) (i : nat) :
  (d = JS.NaN \/ exists p, d = JS.Int (Z.neg p)) -> matchItemKey (itemKey d i) = None.
Proof.
  intros [->|[p ->]]; [reflexivity|].
  unfold itemKey. cbn [JS.toString]. rewrite NumberFacts.pretty_Z_neg. reflexivity.
Qed.

(** X24. A day whose number is [NaN] (a card without a usable
    [data-day]) or negative has rows that keep their notes, but the
    diary never shows them: whatever is stored under the key of such a
    row yields no entry, so after any answer to the note prompt the
    diary is that of the store without the row's key. *)
Theorem unnumbered_day_notes_stay_out (d : JS.number) (i : nat) (ls : storage) :
  (d = JS.NaN \/ exists p, d = JS.Int (Z.neg p)) ->
  (forall v, entryOf (itemKey d i, v) = None) /\
  (forall note rv,
     getItem (snd (noteClick d i (Some note) rv ls)) (itemKey d i)
     = Some (Parsed (saved (fst (noteClick d i (Some note) rv ls)))) /\
     diaryEntries (snd (noteClick d i (Some note) rv ls))
     = diaryEntries (removeItem ls (itemKey d i))).
Proof.
  intros Hd.
  assert (Hnone : forall v, entryOf (itemKey d i, v) = None).
  { intros v. unfold entryOf. rewrite (matchItemKey_unnumbered d i Hd).
    destruct (negb _ || negb _); [reflexivity|].
    destruct (parse (Some v)) as [j|]; [|reflexivity].
    now destruct (truthy j && truthy_opt (prop "note" j)). }
  split; [exact Hnone|]. intros note rv. unfold noteClick. cbn [fst snd saved]. split.
  - apply StorageFacts.getItem_setItem_eq.
  - unfold diaryEntries. f_equal. apply StorageFacts.scan_setItem_silent. apply Hnone.
Qed.

Lemma unnumbered_day_notes_stay_out_witness :
  noteDisplay (fst (noteClick JS.NaN 0 (Some "praia") (initRow [] JS.NaN 0) []))
  = Some (Some (JString "praia")) /\
  diaryEntries (snd (noteClick JS.NaN 0 (Some "praia") (initRow [] JS.NaN 0) [])) = [].
Proof.
  split; [reflexivity|].
  destruct (unnumbered_day_notes_stay_out JS.NaN 0 [] (or_introl eq_refl)) as [_ H].
  exact (proj2 (H "praia" (initRow [] JS.NaN 0))).
Defined.

End RowFacts.

(** ** Countdown and theme *)

Module WidgetFacts.

(** X25. Before the departure the countdown shows the remaining time
    rounded down to the minute: the three numbers it computes are a
    number of days, of hours below 24 and of minutes below 60, and
    together they fall short of the remaining milliseconds by less than
    one minute. *)
Theorem countdown_rounds_down (now : Z) :
  now < Countdown.target ->
  let diff := Countdown.target - now in
  let '(days, hours, minutes) := Countdown.parts diff in
  0 <= days /\ 0 <= hours < 24 /\ 0 <= minutes < 60 /\
  0 <= diff - (days * 86400000 + hours * 3600000 + minutes * 60000) < 60000.
Proof.
  intros Hlt diff. assert (Hpos : 0 < diff) by (unfold diff; lia).
  clearbody diff. unfold Countdown.parts.
  change (1000 * 60 * 60 * 24) with 86400000.
  change (1000 * 60 * 60) with 3600000.
  change (1000 * 60) with 60000.
  cbv zeta beta iota.
  Z.to_euclidean_division_equations.
  lia.
Qed.

Lemma countdown_rounds_down_witness :
  Countdown.parts (Countdown.target - (Countdown.target - 90061000)) = (1, 1, 1) /\
  Countdown.update (Countdown.target - 90061000) = "1 dia 1h 1min" /\
  0 <= 90061000 - (1 * 86400000 + 1 * 3600000 + 1 * 60000) < 60000.
Proof.
  split; [reflexivity|]. split; [reflexivity|].
  pose proof (countdown_rounds_down (Countdown.target - 90061000) ltac:(lia)) as H.
  cbv zeta in H.
  change (Countdown.parts (Countdown.target - (Countdown.target - 90061000)))
    with (1, 1, 1) in H.
  cbv iota beta in H.
  change (Countdown.target - (Countdown.target - 90061000)) with 90061000 in H.
  exact (proj2 (proj2 (proj2 H))).
Defined.

Example countdown_texts :
  Countdown.update Countdown.target = "A viagem já começou!" /\
  Countdown.update (Countdown.target - 1) = "0min" /\
  Countdown.update (Countdown.target - 3 * 86400000) = "3 dias 0min" /\
  Countdown.update (Countdown.target - 7200000 - 300000) = "2h 5min".
Proof. repeat split; reflexivity. Qed.

(** X26. The theme toggle. A click flips the dark class, shows the sun
    on a dark page and the moon on a light one, and stores the theme it
    applied; start-up then applies the stored theme whatever the
    system preference is, so the page comes back as the click left it;
    and two more clicks bring back exactly that state. Without a stored
    theme start-up follows the system preference. *)
Theorem theme_toggle_round_trip (st : Theme.state) (prefersDark : bool) :
  let st' := Theme.toggle st in
  Theme.dark st' = negb (Theme.dark st) /\
  Theme.icon st' = (if Theme.dark st' then "☀️" else "🌙") /\
  Theme.stored st' = Some (if Theme.dark st' then "dark" else "light") /\
  Theme.initTheme prefersDark st' = st' /\
  Theme.toggle (Theme.toggle st') = st' /\
  (Theme.stored st = None ->
   Theme.dark (Theme.initTheme prefersDark st) = prefersDark).
Proof.
  destruct st as [[] ic so], prefersDark; cbn; repeat split; intros ->; reflexivity.
Qed.

End WidgetFacts.

(** ** A note and the diary tab *)

Module SessionFacts.

Import Itinerary Storage Controller Activation.

Lemma noteClick_stores_entry (ls : storage) (z : Z) (i : nat) (note : string)
    (rv : rowView) (fields : list (string * json)) :
  0 <= z -> saved rv = JObject fields -> JS.trim note <> "" ->
  In (mkEntry z (JString (JS.trim note)))
     (diaryEntries (snd (noteClick (JS.Int z) i (Some note) rv ls))).
Proof.
  intros Hz Hsaved Hne.
  assert (T : JS.truthy (JS.trim note) = true).
  { destruct (JS.trim note); [now contradiction Hne | reflexivity]. }
  unfold noteClick. cbn [snd]. rewrite T, Hsaved.
  apply RowFacts.In_diaryEntries.
  exists (itemKey (JS.Int z) i, Parsed (setProp "note" (JString (JS.trim note)) (JObject fields))).
  split; [apply RowFacts.In_setItem|].
  rewrite RowFacts.entryOf_itemKey by exact Hz.
  rewrite RowFacts.prop_setProp_eq. cbn [setProp truthy truthy_opt andb option_map].
  now rewrite T.
Qed.

(** The first activation of a day builds its panel from the store. *)
Lemma open_day_panel (pg : page) (day : dayRecord) (k : string) :
  findDay (itineraryData pg) k = Some day -> tabPanels pg !! k = None ->
  exists prevBtn nextBtn,
    tabPanels (openTab k pg) !! k
    = Some (mkPanel (DayPanel day (initRows (items pg) (id day) (schedule day))
                              prevBtn nextBtn) true false).
Proof.
  intros Hfind Hnone.
  assert (Hk : JS.toString (id day) = k).
  { unfold findDay in Hfind. apply List.find_some in Hfind as [_ E].
    now apply String.eqb_eq in E. }
  subst k. do 2 eexists.
  pose proof (ControllerFacts.createPanel_day
                (with_tabs (List.map (selectTab (JS.toString (id day))) (tabs pg)) pg)
                day Hfind) as C.
  exact (ActivationFacts.openTab_fresh _ _ _ Hnone C).
Qed.

Lemma nth_error_initRows ls d sched i :
  (i < length sched)%nat -> nth_error (initRows ls d sched) i = Some (initRow ls d i).
Proof.
  intros Hlt. unfold initRows. rewrite List.nth_error_map.
  rewrite List.nth_error_seq. destruct (Nat.ltb_spec i (length sched)); [reflexivity | lia].
Qed.

Lemma putRow_rest (k : string) (i : nat) (rv : rowView) (ls : storage) (pg : page)
    (p : panel) day rows prevBtn nextBtn :
  tabPanels pg !! k = Some p -> content p = DayPanel day rows prevBtn nextBtn ->
  items (putRow k i rv ls pg) = ls /\
  diarySection (putRow k i rv ls pg) = diarySection pg /\
  (forall k', k' <> k -> tabPanels (putRow k i rv ls pg) !! k' = tabPanels pg !! k').
Proof.
  intros Hp Hc. unfold putRow. rewrite Hp, Hc. cbn [items diarySection tabPanels].
  repeat split. intros k' Hne. now rewrite lookup_insert_ne.
Qed.

(** A note written on a row of a panel that shows the store: the note
    is stored, and the diary section is refreshed exactly when it is
    attached. *)
Lemma clickNote_effect (pg : page) (day : dayRecord) (z : Z) (k : string) (i : nat)
    (note : string) (a hd : bool) (prevBtn nextBtn : option string)
    (h : bool) (l : list diaryEntry) (att : bool) :
  0 <= z -> id day = JS.Int z -> k <> "diary" ->
  tabPanels pg !! k
  = Some (mkPanel (DayPanel day (initRows (items pg) (id day) (schedule day))
                            prevBtn nextBtn) a hd) ->
  (i < length (schedule day))%nat ->
  plainItem (getItem (items pg) (itemKey (JS.Int z) i)) ->
  JS.trim note <> "" ->
  diarySection pg = Some (mkDiary h l att) ->
  let pg' := clickNote (Some note) k i pg in
  In (mkEntry z (JString (JS.trim note))) (diaryEntries (items pg')) /\
  diarySection pg'
  = (if att then Some (mkDiary false (diaryEntries (items pg')) true)
     else Some (mkDiary h l false)) /\
  (att = false -> tabPanels pg' !! "diary" = tabPanels pg !! "diary").
Proof.
  intros Hz Hid Hk Hp Hi Hplain Hne Hsec pg'.
  assert (Hb : boundRow k i pg = Some (day, initRow (items pg) (JS.Int z) i)).
  { unfold boundRow. rewrite Hp. cbn [content]. rewrite nth_error_initRows by exact Hi.
    now rewrite Hid. }
  destruct (RowFacts.plainItem_saved _ _ _ Hplain) as (fields & Hsaved & _).
  pose proof (noteClick_stores_entry (items pg) z i note _ fields Hz Hsaved Hne) as Hin.
  unfold pg', clickNote. rewrite Hb, Hid.
  destruct (noteClick (JS.Int z) i (Some note) (initRow (items pg) (JS.Int z) i) (items pg))
    as [rv' ls'] eqn:E.
  cbn [snd] in Hin.
  destruct (putRow_rest k i rv' ls' pg _ _ _ _ _ Hp eq_refl) as (Hitems & Hsec' & Hother).
  unfold updateDiary. rewrite Hsec', Hsec. cbn [diary_attached]. destruct att.
  - cbn [items diarySection]. rewrite Hitems. split; [exact Hin|]. split; [|discriminate].
    destruct (diaryEntries ls'); [destruct Hin | reflexivity].
  - rewrite Hitems, Hsec', Hsec. split; [exact Hin|]. split; [reflexivity|].
    intros _. apply Hother. congruence.
Qed.

(** X27. A note and the diary tab. On a freshly loaded page, a note
    written on a row of a day's panel is stored and would be a diary
    entry; yet when the diary tab is opened for the first time after
    that, the section attached to the diary panel is the one the markup
    gave, hidden or not, with the list it had: the note is not in it
    unless the markup had it. When the diary tab was opened before the
    note is written, the note's handler refreshes the section: it is
    shown and lists the stored entries, the new note among them. *)
Theorem note_before_diary_is_missed (data : list dayRecord) (h : bool)
    (l : list diaryEntry) (pg0 : page) (day : dayRecord) (z : Z) (i : nat)
    (note : string) :
  0 <= z <= 9007199254740991 ->
  findDay data (JS.toString (JS.Int z)) = Some day ->
  (i < length (schedule day))%nat ->
  plainItem (getItem (items pg0) (itemKey (JS.Int z) i)) ->
  JS.trim note <> "" ->
  let k := JS.toString (JS.Int z) in
  let start := buildTabs data (Some (mkDiary h l false)) pg0 in
  let e := mkEntry z (JString (JS.trim note)) in
  let late := openTab "diary" (clickNote (Some note) k i (openTab k start)) in
  let early := clickNote (Some note) k i (openTab k (openTab "diary" start)) in
  In e (diaryEntries (items late)) /\
  diarySection late = Some (mkDiary h l true) /\
  (exists p, tabPanels late !! "diary" = Some p /\ content p = DiaryPanel true h) /\
  In e (diaryEntries (items early)) /\
  diarySection early = Some (mkDiary false (diaryEntries (items early)) true).
Proof.
  intros Hz Hfind Hi Hplain Hne k start e late early.
  destruct (ActivationFacts.buildTabs_shape data (Some (mkDiary h l false)) pg0)
    as (_ & Hd & Hs & Hp & Hit & _).
  fold start in Hd, Hs, Hp, Hit.
  assert (Hid : id day = JS.Int z).
  { unfold findDay in Hfind. apply List.find_some in Hfind as [_ E].
    apply String.eqb_eq in E. now apply NumberFacts.toString_inj. }
  assert (Hk : k <> "diary").
  { apply String.eqb_neq. apply ControllerFacts.toString_not_view. }
  assert (Hkb : String.eqb k "diary" = false) by now apply String.eqb_neq.
  assert (Hnone : forall x, tabPanels start !! x = None) by (intros x; now rewrite Hp).
  (* the note first *)
  assert (Hfind1 : findDay (itineraryData start) k = Some day) by now rewrite Hd.
  destruct (open_day_panel start day k Hfind1 (Hnone k)) as (pb & nb & Hpanel1).
  destruct (ActivationFacts.diary_untouched_step h l false k start Hs (Hnone "diary"))
    as [Hsec1 Hdiary1].
  cbn [orb] in Hsec1, Hdiary1. rewrite Hkb in Hsec1, Hdiary1.
  destruct (ActivationFacts.openTab_rest k start) as (Hd1 & Hit1 & _).
  rewrite <- Hit1 in Hpanel1.
  assert (Hplain1 : plainItem (getItem (items (openTab k start)) (itemKey (JS.Int z) i)))
    by now rewrite Hit1, Hit.
  destruct (clickNote_effect (openTab k start) day z k i note true false pb nb h l false
              ltac:(lia) Hid Hk Hpanel1 Hi Hplain1 Hne Hsec1)
    as (Hin2 & Hsec2 & Hdiary2).
  cbv iota in Hsec2. specialize (Hdiary2 eq_refl). rewrite Hdiary1 in Hdiary2.
  destruct (ActivationFacts.diary_untouched_step h l false "diary" _ Hsec2 Hdiary2)
    as [Hsec3 Hdiary3].
  change (false || String.eqb "diary" "diary") with true in Hsec3, Hdiary3.
  destruct (ActivationFacts.openTab_rest "diary" (clickNote (Some note) k i (openTab k start)))
    as (_ & Hit3 & _).
  split; [unfold late; now rewrite Hit3|]. split; [exact Hsec3|]. split; [exact Hdiary3|].
  (* the diary first *)
  destruct (ActivationFacts.diary_untouched_step h l false "diary" start Hs (Hnone "diary"))
    as [HsecA HdiaryA].
  change (false || String.eqb "diary" "diary") with true in HsecA, HdiaryA.
  destruct (ActivationFacts.openTab_rest "diary" start) as (HdA & HitA & _).
  assert (HnoneA : tabPanels (openTab "diary" start) !! k = None)
    by (apply ActivationFacts.openTab_builds_one; [exact Hk | apply Hnone]).
  assert (HfindA : findDay (itineraryData (openTab "diary" start)) k = Some day)
    by now rewrite HdA, Hd.
  destruct (open_day_panel _ day k HfindA HnoneA) as (pbB & nbB & HpanelB).
  destruct (ActivationFacts.diary_untouched_step h l true k _ HsecA HdiaryA)
    as [HsecB _].
  cbn [orb] in HsecB.
  destruct (ActivationFacts.openTab_rest k (openTab "diary" start)) as (_ & HitB & _).
  rewrite <- HitB in HpanelB.
  assert (HplainB : plainItem (getItem (items (openTab k (openTab "diary" start)))
                                       (itemKey (JS.Int z) i)))
    by now rewrite HitB, HitA, Hit.
  destruct (clickNote_effect _ day z k i note true false pbB nbB h l true
              ltac:(lia) Hid Hk HpanelB Hi HplainB Hne HsecB)
    as (HinC & HsecC & _).
  split; [exact HinC | exact HsecC].
Qed.

Lemma note_before_diary_is_missed_witness :
  let start := buildTabs fourDays (Some (mkDiary true [] false))
                 (mkPage [] None [] None ∅ [] None []) in
  diarySection (openTab "diary" (clickNote (Some "praia") "2" 0 (openTab "2" start)))
  = Some (mkDiary true [] true) /\
  diarySection (clickNote (Some "praia") "2" 0 (openTab "2" (openTab "diary" start)))
  = Some (mkDiary false [mkEntry 2 (JString "praia")] true).
Proof.
  cbv zeta.
  destruct (note_before_diary_is_missed fourDays true []
              (mkPage [] None [] None ∅ [] None [])
              (mkDay (JS.Int 2) "Sintra" "" None [row "10:00" "Palacio"; row "" "Almoco"])
              2 0 "praia" ltac:(lia) eq_refl ltac:(cbn; lia) ltac:(left; reflexivity)
              ltac:(vm_compute; discriminate))
    as (_ & Hlate & _ & _ & Hearly).
  split; [exact Hlate|]. refine (eq_trans Hearly _). vm_compute. reflexivity.
Defined.

(** *** Ticks and the tab label *)

Lemma lookup_nth_error {A} (l : list A) (i : nat) : l !! i = nth_error l i.
Proof. revert i. induction l as [|x l IH]; intros [|i]; cbn; auto. Qed.

Lemma initRows_after_write (ls ls' : storage) (d : JS.number)
    (sched : list scheduleItem) (i : nat) (rv' : rowView) :
  (forall j, j <> i -> getItem ls' (itemKey d j) = getItem ls (itemKey d j)) ->
  initRow ls' d i = rv' ->
  <[i := rv']> (initRows ls d sched) = initRows ls' d sched.
Proof.
  intros Hother Hrow. apply list_eq. intros j.
  assert (Hlen : forall st, length (initRows st d sched) = length sched).
  { intros st. unfold initRows. now rewrite List.length_map, List.length_seq. }
  destruct (Nat.lt_ge_cases j (length sched)) as [Hlt|Hge].
  - rewrite (lookup_nth_error (initRows ls' d sched)), nth_error_initRows by exact Hlt.
    destruct (Nat.eq_dec j i) as [->|Hne].
    + rewrite list_lookup_insert_eq by (rewrite Hlen; exact Hlt). now rewrite Hrow.
    + rewrite list_lookup_insert_ne by congruence.
      rewrite lookup_nth_error, nth_error_initRows by exact Hlt.
      f_equal. unfold initRow. now rewrite (Hother j Hne).
  - rewrite !lookup_nth_error.
    assert (N : forall l : list rowView, (length l <= j)%nat -> nth_error l j = None)
      by (intros l0 H0; now apply List.nth_error_None).
    rewrite !N; [reflexivity | now rewrite Hlen | now rewrite length_insert, Hlen].
Qed.

Lemma count_completed_rows (ls : storage) (d : JS.number) (sched : list scheduleItem) :
  countCompleted ls d (length sched)
  = length (List.filter completed (initRows ls d sched)).
Proof.
  unfold countCompleted, initRows. generalize (seq 0 (length sched)). intros l.
  induction l as [|j l IH]; [reflexivity|]. cbn [List.filter List.map].
  rewrite RowFacts.isCompleted_initRow.
  destruct (completed (initRow ls d j)); cbn [length]; now rewrite IH.
Qed.

(** X28. A tick and the tab label. For a day none of whose markup makes
    a list item of its own (so that the rows of its panel are the items
    of its schedule), on the panel of that day showing the store, a
    click on the done button of a row whose stored item is plain flips
    that row only, leaves the panel showing the store as it now is, and
    the day's tab then reads the number of rows ticked in the panel out
    of the number of rows, or the check mark when all of them are
    ticked. *)
Theorem tick_updates_the_label (pg : page) (day : dayRecord) (k : string) (i : nat)
    (a hd : bool) (prevBtn nextBtn : option string) (t : tab) :
  flatDay day = true ->
  findDay (itineraryData pg) k = Some day ->
  tabPanels pg !! k
  = Some (mkPanel (DayPanel day (initRows (items pg) (id day) (schedule day))
                            prevBtn nextBtn) a hd) ->
  (i < length (schedule day))%nat ->
  plainItem (getItem (items pg) (itemKey (id day) i)) ->
  List.find (fun x => String.eqb (tab_id x) ("tab-" +:+ k)) (tabs pg) = Some t ->
  let pg' := clickDone k i pg in
  let rows := initRows (items pg) (id day) (schedule day) in
  let rows' := initRows (items pg') (id day) (schedule day) in
  let ticked := length (List.filter completed rows') in
  let total := length rows' in
  tabPanels pg' !! k = Some (mkPanel (DayPanel day rows' prevBtn nextBtn) a hd) /\
  (forall j, j <> i -> nth_error rows' j = nth_error rows j) /\
  option_map completed (nth_error rows' i)
  = option_map (fun r => negb (completed r)) (nth_error rows i) /\
  exists t',
    List.find (fun x => String.eqb (tab_id x) ("tab-" +:+ k)) (tabs pg') = Some t' /\
    label t' = if (ticked =? total)%nat then "Dia " +:+ k +:+ " ✓"
               else "Dia " +:+ k +:+ " (" +:+ pretty ticked +:+ "/" +:+ pretty total +:+ ")".
Proof.
  intros _ Hfind Hp Hi Hplain Htab pg' rows rows' ticked total.
  assert (Hk : JS.toString (id day) = k).
  { unfold findDay in Hfind. apply List.find_some in Hfind as [_ E].
    now apply String.eqb_eq in E. }
  assert (Hb : boundRow k i pg = Some (day, initRow (items pg) (id day) i)).
  { unfold boundRow. rewrite Hp. cbn [content]. now rewrite nth_error_initRows. }
  pose proof (RowFacts.doneClick_reload (items pg) (id day) i Hplain) as Hreload.
  assert (Hpg' : pg' = updateDayProgress (id day)
                         (putRow k i (fst (doneClick (id day) i (initRow (items pg) (id day) i)
                                                     (items pg)))
                                 (snd (doneClick (id day) i (initRow (items pg) (id day) i)
                                                 (items pg))) pg)).
  { unfold pg', clickDone. rewrite Hb. reflexivity. }
  set (rv' := fst (doneClick (id day) i (initRow (items pg) (id day) i) (items pg))) in *.
  set (ls' := snd (doneClick (id day) i (initRow (items pg) (id day) i) (items pg))) in *.
  assert (Hother : forall j, j <> i ->
                     getItem ls' (itemKey (id day) j) = getItem (items pg) (itemKey (id day) j)).
  { intros j Hne. unfold ls', doneClick. cbn [snd].
    apply StorageFacts.getItem_setItem_ne. intros E. apply Hne. symmetry.
    exact (RowFacts.itemKey_inj _ _ _ E). }
  destruct (putRow_rest k i rv' ls' pg _ _ _ _ _ Hp eq_refl) as (Hitems & _ & _).
  destruct (ActivationFacts.updateDayProgress_rest (id day) (putRow k i rv' ls' pg))
    as (_ & _ & Hpanels & Hitems' & _).
  assert (Hls : items pg' = ls') by (rewrite Hpg', Hitems'; exact Hitems).
  assert (Hrows : <[i := rv']> rows = rows').
  { unfold rows, rows'. rewrite Hls. now apply initRows_after_write. }
  split; [|split; [|split]].
  - rewrite Hpg', Hpanels. unfold putRow. rewrite Hp. cbn [content tabPanels panel_active
                                                          panel_hidden].
    rewrite lookup_insert_eq. fold rows. now rewrite Hrows.
  - intros j Hne. unfold rows', rows. rewrite Hls.
    destruct (Nat.lt_ge_cases j (length (schedule day))) as [Hlt|Hge].
    + rewrite !nth_error_initRows by exact Hlt. f_equal. unfold initRow.
      now rewrite (Hother j Hne).
    + assert (N : forall st, nth_error (initRows st (id day) (schedule day)) j = None).
      { intros st. apply List.nth_error_None. unfold initRows.
        now rewrite List.length_map, List.length_seq. }
      now rewrite !N.
  - unfold rows', rows. rewrite Hls, !nth_error_initRows by exact Hi. cbn [option_map].
    f_equal. rewrite Hreload. reflexivity.
  - assert (Hfind' : findDay (itineraryData (putRow k i rv' ls' pg)) (JS.toString (id day))
                     = Some day).
    { unfold putRow. rewrite Hp. cbn [content itineraryData]. now rewrite Hk. }
    assert (Htab' : List.find (fun x => String.eqb (tab_id x) ("tab-" +:+ k))
                              (tabs (putRow k i rv' ls' pg)) = Some t).
    { unfold putRow. rewrite Hp. cbn [content tabs]. exact Htab. }
    rewrite Hpg'. unfold updateDayProgress. rewrite Hfind'. cbn [tabs with_tabs].
    rewrite Hk. eexists. split; [apply ControllerFacts.find_setLabel, Htab'|].
    cbn [label]. rewrite Hitems.
    assert (Htotal : total = length (schedule day)).
    { unfold total, rows', initRows. now rewrite List.length_map, List.length_seq. }
    assert (Hticked : ticked = countCompleted ls' (id day) (length (schedule day))).
    { unfold ticked, rows'. rewrite Hls. symmetry. apply count_completed_rows. }
    rewrite <- Hticked, <- Htotal.
    assert ((0 <? total)%nat = true) as -> by (apply Nat.ltb_lt; lia).
    reflexivity.
Qed.

Lemma tick_updates_the_label_witness :
  exists t',
    List.find (fun x => String.eqb (tab_id x) "tab-2")
              (tabs (clickDone "2" 1 (openTab "2" (startPage None [])))) = Some t' /\
    label t' = "Dia 2 ✓".
Proof.
  destruct (tick_updates_the_label (openTab "2" (startPage None []))
              (mkDay (JS.Int 2) "Sintra" "" None [row "10:00" "Palacio"; row "" "Almoco"])
              "2" 1 true false (Some "1") (Some "3")
              (mkTab "tab-2" "Dia 2 (1/2)" true 0 true) eq_refl
              ltac:(vm_compute; reflexivity) ltac:(vm_compute; reflexivity)
              ltac:(cbn; lia) ltac:(left; reflexivity) ltac:(vm_compute; reflexivity))
    as (_ & _ & _ & t' & Hfind & Hlabel).
  exists t'. split; [exact Hfind|]. rewrite Hlabel. vm_compute. reflexivity.
Defined.

End SessionFacts.
